(** * Bird-nest detector: the detection pipeline

    A shallow embedding of the TypeScript sources of the detector
    ([imageProcessing], the utility decoder, the worker's decoder and
    message handler, the first version of the decoder, the choice of a backend
    and the state of the page) and the properties of its specification.

    Numbers.  A JavaScript number is modelled by [value]: a finite number is
    an exact rational kept in lowest terms, [NaN] is the not-a-number value,
    and [Undefined] is what an element read outside an array gives.  Rounding
    to binary floating point, overflow to an infinity and the sign of zero
    are not represented; a division by zero gives [NaN].

    Effects.  A call that may throw gives a [completion].  The worker's
    [onmessage] is a step on the module's [session] variable that posts one
    message; the steps are taken one after the other. *)

From Stdlib Require Import ZArith QArith Qreduction Qround Lia Lqa String Bool.
From Stdlib.Strings Require Import Byte.
From stdpp Require Import base list strings pretty gmap.

Open Scope nat_scope.

(** ** JavaScript values and arithmetic *)

Module JS.

Inductive value : Type :=
| Num (q : Q)
| NaN
| Undefined.

Definition of_nat (n : nat) : value := Num (inject_Z (Z.of_nat n)).
Definition of_Z (z : Z) : value := Num (inject_Z z).

(** [a - b], [a * b], [a / b]: anything that is not a number makes NaN. *)
Definition sub (a b : value) : value :=
  match a, b with
  | Num x, Num y => Num (Qred (x - y))
  | _, _ => NaN
  end.

Definition mul (a b : value) : value :=
  match a, b with
  | Num x, Num y => Num (Qred (x * y))
  | _, _ => NaN
  end.

Definition div (a b : value) : value :=
  match a, b with
  | Num x, Num y => if Qeq_bool y 0 then NaN else Num (Qred (x / y))
  | _, _ => NaN
  end.

(** [a + b] on numbers. *)
Definition add (a b : value) : value :=
  match a, b with
  | Num x, Num y => Num (Qred (x + y))
  | _, _ => NaN
  end.

(** [a < b], [a > b], [a >= b]: false as soon as one side is not a number. *)
Definition lt (a b : value) : bool :=
  match a, b with
  | Num x, Num y => match Qcompare x y with Lt => true | _ => false end
  | _, _ => false
  end.

Definition gt (a b : value) : bool := lt b a.

Definition ge (a b : value) : bool :=
  match a, b with
  | Num x, Num y => Qle_bool y x
  | _, _ => false
  end.

(** [Math.round]: the nearest integer, halves rounded up. *)
Definition round (a : value) : value :=
  match a with
  | Num x => Num (inject_Z (Qfloor (x + (1 # 2))))
  | _ => NaN
  end.

(** [Math.min]. *)
Definition min (a b : value) : value :=
  match a, b with
  | Num x, Num y => if Qle_bool x y then Num x else Num y
  | _, _ => NaN
  end.

(** Truthiness of a number, as [||] and [!] test it. *)
Definition truthy (a : value) : bool :=
  match a with
  | Num x => negb (Qeq_bool x 0)
  | _ => false
  end.

(** [a || b] on numbers. *)
Definition or_else (a b : value) : value := if truthy a then a else b.

(** [arr[i]] for an index that is a loop counter. *)
Definition read (arr : list value) (i : nat) : value :=
  default Undefined (arr !! i).

(** [arr[v]] for an index that is a number: only a non-negative integer
    names an element. *)
Definition index {A} (arr : list A) (v : value) : option A :=
  match v with
  | Num x =>
      if ((Qden (Qred x) =? 1)%positive && (0 <=? Qnum (Qred x))%Z)%bool
      then arr !! Z.to_nat (Qnum (Qred x))
      else None
  | _ => None
  end.

(** [for (let i = start; i < start + n; i++) body]: the loop state is
    threaded through the body; [continue] is a body that returns its
    state. *)
Fixpoint for_loop {S : Type} (n : nat) (i : nat) (body : nat -> S -> S) (s : S) : S :=
  match n with
  | O => s
  | Datatypes.S n' => for_loop n' (Datatypes.S i) body (body i s)
  end.

(** [for (let i = start; i < bound; i += step) body], on [fuel] rounds at
    most. *)
Fixpoint for_stride {S : Type} (fuel : nat) (i bound step : nat)
    (body : nat -> S -> S) (s : S) : S :=
  match fuel with
  | O => s
  | Datatypes.S fuel' =>
      if i <? bound
      then for_stride fuel' (i + step) bound step body (body i s)
      else s
  end.

(** The counters that [for_stride] visits. *)
Fixpoint stride_seq (fuel i bound step : nat) : list nat :=
  match fuel with
  | O => []
  | Datatypes.S fuel' =>
      if i <? bound then i :: stride_seq fuel' (i + step) bound step else []
  end.

(** What a function call completes with: a value, or a thrown [Error]
    with its message. *)
Inductive completion (A : Type) : Type :=
| Normal (a : A)
| Throw (message : string).
Arguments Normal {A} a.
Arguments Throw {A} message.

Definition bind {A B} (c : completion A) (k : A -> completion B) : completion B :=
  match c with
  | Normal a => k a
  | Throw m => Throw m
  end.

End JS.

#[export] Instance completion_bind : MBind JS.completion :=
  fun A B k c => JS.bind c k.
#[export] Instance completion_ret : MRet JS.completion :=
  fun A a => JS.Normal a.

(** ** src/types/index.ts *)

Record BirdNestDetection : Type := {
  bbox : JS.value * JS.value * JS.value * JS.value;  (* [x, y, width, height] *)
  score : JS.value;
  class_id : JS.value;
  class_name : option string   (* [None] is [undefined] *)
}.

Record PreprocessedImageData : Type := {
  tensor : list JS.value;
  width : nat;
  height : nat;
  originalWidth : nat;
  originalHeight : nat
}.

(** An [ort.Tensor]: its flat buffer and its dimensions. *)
Record Tensor : Type := {
  data : list JS.value;
  dims : list nat
}.

(** The class table, the same constant in both decoders. *)
Definition classNames : list string := ["birdnest"%string].

(** The scale factors and the conversion from a centre box to a scaled
    top-left box, written the same way in every branch of both decoders. *)
Definition scale (original model : nat) : JS.value :=
  JS.div (JS.of_nat original) (JS.of_nat model).

Definition scaledBox (x y width height xScale yScale : JS.value)
  : JS.value * JS.value * JS.value * JS.value :=
  let scaledX := JS.mul (JS.sub x (JS.div width (JS.Num 2))) xScale in
  let scaledY := JS.mul (JS.sub y (JS.div height (JS.Num 2))) yScale in
  let scaledWidth := JS.mul width xScale in
  let scaledHeight := JS.mul height yScale in
  (scaledX, scaledY, scaledWidth, scaledHeight).

(** The search for the class of highest probability:
    [let maxClassProb = 0; let classId = 0;
     for (c = 0; c < classNames.length; c++) { if (classProb > maxClassProb) ... }],
    where [slot c] is the class probability read for class [c]. *)
Definition bestClass (slot : nat -> JS.value) : JS.value * nat :=
  JS.for_loop (length classNames) 0
    (fun c '(maxClassProb, classId) =>
       let classProb := slot c in
       if JS.gt classProb maxClassProb then (classProb, c) else (maxClassProb, classId))
    (JS.Num 0, 0).

(** The rows format, [[1, num_detections, 5 + num_classes]], is the first
    branch of both decoders, with the same text. *)
Definition rowsBody (data : list JS.value) (confidenceThreshold xScale yScale : JS.value)
    (detectionSize : nat) (i : nat) (detections : list BirdNestDetection)
  : list BirdNestDetection :=
  let baseIndex := i * detectionSize in
  let x := JS.read data baseIndex in
  let y := JS.read data (baseIndex + 1) in
  let width := JS.read data (baseIndex + 2) in
  let height := JS.read data (baseIndex + 3) in
  let confidence := JS.read data (baseIndex + 4) in
  if JS.lt confidence confidenceThreshold then detections else
  let '(maxClassProb, classId) := bestClass (fun c => JS.read data (baseIndex + 5 + c)) in
  let score := JS.mul confidence maxClassProb in
  if JS.lt score confidenceThreshold then detections else
  detections ++ [ {| bbox := scaledBox x y width height xScale yScale;
                     score := score;
                     class_id := JS.of_nat classId;
                     class_name := classNames !! classId |} ].

Definition decodeRows (data : list JS.value) (confidenceThreshold xScale yScale : JS.value)
    (numDetections detectionSize : nat) : list BirdNestDetection :=
  JS.for_loop numDetections 0
    (rowsBody data confidenceThreshold xScale yScale detectionSize) [].

(** ** The utility decoder (src/unnamed/part_001) *)

Module ModelUtils.

(** [getIndexFrom4D(dimensions, n, c, h, w)], for four dimensions. *)
Definition getIndexFrom4D (dimensions : list nat) (n c h w : nat) : nat :=
  let d k := default 0 (dimensions !! k) in
  n * d 1 * d 2 * d 3 + c * d 2 * d 3 + h * d 3 + w.

Definition boxOffset : nat := 0.
Definition confidenceOffset : nat := 4.
Definition classOffset : nat := 5.

(** Format 2, the body of the inner loop over the grid cells. *)
Definition gridBody (data : list JS.value) (dimensions : list nat)
    (confidenceThreshold xScale yScale : JS.value)
    (cy cx : nat) (detections : list BirdNestDetection) : list BirdNestDetection :=
  let confidenceIndex := getIndexFrom4D dimensions 0 confidenceOffset cy cx in
  let confidence := JS.read data confidenceIndex in
  if JS.lt confidence confidenceThreshold then detections else
  let '(maxClassProb, classId) :=
    bestClass (fun c => JS.read data (getIndexFrom4D dimensions 0 (classOffset + c) cy cx)) in
  let score := JS.mul confidence maxClassProb in
  if JS.lt score confidenceThreshold then detections else
  let xIndex := getIndexFrom4D dimensions 0 boxOffset cy cx in
  let yIndex := getIndexFrom4D dimensions 0 (boxOffset + 1) cy cx in
  let wIndex := getIndexFrom4D dimensions 0 (boxOffset + 2) cy cx in
  let hIndex := getIndexFrom4D dimensions 0 (boxOffset + 3) cy cx in
  let x := JS.read data xIndex in
  let y := JS.read data yIndex in
  let width := JS.read data wIndex in
  let height := JS.read data hIndex in
  detections ++ [ {| bbox := scaledBox x y width height xScale yScale;
                     score := score;
                     class_id := JS.of_nat classId;
                     class_name := classNames !! classId |} ].

Definition decodeGrid (data : list JS.value) (dimensions : list nat)
    (confidenceThreshold xScale yScale : JS.value)
    (gridHeight gridWidth : nat) : list BirdNestDetection :=
  JS.for_loop gridHeight 0
    (fun cy detections =>
       JS.for_loop gridWidth 0
         (gridBody data dimensions confidenceThreshold xScale yScale cy) detections)
    [].

(** Format 3, [[1, 84, num_boxes]]. *)
Definition directBody (data : list JS.value) (confidenceThreshold xScale yScale : JS.value)
    (numBoxes : nat) (i : nat) (detections : list BirdNestDetection)
  : list BirdNestDetection :=
  let x := JS.read data (0 * numBoxes + i) in
  let y := JS.read data (1 * numBoxes + i) in
  let width := JS.read data (2 * numBoxes + i) in
  let height := JS.read data (3 * numBoxes + i) in
  let confidence := JS.read data (4 * numBoxes + i) in
  if JS.lt confidence confidenceThreshold then detections else
  let score := confidence in
  detections ++ [ {| bbox := scaledBox x y width height xScale yScale;
                     score := score;
                     class_id := JS.of_nat 0;
                     class_name := classNames !! 0 |} ].

Definition decodeDirect (data : list JS.value) (confidenceThreshold xScale yScale : JS.value)
    (numBoxes : nat) : list BirdNestDetection :=
  JS.for_loop numBoxes 0 (directBody data confidenceThreshold xScale yScale numBoxes) [].

(** The last resort: records of six values in the flat buffer. *)
Definition unknownBody (flatData : list JS.value) (confidenceThreshold xScale yScale : JS.value)
    (i : nat) (batchDetections : list BirdNestDetection) : list BirdNestDetection :=
  if i + 5 <? length flatData then
    let confidence := JS.read flatData (i + 4) in
    if JS.ge confidence confidenceThreshold then
      let x := JS.read flatData i in
      let y := JS.read flatData (i + 1) in
      let width := JS.read flatData (i + 2) in
      let height := JS.read flatData (i + 3) in
      let classId := JS.round (JS.read flatData (i + 5)) in
      batchDetections ++
        [ {| bbox := scaledBox x y width height xScale yScale;
             score := confidence;
             class_id := classId;
             class_name :=
               JS.index classNames (JS.min classId (JS.of_Z (Z.of_nat (length classNames) - 1))) |} ]
    else batchDetections
  else batchDetections.

Definition decodeUnknown (data : list JS.value) (confidenceThreshold xScale yScale : JS.value)
  : list BirdNestDetection :=
  let flatData := data in
  let batchDetections :=
    JS.for_stride (length flatData) 0 (length flatData) 6
      (unknownBody flatData confidenceThreshold xScale yScale) [] in
  if 0 <? length batchDetections then batchDetections else [].

Definition processYoloOutput (outputTensor : Tensor)
    (originalWidth originalHeight modelWidth modelHeight : nat)
    (confidenceThreshold : JS.value) : list BirdNestDetection :=
  let data := outputTensor.(data) in
  let dimensions := outputTensor.(dims) in
  let xScale := scale originalWidth modelWidth in
  let yScale := scale originalHeight modelHeight in
  let dim k := default 0 (dimensions !! k) in
  if (length dimensions =? 3) && (5 <? dim 2) then
    let numDetections := dim 1 in
    let detectionSize := dim 2 in
    decodeRows data confidenceThreshold xScale yScale numDetections detectionSize
  else if length dimensions =? 4 then
    let gridHeight := dim 2 in
    let gridWidth := dim 3 in
    decodeGrid data dimensions confidenceThreshold xScale yScale gridHeight gridWidth
  else if (length dimensions =? 3) && (dim 1 =? 84) then
    let numBoxes := dim 2 in
    decodeDirect data confidenceThreshold xScale yScale numBoxes
  else
    decodeUnknown data confidenceThreshold xScale yScale.

End ModelUtils.

(** ** The worker (src/workers/modelWorker.ts) *)

Module ModelWorker.

(** The flat array of detections [[x1,y1,w1,h1,conf1,cls1,x2,...]]. *)
Definition boxSize : nat := 6.

Definition flatBody (flatData : list JS.value) (confidenceThreshold xScale yScale : JS.value)
    (i : nat) (detections : list BirdNestDetection) : list BirdNestDetection :=
  if i + boxSize <=? length flatData then
    let confidence := JS.read flatData (i + 4) in
    if JS.ge confidence confidenceThreshold then
      let x := JS.read flatData i in
      let y := JS.read flatData (i + 1) in
      let width := JS.read flatData (i + 2) in
      let height := JS.read flatData (i + 3) in
      let classId := JS.round (JS.read flatData (i + 5)) in
      detections ++
        [ {| bbox := scaledBox x y width height xScale yScale;
             score := confidence;
             class_id := classId;
             class_name :=
               JS.index classNames (JS.min classId (JS.of_Z (Z.of_nat (length classNames) - 1))) |} ]
    else detections
  else detections.

Definition decodeFlat (data : list JS.value) (confidenceThreshold xScale yScale : JS.value)
  : list BirdNestDetection :=
  let flatData := data in
  JS.for_stride (length flatData) 0 (length flatData) boxSize
    (flatBody flatData confidenceThreshold xScale yScale) [].

(** The batch of detections [[batch_size, num_detections, xywh+conf+classes]]. *)
Definition batchBody (data : list JS.value) (confidenceThreshold xScale yScale : JS.value)
    (numDetections elementsPerDetection : nat)
    (b i : nat) (detections : list BirdNestDetection) : list BirdNestDetection :=
  let baseIdx := b * numDetections * elementsPerDetection + i * elementsPerDetection in
  let confidence := JS.read data (baseIdx + 4) in
  if JS.ge confidence confidenceThreshold then
    let x := JS.read data baseIdx in
    let y := JS.read data (baseIdx + 1) in
    let width := JS.read data (baseIdx + 2) in
    let height := JS.read data (baseIdx + 3) in
    let '(maxClassProb, classId) :=
      JS.for_loop (length classNames) 0
        (fun c '(maxClassProb, classId) =>
           let classIdx := baseIdx + 5 + c in
           if classIdx <? baseIdx + elementsPerDetection then
             let classProb := JS.read data classIdx in
             if JS.gt classProb maxClassProb then (classProb, c) else (maxClassProb, classId)
           else (maxClassProb, classId))
        (JS.Num 0, 0) in
    let score :=
      JS.mul confidence (if JS.gt maxClassProb (JS.Num 0) then maxClassProb else JS.Num 1) in
    if JS.lt score confidenceThreshold then detections else
    detections ++ [ {| bbox := scaledBox x y width height xScale yScale;
                       score := score;
                       class_id := JS.of_nat classId;
                       class_name := classNames !! classId |} ]
  else detections.

Definition decodeBatch (data : list JS.value) (confidenceThreshold xScale yScale : JS.value)
    (batchSize numDetections elementsPerDetection : nat) : list BirdNestDetection :=
  JS.for_loop batchSize 0
    (fun b detections =>
       JS.for_loop numDetections 0
         (batchBody data confidenceThreshold xScale yScale numDetections elementsPerDetection b)
         detections)
    [].

Definition processYoloOutput (outputTensor : Tensor)
    (originalWidth originalHeight modelWidth modelHeight : nat)
    (confidenceThreshold : JS.value) : list BirdNestDetection :=
  let data := outputTensor.(data) in
  let dimensions := outputTensor.(dims) in
  let xScale := scale originalWidth modelWidth in
  let yScale := scale originalHeight modelHeight in
  let dim k := default 0 (dimensions !! k) in
  if (length dimensions =? 3) && (5 <? dim 2) then
    let numDetections := dim 1 in
    let detectionSize := dim 2 in
    decodeRows data confidenceThreshold xScale yScale numDetections detectionSize
  else if (length dimensions =? 1) || ((length dimensions =? 2) && (dim 0 =? 1)) then
    decodeFlat data confidenceThreshold xScale yScale
  else if length dimensions =? 3 then
    let batchSize := dim 0 in
    let numDetections := dim 1 in
    let elementsPerDetection := dim 2 in
    decodeBatch data confidenceThreshold xScale yScale batchSize numDetections elementsPerDetection
  else [].

(** An [ort.InferenceSession], as far as the worker uses it: the declared
    names and [run], which resolves with the named outputs or rejects. *)
Record InferenceSession : Type := {
  inputNames : list string;
  outputNames : list string;
  run : gmap string Tensor -> JS.completion (gmap string Tensor)
}.

(** The property key that [names[0]] gives. *)
Definition key (name : option string) : string := default "undefined"%string name.

(** [new ort.Tensor('float32', data, dims)]: the constructor refuses a
    buffer whose length is not the product of the dimensions. *)
Definition newTensor (values : list JS.value) (dimensions : list nat) : JS.completion Tensor :=
  let size := foldr Nat.mul 1 dimensions in
  if size =? length values
  then JS.Normal {| data := values; dims := dimensions |}
  else JS.Throw ("Tensor's size(" ++ pretty size ++ ") does not match data length("
                 ++ pretty (length values) ++ ").").

Definition runInference (session : InferenceSession) (imageData : PreprocessedImageData)
    (confidenceThreshold iouThreshold : JS.value) : JS.completion (list BirdNestDetection) :=
  inputTensor ← newTensor imageData.(tensor) [1; 3; imageData.(height); imageData.(width)];
  let inputName := key (session.(inputNames) !! 0) in
  let feedsWithCorrectName : gmap string Tensor := {[ inputName := inputTensor ]} in
  results ← session.(run) feedsWithCorrectName;
  let outputName := key (session.(outputNames) !! 0) in
  match results !! outputName with
  | None => JS.Throw "Model output is undefined"
  | Some output =>
      JS.Normal (processYoloOutput output
                   imageData.(originalWidth) imageData.(originalHeight)
                   imageData.(width) imageData.(height) confidenceThreshold)
  end.

Record WorkerMessageIn : Type := {
  type : string;
  modelUrl : option string;
  imageData : option PreprocessedImageData;
  confidenceThreshold : option JS.value;
  iouThreshold : option JS.value
}.

Inductive WorkerMessageOut : Type :=
| MODEL_LOADED
| INFERENCE_RESULT (detections : list BirdNestDetection)
| ERROR (error : string).

Section Handler.

(** [ort.InferenceSession.create], which resolves with a session or
    rejects. *)
Variable create : string -> JS.completion InferenceSession.

(** The body of the [try] block of [self.onmessage]: the new value of
    the module's [session] variable and the message posted. *)
Definition handle (session : option InferenceSession) (event : WorkerMessageIn)
  : JS.completion (option InferenceSession * WorkerMessageOut) :=
  if String.eqb event.(type) "LOAD_MODEL" then
    match event.(modelUrl) with
    | None => JS.Throw "Model URL is required"
    | Some url =>
        if String.eqb url "" then JS.Throw "Model URL is required" else
        created ← create url;
        JS.Normal (Some created, MODEL_LOADED)
    end
  else if String.eqb event.(type) "RUN_INFERENCE" then
    match session with
    | None => JS.Throw "Model is not loaded"
    | Some live =>
        match event.(imageData) with
        | None => JS.Throw "Image data is required"
        | Some imageData =>
            let confidenceThreshold :=
              JS.or_else (default JS.Undefined event.(confidenceThreshold)) (JS.Num (1 # 4)) in
            let iouThreshold :=
              JS.or_else (default JS.Undefined event.(iouThreshold)) (JS.Num (9 # 20)) in
            detections ← runInference live imageData confidenceThreshold iouThreshold;
            JS.Normal (session, INFERENCE_RESULT detections)
        end
    end
  else JS.Throw ("Unknown message type: " ++ event.(type)).

(** [self.onmessage]: the [catch] posts an [ERROR] message and leaves
    [session] as it was. *)
Definition onmessage (session : option InferenceSession) (event : WorkerMessageIn)
  : option InferenceSession * WorkerMessageOut :=
  match handle session event with
  | JS.Normal result => result
  | JS.Throw message => (session, ERROR message)
  end.

(** The messages posted for a sequence of events, handled one after
    the other. *)
Fixpoint serve (session : option InferenceSession) (events : list WorkerMessageIn)
  : list WorkerMessageOut :=
  match events with
  | [] => []
  | event :: rest =>
      let '(session', reply) := onmessage session event in
      reply :: serve session' rest
  end.

(** The value of [session] after a sequence of events. *)
Fixpoint sessionAfter (session : option InferenceSession) (events : list WorkerMessageIn)
  : option InferenceSession :=
  match events with
  | [] => session
  | event :: rest => sessionAfter (fst (onmessage session event)) rest
  end.

End Handler.

End ModelWorker.

(** ** The image preprocessor ([preprocessImage]) *)

Module ImageProcessing.

(** An element of the canvas pixel buffer, a [Uint8ClampedArray]. *)
Definition sample (data : list byte) (i : nat) : JS.value :=
  match data !! i with
  | Some b => JS.of_Z (Z.of_N (Byte.to_N b))
  | None => JS.Undefined
  end.

(** What a [Float32Array] keeps of a value stored in it. *)
Definition stored (v : JS.value) : JS.value :=
  match v with
  | JS.Num q => JS.Num q
  | _ => JS.NaN
  end.

(** The body of the inner loop over the pixels. *)
Definition pixelBody (data : list byte) (modelWidth modelHeight : nat)
    (y x : nat) (tensor : list JS.value) : list JS.value :=
  let pixelIndex := (y * modelWidth + x) * 4 in
  let r := JS.div (sample data pixelIndex) (JS.Num 255) in
  let g := JS.div (sample data (pixelIndex + 1)) (JS.Num 255) in
  let b := JS.div (sample data (pixelIndex + 2)) (JS.Num 255) in
  let tensor := <[0 * modelHeight * modelWidth + y * modelWidth + x := stored r]> tensor in
  let tensor := <[1 * modelHeight * modelWidth + y * modelWidth + x := stored g]> tensor in
  let tensor := <[2 * modelHeight * modelWidth + y * modelWidth + x := stored b]> tensor in
  tensor.

Definition fillTensor (data : list byte) (modelWidth modelHeight : nat) : list JS.value :=
  let tensor := replicate (3 * modelHeight * modelWidth) (JS.Num 0) in
  JS.for_loop modelHeight 0
    (fun y tensor =>
       JS.for_loop modelWidth 0 (pixelBody data modelWidth modelHeight y) tensor)
    tensor.

(** A loaded image, as far as the model goes: its natural size (its pixels
    reach the tensor through the canvas, see [drawAndRead] below). *)
Record Image : Type := {
  naturalWidth : nat;
  naturalHeight : nat
}.

Section Browser.

(** The image loader: [Some] when [onload] fires, [None] when [onerror]
    does. *)
Variable load : string -> option Image.
(** [canvas.getContext("2d")] may give [null]. *)
Variable hasContext : bool.
(** [drawImage] at the model size followed by [getImageData], for a
    canvas of positive size ([getImageData] refuses an empty rectangle, a case
    outside this model). *)
Variable drawAndRead : Image -> nat -> nat -> list byte.

Definition preprocessImage (imageSrc : string) (modelWidth modelHeight : nat)
  : JS.completion PreprocessedImageData :=
  match load imageSrc with
  | None => JS.Throw "Failed to load image"
  | Some img =>
      if negb hasContext then JS.Throw "Could not get canvas context" else
      let originalWidth := img.(naturalWidth) in
      let originalHeight := img.(naturalHeight) in
      let data := drawAndRead img modelWidth modelHeight in
      let tensor := fillTensor data modelWidth modelHeight in
      JS.Normal {| tensor := tensor;
                   width := modelWidth;
                   height := modelHeight;
                   originalWidth := originalWidth;
                   originalHeight := originalHeight |}
  end.

End Browser.

End ImageProcessing.


(** ** The specification's view of a candidate

    The decoders are compared with these definitions, which say in the
    specification's terms what one structural unit contributes.  They are
    written on their own: the class search and the box conversion of the
    decoders are not used here. *)

Module Spec.

(** The box in the pixels of the original image: the corner of the centre
    box, [x = cx - w/2] and [y = cy - h/2], then [x], [w] scaled by [xScale]
    and [y], [h] by [yScale]. *)
Definition cornerBox (cx cy w h xScale yScale : JS.value)
  : JS.value * JS.value * JS.value * JS.value :=
  (JS.mul (JS.sub cx (JS.div w (JS.Num 2))) xScale,
   JS.mul (JS.sub cy (JS.div h (JS.Num 2))) yScale,
   JS.mul w xScale,
   JS.mul h yScale).

(** The best class probability: the largest of 0 and the class scores; a
    score that is not a number is never the largest. *)
Definition largest (scores : list JS.value) : JS.value :=
  fold_left (fun best s => if JS.gt s best then s else best) scores (JS.Num 0).

(** The scoring rule of the rows and grid layouts: the objectness
    pre-filter, the best class probability among the class scores, the
    combined score and the final filter.  The class table has one class, so
    that the best class is class 0. *)
Definition scored (confidenceThreshold xScale yScale : JS.value)
    (cx cy w h objectness : JS.value) (classScores : list JS.value)
  : list BirdNestDetection :=
  if JS.lt objectness confidenceThreshold then [] else
  let score := JS.mul objectness (largest classScores) in
  if JS.lt score confidenceThreshold then [] else
  [ {| bbox := cornerBox cx cy w h xScale yScale;
       score := score;
       class_id := JS.Num 0;
       class_name := Some "birdnest"%string |} ].

(** Row [i] of a [[1, N, K]] buffer:
    [[cx, cy, w, h, objectness, classScore_0, ...]], with one class score for
    each class of the class table. *)
Definition rowCandidate (data : list JS.value) (K : nat)
    (confidenceThreshold xScale yScale : JS.value) (i : nat) : list BirdNestDetection :=
  let at_ k := JS.read data (i * K + k) in
  scored confidenceThreshold xScale yScale
    (JS.read data (i * K)) (at_ 1) (at_ 2) (at_ 3) (at_ 4)
    (map (fun c => JS.read data (i * K + 5 + c)) (seq 0 (length classNames))).

(** Channel [ch] of grid cell [(row, col)] in a [[1, C, H, W]] buffer. *)
Definition gridIndex (H W ch row col : nat) : nat := ch * H * W + row * W + col.

(** The grid cells, row by row. *)
Definition gridCells (H W : nat) : list (nat * nat) :=
  flat_map (fun row => map (fun col => (row, col)) (seq 0 W)) (seq 0 H).

Definition gridCandidate (data : list JS.value) (H W : nat)
    (confidenceThreshold xScale yScale : JS.value) (cell : nat * nat)
  : list BirdNestDetection :=
  let at_ ch := JS.read data (gridIndex H W ch (fst cell) (snd cell)) in
  scored confidenceThreshold xScale yScale
    (at_ 0) (at_ 1) (at_ 2) (at_ 3) (at_ 4)
    (map (fun c => at_ (5 + c)) (seq 0 (length classNames))).

(** Channel [c] of detection [i] in a [[1, 84, N]] buffer. *)
Definition flatIndex (N c i : nat) : nat := c * N + i.

(** The channel-major flat layout: channel 4 is the combined confidence,
    the class is 0. *)
Definition flatCandidate (data : list JS.value) (N : nat)
    (confidenceThreshold xScale yScale : JS.value) (i : nat)
  : list BirdNestDetection :=
  let at_ c := JS.read data (flatIndex N c i) in
  if JS.lt (at_ 4) confidenceThreshold then [] else
  [ {| bbox := cornerBox (at_ 0) (at_ 1) (at_ 2) (at_ 3) xScale yScale;
       score := at_ 4;
       class_id := JS.Num 0;
       class_name := Some "birdnest"%string |} ].

Definition decodeChannelFlat (data : list JS.value) (N : nat)
    (confidenceThreshold xScale yScale : JS.value) : list BirdNestDetection :=
  flat_map (flatCandidate data N confidenceThreshold xScale yScale) (seq 0 N).

(** The record [[x, y, w, h, confidence, classId]] at offset [i] of the
    flat buffer; a partial record at the end gives nothing. *)
Definition recordCandidate (data : list JS.value)
    (confidenceThreshold xScale yScale : JS.value) (i : nat) : list BirdNestDetection :=
  let at_ k := JS.read data (i + k) in
  if i + 6 <=? length data then
    if JS.ge (at_ 4) confidenceThreshold then
      [ {| bbox := cornerBox (JS.read data i) (at_ 1) (at_ 2) (at_ 3) xScale yScale;
           score := at_ 4;
           class_id := JS.round (at_ 5);
           class_name := JS.index classNames (JS.min (JS.round (at_ 5)) (JS.Num 0)) |} ]
    else []
  else [].

(** Detection [i] of batch [b] in a [[B, N, E]] buffer whose records have
    no class slot ([E <= 5]). *)
Definition batchCandidate (data : list JS.value) (N E : nat)
    (confidenceThreshold xScale yScale : JS.value) (b i : nat) : list BirdNestDetection :=
  let base := b * N * E + i * E in
  let at_ k := JS.read data (base + k) in
  if JS.ge (at_ 4) confidenceThreshold then
    let score := JS.mul (at_ 4) (JS.Num 1) in
    if JS.lt score confidenceThreshold then [] else
    [ {| bbox := cornerBox (JS.read data base) (at_ 1) (at_ 2) (at_ 3) xScale yScale;
         score := score;
         class_id := JS.Num 0;
         class_name := Some "birdnest"%string |} ]
  else [].

(** The structural units of the layouts. *)
Inductive unit : Type :=
| Row (K i : nat)
| Cell (H W row col : nat)
| Column (N i : nat)
| Record6 (i : nat)
| BatchRow (N E b i : nat).

(** Slot [k] of a unit: slots 0 to 3 are the box parameters, slot 4 the
    objectness or confidence. *)
Definition slotIndex (u : unit) (k : nat) : nat :=
  match u with
  | Row K i => i * K + k
  | Cell H W row col => gridIndex H W k row col
  | Column N i => flatIndex N k i
  | Record6 i => i + k
  | BatchRow N E b i => b * N * E + i * E + k
  end.

Definition slot (data : list JS.value) (u : unit) (k : nat) : JS.value :=
  JS.read data (slotIndex u k).

Definition rawBox (data : list JS.value) (u : unit)
  : JS.value * JS.value * JS.value * JS.value :=
  (slot data u 0, slot data u 1, slot data u 2, slot data u 3).

Definition objectness (data : list JS.value) (u : unit) : JS.value := slot data u 4.

(** What a unit contributes to the result. *)
Definition emit (data : list JS.value) (confidenceThreshold xScale yScale : JS.value)
    (u : unit) : list BirdNestDetection :=
  match u with
  | Row K i => rowCandidate data K confidenceThreshold xScale yScale i
  | Cell H W row col => gridCandidate data H W confidenceThreshold xScale yScale (row, col)
  | Column N i => flatCandidate data N confidenceThreshold xScale yScale i
  | Record6 i => recordCandidate data confidenceThreshold xScale yScale i
  | BatchRow N E b i => batchCandidate data N E confidenceThreshold xScale yScale b i
  end.

(** The class scores of a unit with class slots: the slots from 5 on, one
    for each class of the class table. *)
Definition classScores (data : list JS.value) (u : unit) : list JS.value :=
  map (fun c => slot data u (5 + c)) (seq 0 (length classNames)).

(** The best class probability of a unit with class slots. *)
Definition bestClassProbability (data : list JS.value) (u : unit) : JS.value :=
  largest (classScores data u).

(** The score, class and name that each kind of unit reports. *)
Definition unitScore (data : list JS.value) (u : unit) : JS.value :=
  match u with
  | Row _ _ | Cell _ _ _ _ => JS.mul (objectness data u) (bestClassProbability data u)
  | Column _ _ | Record6 _ => objectness data u
  | BatchRow _ _ _ _ => JS.mul (objectness data u) (JS.Num 1)
  end.

Definition unitClass (data : list JS.value) (u : unit) : JS.value :=
  match u with
  | Record6 _ => JS.round (slot data u 5)
  | _ => JS.Num 0
  end.

Definition unitName (data : list JS.value) (u : unit) : option string :=
  match u with
  | Record6 _ => JS.index classNames (JS.min (JS.round (slot data u 5)) (JS.Num 0))
  | _ => Some "birdnest"%string
  end.

Definition detectionOf (data : list JS.value) (xScale yScale : JS.value) (u : unit)
  : BirdNestDetection :=
  let '(cx, cy, w, h) := rawBox data u in
  {| bbox := cornerBox cx cy w h xScale yScale;
     score := unitScore data u;
     class_id := unitClass data u;
     class_name := unitName data u |}.

(** The filters that a unit goes through. *)
Definition passes (data : list JS.value) (confidenceThreshold : JS.value) (u : unit) : bool :=
  match u with
  | Row _ _ | Cell _ _ _ _ | Column _ _ =>
      negb (JS.lt (objectness data u) confidenceThreshold)
      && negb (JS.lt (unitScore data u) confidenceThreshold)
  | Record6 i =>
      (i + 6 <=? length data) && JS.ge (objectness data u) confidenceThreshold
  | BatchRow _ _ _ _ =>
      JS.ge (objectness data u) confidenceThreshold
      && negb (JS.lt (unitScore data u) confidenceThreshold)
  end.

(** The records of the fallback: one every six values. *)
Definition records (data : list JS.value) : list unit :=
  map Record6 (JS.stride_seq (length data) 0 (length data) 6).

(** The units that the utility decoder visits, in order. *)
Definition unitsUtils (output : Tensor) : list unit :=
  match output.(dims) with
  | [_; N; K] =>
      if 5 <? K then map (Row K) (seq 0 N)
      else if N =? 84 then map (Column K) (seq 0 K)
      else records output.(data)
  | [_; _; H; W] => map (fun cell => Cell H W (fst cell) (snd cell)) (gridCells H W)
  | _ => records output.(data)
  end.

(** The units that the worker's decoder visits, in order. *)
Definition unitsWorker (output : Tensor) : list unit :=
  match output.(dims) with
  | [B; N; E] =>
      if 5 <? E then map (Row E) (seq 0 N)
      else flat_map (fun b => map (BatchRow N E b) (seq 0 N)) (seq 0 B)
  | [_] => records output.(data)
  | [B; _] => if B =? 1 then records output.(data) else []
  | _ => []
  end.

(** The layouts that the specification calls structurally known: rows
    [[1, N, K]] with [K > 5], grid [[1, C, H, W]], channel-major flat
    [[1, 84, N]]. *)
Definition knownLayout (dimensions : list nat) : bool :=
  match dimensions with
  | [_; N; K] => (5 <? K) || (N =? 84)
  | [_; _; _; _] => true
  | _ => false
  end.

(** The fallback finds a record when the buffer holds six values. *)
Definition parseable (values : list JS.value) : bool := 6 <=? length values.

(** When the specification wants [UnsupportedOutputShapeError]. *)
Definition mustRaise (output : Tensor) : bool :=
  negb (knownLayout output.(dims)) && negb (parseable output.(data)).

(** What the tensor holds for channel [ch] of pixel [p], the pixels counted
    row by row, once the pixel has been written. *)
Definition pixelValue (pixels : list byte) (ch p : nat) : JS.value :=
  ImageProcessing.stored
    (JS.div (ImageProcessing.sample pixels (p * 4 + ch)) (JS.Num 255)).

(** The tensor [t], started from [t0], holds the pixels below [upto]. *)
Definition filled (pixels : list byte) (H W : nat) (t0 t : list JS.value) (upto : nat)
  : Prop :=
  length t = 3 * H * W
  /\ forall ch q, ch < 3 -> q < H * W ->
       t !! (ch * (H * W) + q)
       = if q <? upto then Some (pixelValue pixels ch q) else t0 !! (ch * (H * W) + q).

(** A value of the unit interval. *)
Definition inUnitInterval (v : JS.value) : Prop :=
  match v with
  | JS.Num q => (0 <= q <= 1)%Q
  | _ => False
  end.

(** A number that is not negative. *)
Definition nonNegative (v : JS.value) : Prop :=
  match v with
  | JS.Num q => (0 <= q)%Q
  | _ => False
  end.

End Spec.

(** ** Sample tensors *)

Module Examples.

Definition tensorOf (dimensions : list nat) (values : list Q) : Tensor :=
  {| data := map JS.Num values; dims := dimensions |}.

Definition half : JS.value := JS.Num (1 # 2).

(** One row [[cx, cy, w, h, objectness, classScore]]. *)
Definition oneRow : Tensor :=
  tensorOf [1; 1; 6] [320; 320; 64; 64; 3 # 4; 1]%Q.

(** Shape [[1, 84, 6]]: channels 0 and 1 hold 320, channels 2 and 3 hold
    64, channel 4 holds 3/4 and the other 79 channels hold 0, each for the
    six boxes. *)
Definition channelValue (c : nat) : Q :=
  match c with
  | 0 | 1 => 320%Q
  | 2 | 3 => 64%Q
  | 4 => (3 # 4)%Q
  | _ => 0%Q
  end.

Definition eightyFourBySix : Tensor :=
  tensorOf [1; 84; 6] (flat_map (fun c => repeat (channelValue c) 6) (seq 0 84)).

Definition oneRowDetection : BirdNestDetection :=
  {| bbox := (JS.Num 450, JS.Num 225, JS.Num 100, JS.Num 50);
     score := JS.Num (3 # 4);
     class_id := JS.Num 0;
     class_name := Some "birdnest"%string |}.

(** One record of the flat fallback whose sixth value is 3. *)
Definition oneRecord : Tensor :=
  tensorOf [6] [10; 10; 4; 8; 3 # 4; 3]%Q.

Definition oneRecordDetection : BirdNestDetection :=
  {| bbox := (JS.Num 8, JS.Num 6, JS.Num 4, JS.Num 8);
     score := JS.Num (3 # 4);
     class_id := JS.Num 3;
     class_name := Some "birdnest"%string |}.

(** One record of the flat fallback whose sixth value is -1. *)
Definition negativeClassRecord : Tensor :=
  tensorOf [6] [10; 10; 4; 8; 3 # 4; -1]%Q.

Definition negativeClassDetection : BirdNestDetection :=
  {| bbox := (JS.Num 8, JS.Num 6, JS.Num 4, JS.Num 8);
     score := JS.Num (3 # 4);
     class_id := JS.Num (-1);
     class_name := None |}.

(** One row whose objectness is negative. *)
Definition negativeRow : Tensor :=
  tensorOf [1; 1; 6] [320; 320; 64; 64; -1; 1]%Q.

(** Two records of three values, a shape that the worker takes by its
    batch branch. *)
Definition twoShortRecords : Tensor :=
  tensorOf [1; 2; 3] [10; 10; 4; 8; 3 # 4; 0]%Q.

Definition shortRecordDetection : BirdNestDetection :=
  {| bbox := (JS.Num 8, JS.Num 6, JS.Num 4, JS.Num 8);
     score := JS.Num (3 # 4);
     class_id := JS.Num 0;
     class_name := Some "birdnest"%string |}.

(** One record of three values. *)
Definition oneShortRecord : Tensor :=
  tensorOf [1; 1; 3] [10; 10; 4]%Q.

(** A shape of no layout, with fewer than six values. *)
Definition twoByTwo : Tensor := tensorOf [2; 2] [1; 2; 3; 4]%Q.

(** A session whose model answers every run with the output [output0]. *)
Definition sessionGiving (output : Tensor) : ModelWorker.InferenceSession :=
  {| ModelWorker.inputNames := ["images"%string];
     ModelWorker.outputNames := ["output0"%string];
     ModelWorker.run := fun _ => JS.Normal {[ "output0"%string := output ]} |}.

Definition noModel : string -> JS.completion ModelWorker.InferenceSession :=
  fun _ => JS.Throw "failed to fetch".

(** The preprocessed image of a canvas of one pixel. *)
Definition onePixelImage : PreprocessedImageData :=
  {| tensor := [JS.Num 1; JS.Num (128 # 255); JS.Num 0];
     width := 1; height := 1; originalWidth := 2; originalHeight := 1 |}.

Definition runRequest : ModelWorker.WorkerMessageIn :=
  {| ModelWorker.type := "RUN_INFERENCE";
     ModelWorker.modelUrl := None;
     ModelWorker.imageData := Some onePixelImage;
     ModelWorker.confidenceThreshold := Some half;
     ModelWorker.iouThreshold := None |}.

Definition loadRequest (url : string) : ModelWorker.WorkerMessageIn :=
  {| ModelWorker.type := "LOAD_MODEL";
     ModelWorker.modelUrl := Some url;
     ModelWorker.imageData := None;
     ModelWorker.confidenceThreshold := None;
     ModelWorker.iouThreshold := None |}.

(** An image of 2 x 1 pixels drawn on a canvas of 1 x 1: one RGBA pixel. *)
Definition smallImage : ImageProcessing.Image :=
  {| ImageProcessing.naturalWidth := 2; ImageProcessing.naturalHeight := 1 |}.

Definition onePixel : list byte := [Byte.xff; Byte.x80; Byte.x00; Byte.xff].

(** A grid of one row and two cells, [[1, 6, 1, 2]], channel by channel:
    the cell (0, 0) holds the box (320, 320, 64, 64), the objectness 9/10 and
    the class score 4/5; the cell (0, 1) holds the box (100, 100, 20, 20), the
    objectness 1/10 and the class score 1. *)
Definition twoCells : Tensor :=
  tensorOf [1; 6; 1; 2]
    [320; 100; 320; 100; 64; 20; 64; 20; 9 # 10; 1 # 10; 4 # 5; 1]%Q.

(** One row whose class score is 4/5. *)
Definition scoredRow : Tensor :=
  tensorOf [1; 1; 6] [320; 320; 64; 64; 9 # 10; 4 # 5]%Q.

(** The detection of the box (320, 320, 64, 64) with objectness 9/10 and
    class score 4/5, for an image of 1000 x 500 and a model of 640 x 640. *)
Definition scoredDetection : BirdNestDetection :=
  {| bbox := (JS.Num 450, JS.Num 225, JS.Num 100, JS.Num 50);
     score := JS.Num (18 # 25);
     class_id := JS.Num 0;
     class_name := Some "birdnest"%string |}.

(** One row of seven values: the class score 3/5 is followed by 4/5. *)
Definition sevenValueRow : Tensor :=
  tensorOf [1; 1; 7] [320; 320; 64; 64; 9 # 10; 3 # 5; 4 # 5]%Q.

(** One row whose objectness is NaN. *)
Definition nanRow : Tensor :=
  {| data := [JS.Num 320; JS.Num 320; JS.Num 64; JS.Num 64; JS.NaN; JS.Num 1];
     dims := [1; 1; 6] |}.

(** One row whose class score is negative. *)
Definition negativeScoreRow : Tensor :=
  tensorOf [1; 1; 6] [320; 320; 64; 64; 9 # 10; -1 # 2]%Q.

End Examples.

(** ** src/utils/onnxSetup.ts *)

Module OnnxSetup.

(** The global [navigator], as far as this file looks at it. *)
Record Navigator : Type := {
  hardwareConcurrency : JS.value;   (* a number, or undefined *)
  gpu : bool                        (* ['gpu' in navigator] *)
}.

(** What the functions see of their surroundings. *)
Record Environment : Type := {
  navigator : option Navigator;     (* [None]: [typeof navigator === 'undefined'] *)
  webgpu : bool;                    (* [ort.env.webgpu !== undefined] *)
  webgl : bool                      (* [ort.env.webgl !== undefined] *)
}.

Record Configuration : Type := {
  executionProviders : list string;
  graphOptimizationLevel : string;
  numThreads : JS.value
}.

(** The test written three times in the file:
    [typeof navigator !== 'undefined' && 'gpu' in navigator &&
     ort.env.webgpu !== undefined]. *)
Definition webgpuUsable (env : Environment) : bool :=
  match env.(navigator) with
  | Some nav => nav.(gpu) && env.(webgpu)
  | None => false
  end.

(** [configureOnnxRuntime()]: the configuration returned and the value
    given to [ort.env.wasm.numThreads].  Reading [navigator.hardwareConcurrency]
    with no global [navigator] throws a ReferenceError. *)
Definition configureOnnxRuntime (env : Environment)
  : JS.completion (Configuration * JS.value) :=
  match env.(navigator) with
  | None => JS.Throw "navigator is not defined"
  | Some nav =>
      let numThreads := JS.min (JS.or_else nav.(hardwareConcurrency) (JS.Num 4)) (JS.Num 4) in
      let executionProviders := ["wasm"%string] in
      let executionProviders :=
        if webgpuUsable env then "webgpu"%string :: executionProviders
        else if env.(webgl) then "webgl"%string :: executionProviders
        else executionProviders in
      JS.Normal ({| executionProviders := executionProviders;
                    graphOptimizationLevel := "all";
                    numThreads := numThreads |}, numThreads)
  end.

Definition getBestAvailableBackend (env : Environment) : string :=
  if webgpuUsable env then "webgpu"
  else if env.(webgl) then "webgl"
  else "wasm".

Definition isBackendSupported (env : Environment) (backend : string) : bool :=
  if String.eqb backend "webgpu" then webgpuUsable env
  else if String.eqb backend "webgl" then env.(webgl)
  else if String.eqb backend "wasm" then true
  else false.

End OnnxSetup.

(** ** Drawing the detections ([drawDetections]) *)

Module Drawing.

(** The calls made on the 2D context, property assignments included. *)
Inductive CanvasCall : Type :=
| clearRect (x y w h : JS.value)
| drawImage (x y w h : JS.value)
| setLineWidth (v : JS.value)
| setStrokeStyle (style : string)
| beginPath
| rect (x y w h : JS.value)
| stroke
| setFillStyle (style : string)
| fillRect (x y w h : JS.value)
| setFont (font : string)
| fillText (text : string) (x y : JS.value).

Section Canvas.

(** How a number prints in a template string. *)
Variable numberToString : JS.value -> string.
(** [ctx.measureText(text).width] under the font that the context has. *)
Variable textWidth : string -> string -> JS.value.

(** [`${detection.class_name}: ${Math.round(detection.score * 100)}%`]. *)
Definition label (detection : BirdNestDetection) : string :=
  (default "undefined" detection.(class_name) ++ ": "
   ++ numberToString (JS.round (JS.mul detection.(score) (JS.Num 100))) ++ "%")%string.

(** The body of the [forEach]: the font of the context and the calls made
    so far. *)
Definition drawOne (detection : BirdNestDetection) (state : string * list CanvasCall)
  : string * list CanvasCall :=
  let '(font, calls) := state in
  let '(x, y, width, height) := detection.(bbox) in
  let text := label detection in
  let textMetricsWidth := textWidth font text in
  ("16px Arial"%string,
   calls ++ [ setLineWidth (JS.Num 3); setStrokeStyle "#00FF00"; beginPath;
              rect x y width height; stroke;
              setFillStyle "rgba(0, 255, 0, 0.7)";
              fillRect x (JS.sub y (JS.Num 25)) (JS.add textMetricsWidth (JS.Num 10)) (JS.Num 25);
              setFillStyle "#000000"; setFont "16px Arial";
              fillText text (JS.add x (JS.Num 5)) (JS.sub y (JS.Num 8)) ]).

(** [drawDetections(canvas, detections, threshold)]: the calls made on the
    context of a canvas of the given size, whose font is [font] at first.
    [hasContext] says whether [getContext("2d")] gives a context, and
    [snapshotLoads] whether the image made from [canvas.toDataURL()] loads, so
    that its [onload] runs. *)
Definition drawDetections (hasContext snapshotLoads : bool)
    (canvasWidth canvasHeight : JS.value) (font : string)
    (detections : list BirdNestDetection) (threshold : JS.value) : list CanvasCall :=
  if negb hasContext then [] else
  clearRect (JS.Num 0) (JS.Num 0) canvasWidth canvasHeight ::
  if negb snapshotLoads then [] else
  drawImage (JS.Num 0) (JS.Num 0) canvasWidth canvasHeight ::
  snd (fold_left (fun state detection => drawOne detection state)
         (List.filter (fun detection => JS.ge detection.(score) threshold) detections)
         (font, [])).

End Canvas.

(** The rectangles among the calls. *)
Definition rectangles (calls : list CanvasCall)
  : list (JS.value * JS.value * JS.value * JS.value) :=
  flat_map (fun call => match call with rect x y w h => [(x, y, w, h)] | _ => [] end) calls.

(** The texts among the calls. *)
Definition texts (calls : list CanvasCall) : list string :=
  flat_map (fun call => match call with fillText text _ _ => [text] | _ => [] end) calls.

End Drawing.

(** ** The first version of the decoder (src/unnamed/part_002, part_003) *)

Module Legacy.

(** [dimensions[k]], undefined past the end of the shape. *)
Definition dimension (dimensions : list nat) (k : nat) : JS.value :=
  match dimensions !! k with
  | Some n => JS.of_nat n
  | None => JS.Undefined
  end.

(** [data[v]] for an index that was computed. *)
Definition element (data : list JS.value) (v : JS.value) : JS.value :=
  default JS.Undefined (JS.index data v).

(** The body of the one loop of this version: [detectionSize] is read from
    the shape without a test, so that [baseIndex] may be NaN. *)
Definition body (data : list JS.value) (confidenceThreshold xScale yScale : JS.value)
    (detectionSize : JS.value) (i : nat) (detections : list BirdNestDetection)
  : list BirdNestDetection :=
  let baseIndex := JS.mul (JS.of_nat i) detectionSize in
  let x := element data baseIndex in
  let y := element data (JS.add baseIndex (JS.Num 1)) in
  let width := element data (JS.add baseIndex (JS.Num 2)) in
  let height := element data (JS.add baseIndex (JS.Num 3)) in
  let confidence := element data (JS.add baseIndex (JS.Num 4)) in
  if JS.lt confidence confidenceThreshold then detections else
  let '(maxClassProb, classId) :=
    bestClass (fun c => element data (JS.add (JS.add baseIndex (JS.Num 5)) (JS.of_nat c))) in
  let score := JS.mul confidence maxClassProb in
  if JS.lt score confidenceThreshold then detections else
  detections ++ [ {| bbox := scaledBox x y width height xScale yScale;
                     score := score;
                     class_id := JS.of_nat classId;
                     class_name := classNames !! classId |} ].

Definition processYoloOutput (outputTensor : Tensor)
    (originalWidth originalHeight modelWidth modelHeight : nat)
    (confidenceThreshold : JS.value) : list BirdNestDetection :=
  let values := outputTensor.(data) in
  let dimensions := outputTensor.(dims) in
  let numDetections := dimension dimensions 1 in
  let detectionSize := dimension dimensions 2 in
  let xScale := scale originalWidth modelWidth in
  let yScale := scale originalHeight modelHeight in
  (* [i < numDetections] is false at once when [numDetections] is undefined *)
  let rounds := match dimensions !! 1 with Some n => n | None => 0 end in
  JS.for_loop rounds 0 (body values confidenceThreshold xScale yScale detectionSize) [].

(** What this version reports for a row whose every read is undefined. *)
Definition phantom : BirdNestDetection :=
  {| bbox := (JS.NaN, JS.NaN, JS.NaN, JS.NaN);
     score := JS.NaN;
     class_id := JS.Num 0;
     class_name := Some "birdnest"%string |}.

End Legacy.

(** ** The page (src/components/BirdNestDetector.tsx) *)

Module Detector.

Definition MODEL_URL : string := "/models/birdnest.onnx".
Definition DEMO_IMAGE_URL : string := "/images/sample-birdnest.jpg".

(** The state variables of the component. *)
Record State : Type := {
  imageUrl : string;
  detections : list BirdNestDetection;
  isProcessing : bool;
  error : option string;
  confidenceThreshold : JS.value;
  isModelLoaded : bool;
  isDragging : bool;
  workerReady : bool
}.

Definition initial : State :=
  {| imageUrl := ""; detections := []; isProcessing := false; error := None;
     confidenceThreshold := JS.Num (1 # 4); isModelLoaded := false;
     isDragging := false; workerReady := false |}.

(** The setters of [useState]. *)
Definition setImageUrl (v : string) (st : State) : State :=
  {| imageUrl := v; detections := st.(detections); isProcessing := st.(isProcessing);
     error := st.(error); confidenceThreshold := st.(confidenceThreshold);
     isModelLoaded := st.(isModelLoaded); isDragging := st.(isDragging);
     workerReady := st.(workerReady) |}.

Definition setDetections (v : list BirdNestDetection) (st : State) : State :=
  {| imageUrl := st.(imageUrl); detections := v; isProcessing := st.(isProcessing);
     error := st.(error); confidenceThreshold := st.(confidenceThreshold);
     isModelLoaded := st.(isModelLoaded); isDragging := st.(isDragging);
     workerReady := st.(workerReady) |}.

Definition setIsProcessing (v : bool) (st : State) : State :=
  {| imageUrl := st.(imageUrl); detections := st.(detections); isProcessing := v;
     error := st.(error); confidenceThreshold := st.(confidenceThreshold);
     isModelLoaded := st.(isModelLoaded); isDragging := st.(isDragging);
     workerReady := st.(workerReady) |}.

Definition setError (v : option string) (st : State) : State :=
  {| imageUrl := st.(imageUrl); detections := st.(detections);
     isProcessing := st.(isProcessing); error := v;
     confidenceThreshold := st.(confidenceThreshold);
     isModelLoaded := st.(isModelLoaded); isDragging := st.(isDragging);
     workerReady := st.(workerReady) |}.

Definition setConfidenceThreshold (v : JS.value) (st : State) : State :=
  {| imageUrl := st.(imageUrl); detections := st.(detections);
     isProcessing := st.(isProcessing); error := st.(error); confidenceThreshold := v;
     isModelLoaded := st.(isModelLoaded); isDragging := st.(isDragging);
     workerReady := st.(workerReady) |}.

Definition setIsModelLoaded (v : bool) (st : State) : State :=
  {| imageUrl := st.(imageUrl); detections := st.(detections);
     isProcessing := st.(isProcessing); error := st.(error);
     confidenceThreshold := st.(confidenceThreshold); isModelLoaded := v;
     isDragging := st.(isDragging); workerReady := st.(workerReady) |}.

Definition setIsDragging (v : bool) (st : State) : State :=
  {| imageUrl := st.(imageUrl); detections := st.(detections);
     isProcessing := st.(isProcessing); error := st.(error);
     confidenceThreshold := st.(confidenceThreshold);
     isModelLoaded := st.(isModelLoaded); isDragging := v;
     workerReady := st.(workerReady) |}.

Definition setWorkerReady (v : bool) (st : State) : State :=
  {| imageUrl := st.(imageUrl); detections := st.(detections);
     isProcessing := st.(isProcessing); error := st.(error);
     confidenceThreshold := st.(confidenceThreshold);
     isModelLoaded := st.(isModelLoaded); isDragging := st.(isDragging);
     workerReady := v |}.

(** The message posted by the mount effect. *)
Definition loadModel : ModelWorker.WorkerMessageIn :=
  {| ModelWorker.type := "LOAD_MODEL";
     ModelWorker.modelUrl := Some MODEL_URL;
     ModelWorker.imageData := None;
     ModelWorker.confidenceThreshold := None;
     ModelWorker.iouThreshold := None |}.

(** The message posted by [handleDetect]. *)
Definition runInferenceOn (image : PreprocessedImageData) (threshold : JS.value)
  : ModelWorker.WorkerMessageIn :=
  {| ModelWorker.type := "RUN_INFERENCE";
     ModelWorker.modelUrl := None;
     ModelWorker.imageData := Some image;
     ModelWorker.confidenceThreshold := Some threshold;
     ModelWorker.iouThreshold := None |}.

(** [worker.onmessage], as far as the state goes (the drawing that follows an
    [INFERENCE_RESULT] changes no state variable). *)
Definition onWorkerMessage (message : ModelWorker.WorkerMessageOut) (st : State) : State :=
  match message with
  | ModelWorker.MODEL_LOADED => setWorkerReady true (setIsModelLoaded true st)
  | ModelWorker.INFERENCE_RESULT found => setIsProcessing false (setDetections found st)
  | ModelWorker.ERROR e =>
      setIsProcessing false
        (setError (Some (if String.eqb e "" then "An unknown error occurred"%string else e)) st)
  end.

(** [reader.onload] of [handleImageDrop]: [None] is a result that is not a
    string. *)
Definition onFileRead (result : option string) (st : State) : State :=
  match result with
  | Some url => setDetections [] (setImageUrl url st)
  | None => st
  end.

Definition handleExampleClick (st : State) : State :=
  setDetections [] (setImageUrl DEMO_IMAGE_URL st).

(** The button that removes the image. *)
Definition handleRemoveClick (st : State) : State :=
  setDetections [] (setImageUrl "" st).

(** [handleThresholdChange], with the value that [parseFloat] gave. *)
Definition handleThresholdChange (value : JS.value) (st : State) : State :=
  setConfidenceThreshold value st.

(** [handleDetect] up to its [await]: the new state and the call of
    [preprocessImage] that it starts, with the threshold that its closure
    holds.  The worker reference is set by the mount effect, before any
    click. *)
Definition handleDetect (st : State) : State * list (string * JS.value) :=
  if String.eqb st.(imageUrl) "" || negb st.(workerReady) then (st, []) else
  (setError None (setIsProcessing true st), [(st.(imageUrl), st.(confidenceThreshold))]).

(** [disabled] of the detect button, which [Button] combines with
    [isLoading], here [isProcessing] again. *)
Definition detectDisabled (st : State) : bool :=
  st.(isProcessing)
  || (String.eqb st.(imageUrl) "" || st.(isProcessing) || negb st.(isModelLoaded)).

(** The controls (slider and detect button) and the remove button are
    rendered only for an image. *)
Definition controlsShown (st : State) : bool := negb (String.eqb st.(imageUrl) "").

Section Page.

Variable create : string -> JS.completion ModelWorker.InferenceSession.
Variable load : string -> option ImageProcessing.Image.
Variable hasContext : bool.
Variable drawAndRead : ImageProcessing.Image -> nat -> nat -> list byte.

(** [handleDetect] after its [await]: the message posted, or the error
    shown. *)
Definition afterPreprocess (call : string * JS.value) (st : State)
  : State * list ModelWorker.WorkerMessageIn :=
  match ImageProcessing.preprocessImage load hasContext drawAndRead call.1 640 640 with
  | JS.Normal image => (st, [runInferenceOn image call.2])
  | JS.Throw message => (setIsProcessing false (setError (Some message) st), [])
  end.

(** The page and its worker: the state of each, the messages posted and not
    yet handled in either direction, and the calls of [preprocessImage] that
    have not settled.  Every handler of the page runs on the state of the
    latest render, and the worker handles a message from its receipt to its
    reply in one step. *)
Record System : Type := {
  page : State;
  session : option ModelWorker.InferenceSession;
  toWorker : list ModelWorker.WorkerMessageIn;
  toPage : list ModelWorker.WorkerMessageOut;
  preprocessing : list (string * JS.value)
}.

(** After the mount effect. *)
Definition mounted : System :=
  {| page := initial; session := None; toWorker := [loadModel]; toPage := [];
     preprocessing := [] |}.

Definition withPage (f : State -> State) (sys : System) : System :=
  {| page := f sys.(page); session := sys.(session); toWorker := sys.(toWorker);
     toPage := sys.(toPage); preprocessing := sys.(preprocessing) |}.

(** What can happen next. *)
Inductive Move : Type :=
| DragEnter
| DragLeave
| Drop
| FileRead (result : option string)
| ExampleClick
| RemoveClick
| ThresholdChange (value : JS.value)
| DetectClick
| PreprocessSettles (k : nat)     (* the k-th call that has not settled *)
| WorkerHandles                   (* the worker takes its next message *)
| PageReceives.                   (* the page takes its next message *)

(** One move; a move that cannot happen (a click on what is not rendered or
    is disabled, a message taken from an empty queue) leaves the system as it
    is. *)
Definition next (sys : System) (move : Move) : System :=
  match move with
  | DragEnter => withPage (setIsDragging true) sys
  | DragLeave => withPage (setIsDragging false) sys
  | Drop => withPage (setIsDragging false) sys
  | FileRead result => withPage (onFileRead result) sys
  | ExampleClick => withPage handleExampleClick sys
  | RemoveClick =>
      if controlsShown sys.(page) then withPage handleRemoveClick sys else sys
  | ThresholdChange value =>
      if controlsShown sys.(page) then withPage (handleThresholdChange value) sys else sys
  | DetectClick =>
      if negb (controlsShown sys.(page)) || detectDisabled sys.(page) then sys else
      let '(st, started) := handleDetect sys.(page) in
      {| page := st; session := sys.(session); toWorker := sys.(toWorker);
         toPage := sys.(toPage); preprocessing := sys.(preprocessing) ++ started |}
  | PreprocessSettles k =>
      match sys.(preprocessing) !! k with
      | None => sys
      | Some call =>
          let '(st, posted) := afterPreprocess call sys.(page) in
          {| page := st; session := sys.(session);
             toWorker := sys.(toWorker) ++ posted; toPage := sys.(toPage);
             preprocessing := delete k sys.(preprocessing) |}
      end
  | WorkerHandles =>
      match sys.(toWorker) with
      | [] => sys
      | event :: rest =>
          let '(session', reply) := ModelWorker.onmessage create sys.(session) event in
          {| page := sys.(page); session := session'; toWorker := rest;
             toPage := sys.(toPage) ++ [reply]; preprocessing := sys.(preprocessing) |}
      end
  | PageReceives =>
      match sys.(toPage) with
      | [] => sys
      | message :: rest =>
          {| page := onWorkerMessage message sys.(page); session := sys.(session);
             toWorker := sys.(toWorker); toPage := rest;
             preprocessing := sys.(preprocessing) |}
      end
  end.

Definition run (sys : System) (moves : list Move) : System := fold_left next moves sys.


(** An image that [preprocessImage] resolved with, at the default model size
    of 640 x 640. *)
Definition prepared (image : PreprocessedImageData) : Prop :=
  exists url img,
    load url = Some img
    /\ image = {| tensor := ImageProcessing.fillTensor (drawAndRead img 640 640) 640 640;
                  width := 640; height := 640;
                  originalWidth := img.(ImageProcessing.naturalWidth);
                  originalHeight := img.(ImageProcessing.naturalHeight) |}.

(** The model is not announced to the page, and nothing is being detected. *)
Definition waiting (st : State) : Prop :=
  st.(workerReady) = false /\ st.(isModelLoaded) = false /\ st.(isProcessing) = false.

(** The model is announced to the page. *)
Definition announced (st : State) : Prop :=
  st.(workerReady) = true /\ st.(isModelLoaded) = true.

(** The situations that the page and its worker go through. *)
Inductive phase (sys : System) : Prop :=
| loading :
    sys.(toWorker) = [loadModel] -> sys.(toPage) = [] -> sys.(preprocessing) = [] ->
    sys.(session) = None -> waiting sys.(page) -> phase sys
| loaded :
    sys.(toWorker) = [] -> sys.(toPage) = [ModelWorker.MODEL_LOADED] ->
    sys.(preprocessing) = [] -> is_Some sys.(session) -> waiting sys.(page) -> phase sys
| refused (message : string) :
    sys.(toWorker) = [] -> sys.(toPage) = [ModelWorker.ERROR message] ->
    sys.(preprocessing) = [] -> sys.(session) = None -> waiting sys.(page) -> phase sys
| failed :
    sys.(toWorker) = [] -> sys.(toPage) = [] -> sys.(preprocessing) = [] ->
    sys.(session) = None -> waiting sys.(page) -> phase sys
| idle :
    sys.(toWorker) = [] -> sys.(toPage) = [] -> sys.(preprocessing) = [] ->
    is_Some sys.(session) -> announced sys.(page) ->
    sys.(page).(isProcessing) = false -> phase sys
| preparing (call : string * JS.value) :
    sys.(toWorker) = [] -> sys.(toPage) = [] -> sys.(preprocessing) = [call] ->
    is_Some sys.(session) -> announced sys.(page) ->
    sys.(page).(isProcessing) = true -> phase sys
| requested (image : PreprocessedImageData) (threshold : JS.value) :
    sys.(toWorker) = [runInferenceOn image threshold] -> sys.(toPage) = [] ->
    sys.(preprocessing) = [] -> prepared image ->
    is_Some sys.(session) -> announced sys.(page) ->
    sys.(page).(isProcessing) = true -> phase sys
| answered (reply : ModelWorker.WorkerMessageOut) :
    sys.(toWorker) = [] -> sys.(toPage) = [reply] -> sys.(preprocessing) = [] ->
    reply <> ModelWorker.MODEL_LOADED ->
    is_Some sys.(session) -> announced sys.(page) ->
    sys.(page).(isProcessing) = true -> phase sys.

End Page.

End Detector.

(** A value that is a number. *)
Definition isNumber (v : JS.value) : bool :=
  match v with
  | JS.Num _ => true
  | _ => false
  end.

(** ** Shapes that both decoders take by the same branch *)

(** Rows [[_, N, K]] with [K > 5], one dimension, or two dimensions with a
    leading 1. *)
Definition sharedShape (dimensions : list nat) : bool :=
  match dimensions with
  | [_; _; K] => 5 <? K
  | [_] => true
  | [B; _] => B =? 1
  | _ => false
  end.

(** A class id that names an entry of a table: a number that is not
    negative. *)
Definition isClassIndex (v : JS.value) : bool :=
  match v with
  | JS.Num q => Qle_bool 0 q
  | _ => false
  end.

(** ** Requests with other thresholds *)

(** The request [event] with its two thresholds replaced. *)
Definition withThresholds (event : ModelWorker.WorkerMessageIn)
    (confidence iou : option JS.value) : ModelWorker.WorkerMessageIn :=
  {| ModelWorker.type := event.(ModelWorker.type);
     ModelWorker.modelUrl := event.(ModelWorker.modelUrl);
     ModelWorker.imageData := event.(ModelWorker.imageData);
     ModelWorker.confidenceThreshold := confidence;
     ModelWorker.iouThreshold := iou |}.

(** * Properties *)

(** ** Loops as concatenations *)

Section Loops.

Context {A : Type}.
Variable body : nat -> list A -> list A.
Variable unit : nat -> list A.
Hypothesis body_pushes : forall i acc, body i acc = acc ++ unit i.

Lemma for_loop_flat_map (n start : nat) (acc : list A) :
  JS.for_loop n start body acc = acc ++ flat_map unit (seq start n).
Proof using body_pushes.
  revert start acc. induction n as [|n IH]; intros start acc; simpl.
  - by rewrite app_nil_r.
  - rewrite IH, body_pushes. by rewrite <- app_assoc.
Qed.

Lemma for_stride_flat_map (fuel i bound step : nat) (acc : list A) :
  JS.for_stride fuel i bound step body acc
  = acc ++ flat_map unit (JS.stride_seq fuel i bound step).
Proof using body_pushes.
  revert i acc. induction fuel as [|fuel IH]; intros i acc; simpl.
  - by rewrite app_nil_r.
  - destruct (i <? bound); simpl.
    + rewrite IH, body_pushes. by rewrite <- app_assoc.
    + by rewrite app_nil_r.
Qed.

End Loops.

(** With enough fuel the stride loop visits every multiple of the step
    below the bound, so no round is lost to the fuel. *)
Lemma stride_seq_spec (fuel i bound step j : nat) :
  0 < step -> bound <= i + fuel * step ->
  In j (JS.stride_seq fuel i bound step) <-> j < bound /\ exists k, j = i + k * step.
Proof.
  intros Hstep. revert i. induction fuel as [|fuel IH]; intros i Hfuel; simpl.
  - split; [tauto|]. intros [Hlt [k ->]]. lia.
  - destruct (Nat.ltb_spec i bound) as [Hi|Hi]; simpl.
    + rewrite IH by lia. split.
      * intros [<- | [Hlt [k ->]]].
        -- split; [lia|]. exists 0. lia.
        -- split; [lia|]. exists (S k). lia.
      * intros [Hlt [k ->]]. destruct k as [|k]; [left; lia|].
        right. split; [lia|]. exists k. lia.
    + split; [tauto|]. intros [Hlt [k ->]]. lia.
Qed.

Lemma stride_seq_more_fuel (fuel extra i bound step : nat) :
  0 < step -> bound <= i + fuel * step ->
  JS.stride_seq (fuel + extra) i bound step = JS.stride_seq fuel i bound step.
Proof.
  intros Hstep. revert i. induction fuel as [|fuel IH]; intros i Hfuel; simpl.
  - destruct extra; simpl; [done|].
    destruct (Nat.ltb_spec i bound); [lia|done].
  - destruct (i <? bound); [|done]. f_equal. apply IH. lia.
Qed.

(** ** The branches, one structural unit at a time *)

Lemma bestClass_single (slot : nat -> JS.value) :
  bestClass slot = if JS.gt (slot 0) (JS.Num 0) then (slot 0, 0) else (JS.Num 0, 0).
Proof. reflexivity. Qed.

(** The class search of the decoders finds the largest of 0 and the class
    scores, and class 0. *)
Lemma bestClass_largest (slot : nat -> JS.value) :
  bestClass slot = (Spec.largest (map slot (seq 0 (length classNames))), 0).
Proof.
  rewrite bestClass_single. unfold Spec.largest. cbn [classNames length seq map fold_left].
  by destruct (JS.gt (slot 0) (JS.Num 0)).
Qed.

Lemma rowsBody_pushes data thr xs ys K i acc :
  rowsBody data thr xs ys K i acc = acc ++ Spec.rowCandidate data K thr xs ys i.
Proof.
  unfold rowsBody, Spec.rowCandidate, Spec.scored.
  destruct (JS.lt (JS.read data (i * K + 4)) thr); [by rewrite app_nil_r|].
  rewrite bestClass_largest.
  destruct (JS.lt _ thr); [by rewrite app_nil_r|done].
Qed.

Lemma decodeRows_units data thr xs ys N K :
  decodeRows data thr xs ys N K = flat_map (Spec.rowCandidate data K thr xs ys) (seq 0 N).
Proof.
  unfold decodeRows.
  by rewrite (for_loop_flat_map _ _ (rowsBody_pushes data thr xs ys K)).
Qed.

Lemma getIndexFrom4D_batch0 b C H W ch cy cx :
  ModelUtils.getIndexFrom4D [b; C; H; W] 0 ch cy cx = Spec.gridIndex H W ch cy cx.
Proof. reflexivity. Qed.

Lemma gridBody_pushes data b C H W thr xs ys cy cx acc :
  ModelUtils.gridBody data [b; C; H; W] thr xs ys cy cx acc
  = acc ++ Spec.gridCandidate data H W thr xs ys (cy, cx).
Proof.
  unfold ModelUtils.gridBody, Spec.gridCandidate, Spec.scored; cbv zeta.
  unfold ModelUtils.confidenceOffset, ModelUtils.classOffset, ModelUtils.boxOffset.
  setoid_rewrite getIndexFrom4D_batch0. cbn [fst snd].
  destruct (JS.lt (JS.read data (Spec.gridIndex H W 4 cy cx)) thr); [by rewrite app_nil_r|].
  rewrite bestClass_largest.
  destruct (JS.lt _ thr); [by rewrite app_nil_r|done].
Qed.

Lemma flat_map_of_map {X Y Z : Type} (f : Y -> list Z) (g : X -> Y) (l : list X) :
  flat_map f (map g l) = flat_map (fun x => f (g x)) l.
Proof. induction l as [|x l IH]; simpl; [done|]. by rewrite IH. Qed.

Lemma flat_map_cells {B : Type} (f : nat * nat -> list B) (H W : nat) :
  flat_map f (Spec.gridCells H W)
  = flat_map (fun row => flat_map (fun col => f (row, col)) (seq 0 W)) (seq 0 H).
Proof.
  unfold Spec.gridCells. induction (seq 0 H) as [|row rows IH]; simpl; [done|].
  rewrite flat_map_app, IH. f_equal. apply flat_map_of_map.
Qed.

Lemma decodeGrid_units data b C H W thr xs ys :
  ModelUtils.decodeGrid data [b; C; H; W] thr xs ys H W
  = flat_map (Spec.gridCandidate data H W thr xs ys) (Spec.gridCells H W).
Proof.
  unfold ModelUtils.decodeGrid. rewrite flat_map_cells.
  rewrite (for_loop_flat_map _
             (fun cy => flat_map (fun cx => Spec.gridCandidate data H W thr xs ys (cy, cx))
                          (seq 0 W))); [done|].
  intros cy acc.
  apply (for_loop_flat_map _ (fun cx => Spec.gridCandidate data H W thr xs ys (cy, cx))).
  intros cx acc'. apply gridBody_pushes.
Qed.

Lemma directBody_pushes data thr xs ys N i acc :
  ModelUtils.directBody data thr xs ys N i acc
  = acc ++ Spec.flatCandidate data N thr xs ys i.
Proof.
  unfold ModelUtils.directBody, Spec.flatCandidate, Spec.flatIndex; cbv zeta.
  destruct (JS.lt (JS.read data (4 * N + i)) thr); [by rewrite app_nil_r|done].
Qed.

Lemma decodeDirect_units data thr xs ys N :
  ModelUtils.decodeDirect data thr xs ys N = Spec.decodeChannelFlat data N thr xs ys.
Proof.
  unfold ModelUtils.decodeDirect, Spec.decodeChannelFlat.
  by rewrite (for_loop_flat_map _ _ (directBody_pushes data thr xs ys N)).
Qed.

Lemma unknownBody_pushes data thr xs ys i acc :
  ModelUtils.unknownBody data thr xs ys i acc = acc ++ Spec.recordCandidate data thr xs ys i.
Proof.
  unfold ModelUtils.unknownBody, Spec.recordCandidate; cbv zeta.
  replace (i + 5 <? length data) with (i + 6 <=? length data)
    by (destruct (Nat.leb_spec (i + 6) (length data)), (Nat.ltb_spec (i + 5) (length data)); lia).
  destruct (_ <=? _); [|by rewrite app_nil_r].
  destruct (JS.ge _ thr); [done|by rewrite app_nil_r].
Qed.

Lemma decodeUnknown_units data thr xs ys :
  ModelUtils.decodeUnknown data thr xs ys
  = flat_map (Spec.emit data thr xs ys) (Spec.records data).
Proof.
  unfold ModelUtils.decodeUnknown, Spec.records; cbv zeta.
  rewrite (for_stride_flat_map _ _ (unknownBody_pushes data thr xs ys)), flat_map_of_map.
  simpl. by destruct (flat_map _ _).
Qed.

Lemma flatBody_pushes data thr xs ys i acc :
  ModelWorker.flatBody data thr xs ys i acc = acc ++ Spec.recordCandidate data thr xs ys i.
Proof.
  unfold ModelWorker.flatBody, Spec.recordCandidate, ModelWorker.boxSize; cbv zeta.
  destruct (_ <=? _); [|by rewrite app_nil_r].
  destruct (JS.ge _ thr); [done|by rewrite app_nil_r].
Qed.

Lemma decodeFlat_units data thr xs ys :
  ModelWorker.decodeFlat data thr xs ys
  = flat_map (Spec.emit data thr xs ys) (Spec.records data).
Proof.
  unfold ModelWorker.decodeFlat, Spec.records; cbv zeta.
  by rewrite (for_stride_flat_map _ _ (flatBody_pushes data thr xs ys)), flat_map_of_map.
Qed.

Lemma batchBody_pushes data thr xs ys N E b i acc :
  E <= 5 ->
  ModelWorker.batchBody data thr xs ys N E b i acc
  = acc ++ Spec.batchCandidate data N E thr xs ys b i.
Proof.
  intros HE. unfold ModelWorker.batchBody, Spec.batchCandidate; cbv zeta.
  destruct (JS.ge _ thr); [|by rewrite app_nil_r].
  cbn [JS.for_loop length classNames].
  destruct (Nat.ltb_spec (b * N * E + i * E + 5 + 0) (b * N * E + i * E + E)); [lia|].
  change (JS.gt (JS.Num 0) (JS.Num 0)) with false; cbv iota.
  destruct (JS.lt _ thr); [by rewrite app_nil_r|done].
Qed.

Lemma decodeBatch_units data thr xs ys B N E :
  E <= 5 ->
  ModelWorker.decodeBatch data thr xs ys B N E
  = flat_map (Spec.emit data thr xs ys)
      (flat_map (fun b => map (Spec.BatchRow N E b) (seq 0 N)) (seq 0 B)).
Proof.
  intros HE. unfold ModelWorker.decodeBatch.
  rewrite (for_loop_flat_map _
             (fun b => flat_map (Spec.batchCandidate data N E thr xs ys b) (seq 0 N))).
  - simpl. induction (seq 0 B) as [|b bs IH]; simpl; [done|].
    by rewrite flat_map_app, IH, flat_map_of_map.
  - intros b acc.
    apply (for_loop_flat_map _ (Spec.batchCandidate data N E thr xs ys b)).
    intros i acc'. by apply batchBody_pushes.
Qed.

(** The fallback's records start at the multiples of six below the length
    of the buffer, and the fuel of the stride loop is enough: more fuel gives
    the same result. *)
Lemma records_cover_buffer values j :
  In (Spec.Record6 j) (Spec.records values)
  <-> j < length values /\ exists k, j = k * 6.
Proof.
  unfold Spec.records. rewrite in_map_iff. split.
  - intros [i [[= ->] Hi]]. apply stride_seq_spec in Hi; [|lia|lia].
    destruct Hi as [Hlt [k ->]]. split; [lia|]. by exists k.
  - intros [Hlt [k ->]]. exists (k * 6). split; [done|].
    apply stride_seq_spec; [lia|lia|]. split; [done|]. by exists k.
Qed.

Lemma fallback_fuel_suffices values thr xs ys extra :
  JS.for_stride (length values + extra) 0 (length values) 6
    (ModelWorker.flatBody values thr xs ys) []
  = ModelWorker.decodeFlat values thr xs ys
  /\ JS.for_stride (length values + extra) 0 (length values) 6
       (ModelUtils.unknownBody values thr xs ys) []
     = JS.for_stride (length values) 0 (length values) 6
         (ModelUtils.unknownBody values thr xs ys) [].
Proof.
  unfold ModelWorker.decodeFlat, ModelWorker.boxSize; cbv zeta.
  rewrite !(for_stride_flat_map _ _ (flatBody_pushes values thr xs ys)).
  rewrite !(for_stride_flat_map _ _ (unknownBody_pushes values thr xs ys)).
  by rewrite stride_seq_more_fuel by lia.
Qed.

(** A unit contributes its detection when it passes the filters, and
    nothing otherwise. *)
Lemma emit_passes data thr xs ys u :
  Spec.emit data thr xs ys u
  = if Spec.passes data thr u then [Spec.detectionOf data xs ys u] else [].
Proof.
  destruct u as [K i|H W row col|N i|i|N E b i];
    unfold Spec.emit, Spec.passes, Spec.detectionOf, Spec.unitScore, Spec.unitClass,
      Spec.unitName, Spec.bestClassProbability, Spec.classScores, Spec.objectness,
      Spec.rawBox, Spec.slot, Spec.slotIndex.
  - unfold Spec.rowCandidate, Spec.scored; cbv zeta.
    rewrite !Nat.add_0_r. cbn [classNames length seq map].
    rewrite <- !Nat.add_assoc.
    destruct (JS.lt (JS.read data (i * K + 4)) thr); [done|].
    cbn [negb andb]. by destruct (JS.lt _ thr).
  - unfold Spec.gridCandidate, Spec.scored; cbv zeta; cbn [fst snd].
    destruct (JS.lt (JS.read data (Spec.gridIndex H W 4 row col)) thr); [done|].
    cbn [negb andb]. by destruct (JS.lt _ thr).
  - unfold Spec.flatCandidate; cbv zeta.
    by destruct (JS.lt _ thr).
  - unfold Spec.recordCandidate; cbv zeta. rewrite !Nat.add_0_r.
    destruct (_ <=? _); [|done]. by destruct (JS.ge _ thr).
  - unfold Spec.batchCandidate; cbv zeta. rewrite !Nat.add_0_r.
    destruct (JS.ge _ thr); [|done]. cbn [andb]. by destruct (JS.lt _ thr).
Qed.

Lemma in_emit data thr xs ys u d :
  In d (Spec.emit data thr xs ys u) <->
  Spec.passes data thr u = true /\ d = Spec.detectionOf data xs ys u.
Proof.
  rewrite emit_passes. destruct (Spec.passes data thr u); simpl; [|intuition congruence].
  intuition congruence.
Qed.

(** The dispatch on the shape, one lemma per number of dimensions. *)
Lemma utils_dispatch_3 data d0 d1 d2 ow oh mw mh thr :
  ModelUtils.processYoloOutput {| data := data; dims := [d0; d1; d2] |} ow oh mw mh thr
  = if 5 <? d2 then decodeRows data thr (scale ow mw) (scale oh mh) d1 d2
    else if d1 =? 84 then ModelUtils.decodeDirect data thr (scale ow mw) (scale oh mh) d2
    else ModelUtils.decodeUnknown data thr (scale ow mw) (scale oh mh).
Proof. reflexivity. Qed.

Lemma utils_dispatch_4 data d0 d1 d2 d3 ow oh mw mh thr :
  ModelUtils.processYoloOutput {| data := data; dims := [d0; d1; d2; d3] |} ow oh mw mh thr
  = ModelUtils.decodeGrid data [d0; d1; d2; d3] thr (scale ow mw) (scale oh mh) d2 d3.
Proof. reflexivity. Qed.

Lemma utils_dispatch_other values dimensions ow oh mw mh thr :
  length dimensions <> 3 -> length dimensions <> 4 ->
  ModelUtils.processYoloOutput {| data := values; dims := dimensions |} ow oh mw mh thr
  = ModelUtils.decodeUnknown values thr (scale ow mw) (scale oh mh).
Proof.
  intros H3 H4. unfold ModelUtils.processYoloOutput; cbn [data dims]; cbv zeta.
  destruct (Nat.eqb_spec (length dimensions) 3); [done|].
  destruct (Nat.eqb_spec (length dimensions) 4); [done|]. reflexivity.
Qed.

Lemma worker_dispatch_3 data d0 d1 d2 ow oh mw mh thr :
  ModelWorker.processYoloOutput {| data := data; dims := [d0; d1; d2] |} ow oh mw mh thr
  = if 5 <? d2 then decodeRows data thr (scale ow mw) (scale oh mh) d1 d2
    else ModelWorker.decodeBatch data thr (scale ow mw) (scale oh mh) d0 d1 d2.
Proof. reflexivity. Qed.

Lemma worker_dispatch_1 data d0 ow oh mw mh thr :
  ModelWorker.processYoloOutput {| data := data; dims := [d0] |} ow oh mw mh thr
  = ModelWorker.decodeFlat data thr (scale ow mw) (scale oh mh).
Proof. reflexivity. Qed.

Lemma worker_dispatch_2 data d0 d1 ow oh mw mh thr :
  ModelWorker.processYoloOutput {| data := data; dims := [d0; d1] |} ow oh mw mh thr
  = if d0 =? 1 then ModelWorker.decodeFlat data thr (scale ow mw) (scale oh mh) else [].
Proof. reflexivity. Qed.

Lemma worker_dispatch_other values dimensions ow oh mw mh thr :
  length dimensions = 0 \/ 4 <= length dimensions ->
  ModelWorker.processYoloOutput {| data := values; dims := dimensions |} ow oh mw mh thr = [].
Proof.
  intros Hlen. unfold ModelWorker.processYoloOutput; cbn [data dims]; cbv zeta.
  destruct (Nat.eqb_spec (length dimensions) 3); [lia|].
  destruct (Nat.eqb_spec (length dimensions) 1); [lia|].
  destruct (Nat.eqb_spec (length dimensions) 2); [lia|]. reflexivity.
Qed.

(** Both decoders are the concatenation, over the units they visit, of
    what each unit contributes. *)
Lemma utils_decoder_units output ow oh mw mh thr :
  ModelUtils.processYoloOutput output ow oh mw mh thr
  = flat_map (Spec.emit output.(data) thr (scale ow mw) (scale oh mh))
      (Spec.unitsUtils output).
Proof.
  destruct output as [values dimensions].
  destruct dimensions as [|d0 [|d1 [|d2 [|d3 [|d4 rest]]]]];
    try (rewrite utils_dispatch_other by (simpl; lia); apply decodeUnknown_units).
  - rewrite utils_dispatch_3. unfold Spec.unitsUtils; cbn [data dims].
    destruct (5 <? d2).
    + by rewrite decodeRows_units, flat_map_of_map.
    + destruct (d1 =? 84).
      * by rewrite decodeDirect_units, flat_map_of_map.
      * apply decodeUnknown_units.
  - rewrite utils_dispatch_4. unfold Spec.unitsUtils; cbn [data dims].
    by rewrite decodeGrid_units, flat_map_of_map.
Qed.

Lemma worker_decoder_units output ow oh mw mh thr :
  ModelWorker.processYoloOutput output ow oh mw mh thr
  = flat_map (Spec.emit output.(data) thr (scale ow mw) (scale oh mh))
      (Spec.unitsWorker output).
Proof.
  destruct output as [values dimensions].
  destruct dimensions as [|d0 [|d1 [|d2 [|d3 rest]]]];
    try (rewrite worker_dispatch_other by (simpl; lia); done).
  - rewrite worker_dispatch_1. apply decodeFlat_units.
  - rewrite worker_dispatch_2. unfold Spec.unitsWorker; cbn [data dims].
    destruct (d0 =? 1); [apply decodeFlat_units|done].
  - rewrite worker_dispatch_3. unfold Spec.unitsWorker; cbn [data dims].
    destruct (Nat.ltb_spec 5 d2).
    + by rewrite decodeRows_units, flat_map_of_map.
    + by rewrite decodeBatch_units by lia.
Qed.

(** An emitted detection comes from a unit that the decoder visits. *)
Lemma in_utils_output output ow oh mw mh thr d :
  In d (ModelUtils.processYoloOutput output ow oh mw mh thr) <->
  exists u, In u (Spec.unitsUtils output)
            /\ Spec.passes output.(data) thr u = true
            /\ d = Spec.detectionOf output.(data) (scale ow mw) (scale oh mh) u.
Proof.
  rewrite utils_decoder_units, in_flat_map.
  split; intros [u [Hu Hd]]; exists u; [apply in_emit in Hd|rewrite in_emit]; tauto.
Qed.

Lemma in_worker_output output ow oh mw mh thr d :
  In d (ModelWorker.processYoloOutput output ow oh mw mh thr) <->
  exists u, In u (Spec.unitsWorker output)
            /\ Spec.passes output.(data) thr u = true
            /\ d = Spec.detectionOf output.(data) (scale ow mw) (scale oh mh) u.
Proof.
  rewrite worker_decoder_units, in_flat_map.
  split; intros [u [Hu Hd]]; exists u; [apply in_emit in Hd|rewrite in_emit]; tauto.
Qed.

(** What the units contribute, as the detections of the units that pass
    the filters. *)
Lemma emitted_units data thr xs ys units :
  flat_map (Spec.emit data thr xs ys) units
  = map (Spec.detectionOf data xs ys) (List.filter (Spec.passes data thr) units).
Proof.
  induction units as [|u units IH]; [done|]. cbn [flat_map List.filter].
  rewrite emit_passes, IH. by destruct (Spec.passes data thr u).
Qed.

(** C2: a tensor of shape [[1, C, H, W]] is decoded cell by cell by the
    utility decoder only: there the cells are taken row by row, and the cell
    (row, col) contributes the candidate whose box parameters are channels 0
    to 3, whose objectness is channel 4 and whose class scores are the
    channels from 5 on of the classes of the class table, channel [ch] being
    read at index [ch * H * W + row * W + col].  The decoder of the worker has
    no branch for four dimensions and returns the empty list for every such
    tensor: for the grid [Examples.twoCells], whose first cell passes the
    threshold 1/2 with the score 9/10 * 4/5, the utility decoder reports
    the detection of that cell and the worker none. *)
Theorem grid_layout_missing_in_worker :
  (forall data C H W ow oh mw mh thr,
      ModelUtils.processYoloOutput {| data := data; dims := [1; C; H; W] |} ow oh mw mh thr
      = flat_map (Spec.gridCandidate data H W thr (scale ow mw) (scale oh mh))
          (Spec.gridCells H W)
      /\ ModelWorker.processYoloOutput {| data := data; dims := [1; C; H; W] |}
           ow oh mw mh thr
         = [])
  /\ flat_map (Spec.gridCandidate Examples.twoCells.(data) 1 2 Examples.half
                 (scale 1000 640) (scale 500 640)) (Spec.gridCells 1 2)
     = [Examples.scoredDetection]
  /\ ModelUtils.processYoloOutput Examples.twoCells 1000 500 640 640 Examples.half
     = [Examples.scoredDetection]
  /\ ModelWorker.processYoloOutput Examples.twoCells 1000 500 640 640 Examples.half = [].
Proof.
  split; [|split; [|split]]; try (vm_compute; reflexivity).
  intros data C H W ow oh mw mh thr. split.
  - rewrite utils_dispatch_4. apply decodeGrid_units.
  - apply worker_dispatch_other. cbn [length]. lia.
Qed.

(** ** Comparisons *)

Lemma ge_true_lt_false a b : JS.ge a b = true -> JS.lt a b = false.
Proof.
  destruct a as [x| |], b as [y| |]; cbn [JS.ge JS.lt]; try done.
  intros Hle. apply Qle_bool_iff in Hle.
  destruct (Qcompare x y) eqn:Hc; try done.
  apply Qlt_alt in Hc. by apply Qle_not_lt in Hle.
Qed.

Lemma lt_threshold_mono v (a b : Q) :
  (a <= b)%Q -> JS.lt v (JS.Num a) = true -> JS.lt v (JS.Num b) = true.
Proof.
  intros Hab. destruct v as [x| |]; cbn [JS.lt]; try done.
  destruct (Qcompare x a) eqn:Hc; try done. intros _.
  apply Qlt_alt in Hc.
  assert (Hxb : Qcompare x b = Lt)
    by (apply Qlt_alt; eapply Qlt_le_trans; eauto).
  by rewrite Hxb.
Qed.

Lemma ge_threshold_mono v (a b : Q) :
  (a <= b)%Q -> JS.ge v (JS.Num b) = true -> JS.ge v (JS.Num a) = true.
Proof.
  intros Hab. destruct v as [x| |]; cbn [JS.ge]; try done.
  rewrite !Qle_bool_iff. intros Hbx. eapply Qle_trans; eauto.
Qed.

(** A unit that passes the filters has an objectness and a score that are
    not below the threshold. *)
Lemma passes_not_below data thr u :
  Spec.passes data thr u = true ->
  JS.lt (Spec.objectness data u) thr = false
  /\ JS.lt (Spec.unitScore data u) thr = false.
Proof.
  destruct u as [K i|H W row col|N i|i|N E b i]; cbn [Spec.passes Spec.unitScore];
    rewrite andb_true_iff, ?negb_true_iff; try tauto.
  - intros [_ Hge]. split; by apply ge_true_lt_false.
  - intros [Hge Hlt]. split; [by apply ge_true_lt_false|done].
Qed.

(** ** The claims *)

(** C1: a tensor of shape [[1, 84, 6]] is not decoded as the channel-major
    flat layout: both decoders take it by the rows branch, as 84 rows of 6
    values, and report five detections where the channel-major flat reading
    has six, each of score 3/4. *)
Theorem channel_flat_shadowed_by_rows :
  let thr := Examples.half in
  let xs := scale 1000 640 in
  let ys := scale 500 640 in
  let out := ModelUtils.processYoloOutput Examples.eightyFourBySix 1000 500 640 640 thr in
  out = decodeRows Examples.eightyFourBySix.(data) thr xs ys 84 6
  /\ ModelWorker.processYoloOutput Examples.eightyFourBySix 1000 500 640 640 thr = out
  /\ map score out
     = [JS.Num 102400; JS.Num 102400; JS.Num 4096; JS.Num 4096; JS.Num (9 # 16)]
  /\ map score (Spec.decodeChannelFlat Examples.eightyFourBySix.(data) 6 thr xs ys)
     = repeat (JS.Num (3 # 4)) 6
  /\ out <> Spec.decodeChannelFlat Examples.eightyFourBySix.(data) 6 thr xs ys.
Proof.
  cbv zeta. repeat split; try (vm_compute; reflexivity).
  intros Heq. apply (f_equal (@length _)) in Heq. vm_compute in Heq. discriminate.
Qed.

(** The channel-major flat branch of the utility decoder is reached
    exactly by the shapes [[_, 84, N]] with [N <= 5]. *)
Lemma channel_flat_reached data b N ow oh mw mh thr :
  ModelUtils.processYoloOutput {| data := data; dims := [b; 84; N] |} ow oh mw mh thr
  = if 5 <? N then decodeRows data thr (scale ow mw) (scale oh mh) 84 N
    else Spec.decodeChannelFlat data N thr (scale ow mw) (scale oh mh).
Proof.
  rewrite utils_dispatch_3. destruct (5 <? N); [done|]. apply decodeDirect_units.
Qed.

(** Every emitted detection is the detection of a unit that the decoder
    visits and that passes the filters. *)
Lemma emitted_from_unit output ow oh mw mh thr d :
  In d (ModelUtils.processYoloOutput output ow oh mw mh thr)
  \/ In d (ModelWorker.processYoloOutput output ow oh mw mh thr) ->
  exists u,
    (In u (Spec.unitsUtils output) \/ In u (Spec.unitsWorker output))
    /\ Spec.passes output.(data) thr u = true
    /\ d = Spec.detectionOf output.(data) (scale ow mw) (scale oh mh) u.
Proof.
  intros [Hd|Hd]; [apply in_utils_output in Hd|apply in_worker_output in Hd];
    destruct Hd as [u [Hu [Hp Hd]]]; exists u; tauto.
Qed.

(** C3: each decoder reports, in the order of the units it visits, one
    box for each unit that passes the filters, computed from the raw centre
    box (cx, cy, w, h) of the unit as ((cx - w/2) * (origW/modelW),
    (cy - h/2) * (origH/modelH), w * (origW/modelW), h * (origH/modelH)), and
    no other box. *)
Theorem emitted_box_geometry output ow oh mw mh thr :
  let values := output.(data) in
  let box := fun u =>
    let '(cx, cy, w, h) := Spec.rawBox values u in
    (JS.mul (JS.sub cx (JS.div w (JS.Num 2))) (JS.div (JS.of_nat ow) (JS.of_nat mw)),
     JS.mul (JS.sub cy (JS.div h (JS.Num 2))) (JS.div (JS.of_nat oh) (JS.of_nat mh)),
     JS.mul w (JS.div (JS.of_nat ow) (JS.of_nat mw)),
     JS.mul h (JS.div (JS.of_nat oh) (JS.of_nat mh))) in
  map bbox (ModelUtils.processYoloOutput output ow oh mw mh thr)
  = map box (List.filter (Spec.passes values thr) (Spec.unitsUtils output))
  /\ map bbox (ModelWorker.processYoloOutput output ow oh mw mh thr)
     = map box (List.filter (Spec.passes values thr) (Spec.unitsWorker output)).
Proof.
  cbv zeta. rewrite utils_decoder_units, worker_decoder_units, !emitted_units, !map_map.
  split; apply map_ext; intros u; unfold Spec.detectionOf;
    by destruct (Spec.rawBox (data output) u) as [[[cx cy] w] h].
Qed.

(** With origW = 1000, origH = 500, modelW = modelH = 640 and the one row
    of raw box (320, 320, 64, 64), which passes the threshold 1/2, each decoder
    reports the box (450, 225, 100, 50). *)
Lemma emitted_box_geometry_witness :
  Spec.rawBox Examples.oneRow.(data) (Spec.Row 6 0)
  = (JS.Num 320, JS.Num 320, JS.Num 64, JS.Num 64)
  /\ map bbox (ModelUtils.processYoloOutput Examples.oneRow 1000 500 640 640 Examples.half)
     = [(JS.Num 450, JS.Num 225, JS.Num 100, JS.Num 50)]
  /\ map bbox (ModelWorker.processYoloOutput Examples.oneRow 1000 500 640 640 Examples.half)
     = [(JS.Num 450, JS.Num 225, JS.Num 100, JS.Num 50)].
Proof.
  destruct (emitted_box_geometry Examples.oneRow 1000 500 640 640 Examples.half)
    as [Hutils Hworker].
  cbv zeta in Hutils, Hworker. rewrite Hutils, Hworker.
  split; [|split]; vm_compute; reflexivity.
Defined.

(** C4, as the claim states it, fails in four ways.  The flat fallback has
    no class-score slot, and for the record [[10, 10, 4, 8, 3/4, 3]] both
    decoders report the class 3, not the class 0.  Only the class score of
    slot 5 counts: the row [[320, 320, 64, 64, 9/10, 3/5, 4/5]] is reported
    with the score 9/10 * 3/5, not 9/10 * 4/5.  A row whose objectness is NaN
    is reported, with the score NaN, although NaN >= 1/2 does not hold.  And a
    negative class score counts as 0: at threshold 0 the row
    [[320, 320, 64, 64, 9/10, -1/2]] is reported with the score 0. *)
Lemma score_rule_exceptions :
  (ModelWorker.processYoloOutput Examples.oneRecord 640 640 640 640 Examples.half
   = [Examples.oneRecordDetection]
   /\ ModelUtils.processYoloOutput Examples.oneRecord 640 640 640 640 Examples.half
      = [Examples.oneRecordDetection]
   /\ class_id Examples.oneRecordDetection = JS.Num 3
   /\ class_id Examples.oneRecordDetection <> JS.Num 0
   /\ score Examples.oneRecordDetection = JS.Num (3 # 4))
  /\ (map score
        (ModelWorker.processYoloOutput Examples.sevenValueRow 1000 500 640 640 Examples.half)
      = [JS.Num (27 # 50)]
      /\ map score
           (ModelUtils.processYoloOutput Examples.sevenValueRow 1000 500 640 640
              Examples.half)
         = [JS.Num (27 # 50)]
      /\ JS.mul (JS.Num (9 # 10)) (JS.Num (3 # 5)) = JS.Num (27 # 50)
      /\ JS.mul (JS.Num (9 # 10)) (JS.Num (4 # 5)) = JS.Num (18 # 25))
  /\ (map score
        (ModelWorker.processYoloOutput Examples.nanRow 1000 500 640 640 Examples.half)
      = [JS.NaN]
      /\ map score
           (ModelUtils.processYoloOutput Examples.nanRow 1000 500 640 640 Examples.half)
         = [JS.NaN]
      /\ JS.ge JS.NaN Examples.half = false)
  /\ (map score
        (ModelWorker.processYoloOutput Examples.negativeScoreRow 1000 500 640 640
           (JS.Num 0))
      = [JS.Num 0]
      /\ map score
           (ModelUtils.processYoloOutput Examples.negativeScoreRow 1000 500 640 640
              (JS.Num 0))
         = [JS.Num 0]
      /\ JS.mul (JS.Num (9 # 10)) (JS.Num (-1 # 2)) = JS.Num (-9 # 20)).
Proof.
  repeat split; try (vm_compute; reflexivity). discriminate.
Qed.

Lemma lt_false_le (a t : Q) : JS.lt (JS.Num a) (JS.Num t) = false -> (t <= a)%Q.
Proof.
  cbn [JS.lt]. intros Hlt. apply Qnot_lt_le. intros Hc.
  assert (Hcmp : Qcompare a t = Lt) by (by apply Qlt_alt).
  by rewrite Hcmp in Hlt.
Qed.

(** C4, amended: each decoder reports, in the order of the units it
    visits, the score and the class of each unit that passes the filters, and
    nothing else.  A unit that passes has an objectness and a score that are
    not below the threshold (for numbers: both are at least the threshold).
    The score is objectness * best class probability in the rows and grid
    branches, where the best class probability is the largest of 0 and the
    class score of slot 5, the one class of the class table; it is the
    objectness itself in the channel-major flat branch and in the flat
    fallback, and objectness * 1 in the worker's batch branch.  The class is 0
    everywhere but in the flat fallback, where it is the rounded sixth value
    of the record.  [Spec.unitScore], [Spec.unitClass] and [Spec.passes] say
    so branch by branch. *)
Theorem emitted_score_rule output ow oh mw mh thr :
  let values := output.(data) in
  let reported := fun d => (score d, class_id d) in
  let rule := fun u => (Spec.unitScore values u, Spec.unitClass values u) in
  map reported (ModelUtils.processYoloOutput output ow oh mw mh thr)
  = map rule (List.filter (Spec.passes values thr) (Spec.unitsUtils output))
  /\ map reported (ModelWorker.processYoloOutput output ow oh mw mh thr)
     = map rule (List.filter (Spec.passes values thr) (Spec.unitsWorker output))
  /\ (forall u, Spec.passes values thr u = true ->
       JS.lt (Spec.objectness values u) thr = false
       /\ JS.lt (Spec.unitScore values u) thr = false
       /\ forall a s t : Q,
            Spec.objectness values u = JS.Num a -> Spec.unitScore values u = JS.Num s ->
            thr = JS.Num t -> (t <= a)%Q /\ (t <= s)%Q).
Proof.
  cbv zeta. rewrite utils_decoder_units, worker_decoder_units, !emitted_units, !map_map.
  assert (Hfields : forall u,
             (score (Spec.detectionOf (data output) (scale ow mw) (scale oh mh) u),
              class_id (Spec.detectionOf (data output) (scale ow mw) (scale oh mh) u))
             = (Spec.unitScore (data output) u, Spec.unitClass (data output) u)).
  { intros u. unfold Spec.detectionOf.
    by destruct (Spec.rawBox (data output) u) as [[[cx cy] w] h]. }
  split; [by apply map_ext|]. split; [by apply map_ext|].
  intros u Hp. apply passes_not_below in Hp as [Hobj Hscore].
  split; [done|]. split; [done|].
  intros a s t Ha Hs ->. rewrite Ha in Hobj. rewrite Hs in Hscore.
  split; by apply lt_false_le.
Qed.

(** The row [[320, 320, 64, 64, 9/10, 4/5]] is reported by each decoder
    with the score 9/10 * 4/5 = 18/25 and the class 0. *)
Lemma emitted_score_rule_witness :
  map (fun d => (score d, class_id d))
    (ModelUtils.processYoloOutput Examples.scoredRow 1000 500 640 640 Examples.half)
  = [(JS.Num (18 # 25), JS.Num 0)]
  /\ map (fun d => (score d, class_id d))
       (ModelWorker.processYoloOutput Examples.scoredRow 1000 500 640 640 Examples.half)
     = [(JS.Num (18 # 25), JS.Num 0)]
  /\ Spec.unitScore Examples.scoredRow.(data) (Spec.Row 6 0)
     = JS.mul (JS.Num (9 # 10)) (JS.Num (4 # 5)).
Proof.
  destruct (emitted_score_rule Examples.scoredRow 1000 500 640 640 Examples.half)
    as [Hutils [Hworker _]].
  cbv zeta in Hutils, Hworker. rewrite Hutils, Hworker.
  split; [|split]; vm_compute; reflexivity.
Defined.

(** ** The worker's message handler *)

Lemma run_without_session create event :
  event.(ModelWorker.type) = "RUN_INFERENCE"%string ->
  ModelWorker.onmessage create None event
  = (None, ModelWorker.ERROR "Model is not loaded").
Proof.
  intros Htype. unfold ModelWorker.onmessage, ModelWorker.handle. by rewrite Htype.
Qed.

(** C9: as long as no load has completed, so that the worker's session is
    still null, every RUN_INFERENCE request is answered by the error message
    "Model is not loaded", and no reply carries detections. *)
Theorem not_ready_before_load create events :
  (forall e, In e events -> fst (ModelWorker.onmessage create None e) = None) ->
  Forall2 (fun e reply =>
             e.(ModelWorker.type) = "RUN_INFERENCE"%string ->
             reply = ModelWorker.ERROR "Model is not loaded")
    events (ModelWorker.serve create None events)
  /\ forall reply detections,
      In reply (ModelWorker.serve create None events) ->
      reply <> ModelWorker.INFERENCE_RESULT detections.
Proof.
  induction events as [|e events IH]; intros Hnone; simpl.
  - split; [constructor|tauto].
  - assert (He : fst (ModelWorker.onmessage create None e) = None)
      by (apply Hnone; by left).
    destruct IH as [IHreplies IHnone]; [intros e' He'; apply Hnone; by right|].
    destruct (ModelWorker.onmessage create None e) as [session' reply] eqn:Hstep.
    simpl in He; subst session'. split.
    + constructor; [|done]. intros Htype.
      rewrite run_without_session in Hstep by done. congruence.
    + intros r ds [<-|Hin]; [|by apply IHnone].
      unfold ModelWorker.onmessage, ModelWorker.handle in Hstep.
      destruct (String.eqb _ "LOAD_MODEL") eqn:Hload.
      * destruct (ModelWorker.modelUrl e) as [url|]; [|congruence].
        destruct (String.eqb url ""); [congruence|].
        destruct (create url); simpl in Hstep; congruence.
      * destruct (String.eqb _ "RUN_INFERENCE"); congruence.
Qed.

Lemma not_ready_before_load_witness :
  let events := [Examples.runRequest; Examples.loadRequest "models/birdnest.onnx";
                 Examples.runRequest] in
  Forall2 (fun e reply =>
             e.(ModelWorker.type) = "RUN_INFERENCE"%string ->
             reply = ModelWorker.ERROR "Model is not loaded")
    events (ModelWorker.serve Examples.noModel None events)
  /\ forall reply detections,
      In reply (ModelWorker.serve Examples.noModel None events) ->
      reply <> ModelWorker.INFERENCE_RESULT detections.
Proof.
  apply (not_ready_before_load Examples.noModel).
  intros e [<-|[<-|[<-|[]]]]; reflexivity.
Defined.

(** ** Reads outside a record *)

(** C10 fails on the worker's batch branch.  In a tensor of shape
    [[1, 2, 3]] the first record has three values, yet a detection is reported
    for it whose height and score are the first and second values of the
    second record, read at the offsets 3 and 4.  In a tensor of shape
    [[1, 1, 3]] the confidence is looked for at index 4 of a buffer of three
    values. *)
Theorem batch_branch_reads_outside_record :
  ModelWorker.processYoloOutput Examples.twoShortRecords 640 640 640 640 Examples.half
  = [Examples.shortRecordDetection]
  /\ Spec.unitsWorker Examples.oneShortRecord = [Spec.BatchRow 1 3 0 0]
  /\ Spec.slotIndex (Spec.BatchRow 1 3 0 0) 4 = 4
  /\ length Examples.oneShortRecord.(data) = 3
  /\ Spec.objectness Examples.oneShortRecord.(data) (Spec.BatchRow 1 3 0 0) = JS.Undefined.
Proof. repeat split; vm_compute; reflexivity. Qed.

(** Whenever the worker's batch branch is given records of fewer than five
    values, the confidence of the last record is read past the end of a buffer
    of the size that the shape announces. *)
Lemma batch_confidence_outside_buffer values B N E :
  E < 5 -> length values = S B * S N * E ->
  Spec.objectness values (Spec.BatchRow (S N) E B N) = JS.Undefined.
Proof.
  intros HE Hlen. unfold Spec.objectness, Spec.slot, Spec.slotIndex, JS.read.
  rewrite lookup_ge_None_2; [done|]. rewrite Hlen. nia.
Qed.

(** ** Shapes that no layout matches *)

Lemma no_unit_passes_empty data thr xs ys units :
  (forall u, In u units -> Spec.passes data thr u = false) ->
  flat_map (Spec.emit data thr xs ys) units = [].
Proof.
  induction units as [|u units IH]; intros Hnone; simpl; [done|].
  rewrite emit_passes, (Hnone u) by (by left). simpl.
  apply IH. intros u' Hu'. apply Hnone. by right.
Qed.

Lemma records_need_six_values data thr u :
  In u (Spec.records data) -> length data < 6 -> Spec.passes data thr u = false.
Proof.
  unfold Spec.records. rewrite in_map_iff. intros [i [<- _]] Hlen. simpl.
  destruct (Nat.leb_spec (i + 6) (length data)); [lia|done].
Qed.

(** C5, as the claim states it, fails: the shape [[2, 2]] with four values
    matches no layout and holds no record of six values, and both decoders
    return the empty list; the worker answers the request with an empty
    detection result, not with an error. *)
Lemma unsupported_shape_yields_empty_result :
  Spec.mustRaise Examples.twoByTwo = true
  /\ ModelUtils.processYoloOutput Examples.twoByTwo 2 1 1 1 Examples.half = []
  /\ ModelWorker.processYoloOutput Examples.twoByTwo 2 1 1 1 Examples.half = []
  /\ ModelWorker.runInference (Examples.sessionGiving Examples.twoByTwo) Examples.onePixelImage
       Examples.half (JS.Num (9 # 20))
     = JS.Normal []
  /\ snd (ModelWorker.onmessage Examples.noModel
            (Some (Examples.sessionGiving Examples.twoByTwo)) Examples.runRequest)
     = ModelWorker.INFERENCE_RESULT [].
Proof. repeat split; vm_compute; reflexivity. Qed.

(** C5, amended: decoding never raises.  Once the session has produced its
    first output, [runInference] completes normally with the list that the
    decoder returns, whatever the shape.  The utility decoder returns the empty
    list when the shape matches no known layout and the buffer holds fewer than
    six values, and each decoder returns the empty list when none of the units
    it visits passes the threshold filters. *)
Theorem decoding_never_raises session imageData thr iou results output :
  length imageData.(tensor) = 3 * imageData.(height) * imageData.(width) ->
  session.(ModelWorker.run)
    {[ ModelWorker.key (session.(ModelWorker.inputNames) !! 0) :=
         {| data := imageData.(tensor);
            dims := [1; 3; imageData.(height); imageData.(width)] |} ]}
  = JS.Normal results ->
  results !! ModelWorker.key (session.(ModelWorker.outputNames) !! 0) = Some output ->
  let ow := imageData.(originalWidth) in
  let oh := imageData.(originalHeight) in
  let mw := imageData.(width) in
  let mh := imageData.(height) in
  ModelWorker.runInference session imageData thr iou
  = JS.Normal (ModelWorker.processYoloOutput output ow oh mw mh thr)
  /\ (Spec.mustRaise output = true ->
      ModelUtils.processYoloOutput output ow oh mw mh thr = [])
  /\ ((forall u, In u (Spec.unitsUtils output) -> Spec.passes output.(data) thr u = false) ->
      ModelUtils.processYoloOutput output ow oh mw mh thr = [])
  /\ ((forall u, In u (Spec.unitsWorker output) -> Spec.passes output.(data) thr u = false) ->
      ModelWorker.processYoloOutput output ow oh mw mh thr = []).
Proof.
  intros Hsize Hrun Hout ow oh mw mh. split; [|split; [|split]].
  - unfold ModelWorker.runInference, ModelWorker.newTensor. cbv zeta.
    replace (foldr Nat.mul 1 [1; 3; height imageData; width imageData])
      with (length (tensor imageData)) by (rewrite Hsize; simpl; lia).
    rewrite Nat.eqb_refl. unfold mbind, completion_bind, JS.bind.
    by rewrite Hrun, Hout.
  - intros Hraise. rewrite utils_decoder_units. apply no_unit_passes_empty.
    intros u Hu. apply records_need_six_values.
    + destruct output as [values dimensions].
      unfold Spec.mustRaise, Spec.knownLayout, Spec.unitsUtils in *.
      cbn [data dims] in *.
      destruct dimensions as [|d0 [|d1 [|d2 [|d3 [|d4 rest]]]]]; try done.
      destruct (5 <? d2); [done|]. by destruct (d1 =? 84).
    + unfold Spec.mustRaise, Spec.parseable in Hraise.
      apply andb_true_iff in Hraise as [_ Hlen]. apply negb_true_iff in Hlen.
      by apply Nat.leb_gt in Hlen.
  - intros Hnone. rewrite utils_decoder_units. by apply no_unit_passes_empty.
  - intros Hnone. rewrite worker_decoder_units. by apply no_unit_passes_empty.
Qed.

Lemma decoding_never_raises_witness :
  let session := Examples.sessionGiving Examples.twoByTwo in
  let imageData := Examples.onePixelImage in
  let output := Examples.twoByTwo in
  let thr := Examples.half in
  ModelWorker.runInference session imageData thr (JS.Num (9 # 20))
  = JS.Normal (ModelWorker.processYoloOutput output 2 1 1 1 thr)
  /\ (Spec.mustRaise output = true ->
      ModelUtils.processYoloOutput output 2 1 1 1 thr = [])
  /\ ((forall u, In u (Spec.unitsUtils output) -> Spec.passes output.(data) thr u = false) ->
      ModelUtils.processYoloOutput output 2 1 1 1 thr = [])
  /\ ((forall u, In u (Spec.unitsWorker output) -> Spec.passes output.(data) thr u = false) ->
      ModelWorker.processYoloOutput output 2 1 1 1 thr = []).
Proof.
  apply (decoding_never_raises (Examples.sessionGiving Examples.twoByTwo)
           Examples.onePixelImage Examples.half (JS.Num (9 # 20))
           {[ "output0"%string := Examples.twoByTwo ]} Examples.twoByTwo).
  - reflexivity.
  - reflexivity.
  - vm_compute. reflexivity.
Defined.

(** ** Thresholds *)

Lemma lt_zero_false q : (0 <= q)%Q -> JS.lt (JS.Num q) (JS.Num 0) = false.
Proof.
  intros Hq. cbn [JS.lt]. destruct (Qcompare q 0) eqn:Hc; try done.
  apply Qlt_alt in Hc. by apply Qle_not_lt in Hq.
Qed.

Lemma bestClass_cases slot :
  fst (bestClass slot) = JS.Num 0
  \/ exists x, slot 0 = JS.Num x /\ (0 < x)%Q /\ fst (bestClass slot) = JS.Num x.
Proof.
  rewrite bestClass_single. destruct (JS.gt (slot 0) (JS.Num 0)) eqn:Hgt; [|by left].
  right. unfold JS.gt in Hgt. destruct (slot 0) as [x| |]; cbn [JS.lt] in Hgt; try done.
  exists x. repeat split. apply Qlt_alt. by destruct (Qcompare 0 x).
Qed.

Lemma bestClassProbability_cases data u :
  Spec.bestClassProbability data u = JS.Num 0
  \/ exists x, Spec.slot data u 5 = JS.Num x /\ (0 < x)%Q
               /\ Spec.bestClassProbability data u = JS.Num x.
Proof.
  pose proof (bestClass_largest (fun c => Spec.slot data u (5 + c))) as Hbest.
  apply (f_equal fst) in Hbest. cbn [fst] in Hbest.
  unfold Spec.bestClassProbability, Spec.classScores. rewrite <- Hbest.
  apply (bestClass_cases (fun c => Spec.slot data u (5 + c))).
Qed.

Lemma bestClassProbability_not_negative data u :
  exists b, Spec.bestClassProbability data u = JS.Num b /\ (0 <= b)%Q.
Proof.
  destruct (bestClassProbability_cases data u) as [->|[x [_ [Hx ->]]]].
  - exists 0%Q. split; [done|]. apply Qle_refl.
  - exists x. split; [done|]. by apply Qlt_le_weak.
Qed.

(** At threshold 0 a unit of a known layout passes as soon as its
    objectness is a number that is not negative. *)
Lemma passes_at_zero data u :
  match u with Spec.Record6 _ | Spec.BatchRow _ _ _ _ => False | _ => True end ->
  Spec.nonNegative (Spec.objectness data u) ->
  Spec.passes data (JS.Num 0) u = true.
Proof.
  intros Hkind Hobj.
  destruct (Spec.objectness data u) as [q| |] eqn:Hq; try done. simpl in Hobj.
  assert (Hscored : JS.lt (JS.mul (JS.Num q) (Spec.bestClassProbability data u)) (JS.Num 0)
                    = false).
  { destruct (bestClassProbability_not_negative data u) as [b [-> Hb]].
    apply lt_zero_false. rewrite Qred_correct. by apply Qmult_le_0_compat. }
  destruct u; try done; cbn [Spec.passes Spec.unitScore];
    rewrite ?Hq, ?Hscored, lt_zero_false by done; reflexivity.
Qed.

Lemma all_pass_length data thr xs ys units :
  (forall u, In u units -> Spec.passes data thr u = true) ->
  length (flat_map (Spec.emit data thr xs ys) units) = length units.
Proof.
  induction units as [|u units IH]; intros Hall; simpl; [done|].
  rewrite emit_passes, (Hall u) by (by left). simpl.
  f_equal. apply IH. intros u' Hu'. apply Hall. by right.
Qed.

Lemma passes_mono data (a c : Q) u :
  (a <= c)%Q ->
  Spec.passes data (JS.Num c) u = true -> Spec.passes data (JS.Num a) u = true.
Proof.
  intros Hac. 
  assert (Hlt : forall v, negb (JS.lt v (JS.Num c)) = true -> negb (JS.lt v (JS.Num a)) = true).
  { intros v. rewrite !negb_true_iff. intros Hc.
    destruct (JS.lt v (JS.Num a)) eqn:Ha; [|done].
    by rewrite (lt_threshold_mono v a c Hac Ha) in Hc. }
  destruct u; cbn [Spec.passes]; rewrite !andb_true_iff;
    intros [H1 H2]; split; eauto using ge_threshold_mono.
Qed.

Lemma emitted_count_mono data (a c : Q) xs ys units :
  (a <= c)%Q ->
  length (flat_map (Spec.emit data (JS.Num c) xs ys) units)
  <= length (flat_map (Spec.emit data (JS.Num a) xs ys) units).
Proof.
  intros Hac. induction units as [|u units IH]; simpl; [done|].
  rewrite !length_app, !emit_passes.
  pose proof (passes_mono data a c u Hac) as Hmono.
  destruct (Spec.passes data (JS.Num c) u); [rewrite Hmono by done|];
    destruct (Spec.passes data (JS.Num a) u); simpl; lia.
Qed.

(** C7, as the claim states it, fails: the tensor of shape [[1, 1, 6]]
    whose only row has the objectness -1 gives no detection at threshold 0,
    though it has one row; and the tensor of shape [[1, 84, 6]] gives 84
    detections at threshold 0, not one for each of its six channel columns. *)
Lemma threshold_zero_drops_units :
  ModelUtils.processYoloOutput Examples.negativeRow 1000 500 640 640 (JS.Num 0) = []
  /\ ModelWorker.processYoloOutput Examples.negativeRow 1000 500 640 640 (JS.Num 0) = []
  /\ Spec.unitsUtils Examples.negativeRow = [Spec.Row 6 0]
  /\ length (ModelUtils.processYoloOutput Examples.eightyFourBySix 1000 500 640 640 (JS.Num 0))
     = 84.
Proof. repeat split; vm_compute; reflexivity. Qed.

(** C7, amended: at threshold 0 the rows layout gives one detection for
    each row, the grid layout one for each cell and the channel-major flat
    branch one for each column, provided that the objectness of every unit is a
    number that is not negative; and for every tensor, in both decoders, a
    higher threshold never gives more detections. *)
Theorem threshold_zero_and_monotone values b N K C H W ow oh mw mh :
  (5 < K ->
   (forall i, i < N -> Spec.nonNegative (JS.read values (i * K + 4))) ->
   length (ModelUtils.processYoloOutput {| data := values; dims := [b; N; K] |}
             ow oh mw mh (JS.Num 0)) = N
   /\ length (ModelWorker.processYoloOutput {| data := values; dims := [b; N; K] |}
                ow oh mw mh (JS.Num 0)) = N)
  /\ ((forall row col, row < H -> col < W ->
        Spec.nonNegative (JS.read values (Spec.gridIndex H W 4 row col))) ->
      length (ModelUtils.processYoloOutput {| data := values; dims := [b; C; H; W] |}
                ow oh mw mh (JS.Num 0)) = H * W)
  /\ (N <= 5 ->
      (forall i, i < N -> Spec.nonNegative (JS.read values (Spec.flatIndex N 4 i))) ->
      length (ModelUtils.processYoloOutput {| data := values; dims := [b; 84; N] |}
                ow oh mw mh (JS.Num 0)) = N)
  /\ (forall (output : Tensor) (lower higher : Q),
        (lower <= higher)%Q ->
        length (ModelUtils.processYoloOutput output ow oh mw mh (JS.Num higher))
        <= length (ModelUtils.processYoloOutput output ow oh mw mh (JS.Num lower))
        /\ length (ModelWorker.processYoloOutput output ow oh mw mh (JS.Num higher))
           <= length (ModelWorker.processYoloOutput output ow oh mw mh (JS.Num lower))).
Proof.
  split; [|split; [|split]].
  - intros HK Hobj. split.
    + rewrite utils_decoder_units.
      unfold Spec.unitsUtils; cbn [data dims].
      destruct (Nat.ltb_spec 5 K); [|lia].
      rewrite all_pass_length, length_map, length_seq; [done|].
      intros u [i [<- Hi]]%in_map_iff. apply in_seq in Hi.
      apply passes_at_zero; [done|]. apply Hobj. lia.
    + rewrite worker_decoder_units.
      unfold Spec.unitsWorker; cbn [data dims].
      destruct (Nat.ltb_spec 5 K); [|lia].
      rewrite all_pass_length, length_map, length_seq; [done|].
      intros u [i [<- Hi]]%in_map_iff. apply in_seq in Hi.
      apply passes_at_zero; [done|]. apply Hobj. lia.
  - intros Hobj. rewrite utils_decoder_units.
    unfold Spec.unitsUtils; cbn [data dims].
    rewrite all_pass_length.
    + rewrite length_map. unfold Spec.gridCells.
      rewrite (flat_map_constant_length (c := W)), length_seq; [done|].
      intros row _. by rewrite length_map, length_seq.
    + intros u [[row col] [<- Hcell]]%in_map_iff.
      unfold Spec.gridCells in Hcell. apply in_flat_map in Hcell as [row' [Hrow Hcol]].
      apply in_map_iff in Hcol as [col' [[= <- <-] Hcol]].
      apply in_seq in Hrow, Hcol. cbn [fst snd].
      apply passes_at_zero; [done|]. apply Hobj; lia.
  - intros HN Hobj. rewrite utils_decoder_units.
    unfold Spec.unitsUtils; cbn [data dims].
    destruct (Nat.ltb_spec 5 N); [lia|]. cbn [Nat.eqb].
    rewrite all_pass_length, length_map, length_seq; [done|].
    intros u [i [<- Hi]]%in_map_iff. apply in_seq in Hi.
    apply passes_at_zero; [done|]. apply Hobj. lia.
  - intros output lower higher Hle. split.
    + rewrite !utils_decoder_units. by apply emitted_count_mono.
    + rewrite !worker_decoder_units. by apply emitted_count_mono.
Qed.

(** The worker never decodes at threshold 0: a request that asks for 0
    gets the default 0.25, since [0 || 0.25] is 0.25. *)
Lemma worker_replaces_zero_threshold :
  JS.or_else (default JS.Undefined (Some (JS.Num 0))) (JS.Num (1 # 4)) = JS.Num (1 # 4).
Proof. reflexivity. Qed.

Lemma threshold_zero_and_monotone_witness :
  (length (ModelUtils.processYoloOutput Examples.oneRow 1000 500 640 640 (JS.Num 0)) = 1
   /\ length (ModelWorker.processYoloOutput Examples.oneRow 1000 500 640 640 (JS.Num 0)) = 1)
  /\ length (ModelUtils.processYoloOutput Examples.oneRow 1000 500 640 640 (JS.Num (1 # 2)))
     <= length (ModelUtils.processYoloOutput Examples.oneRow 1000 500 640 640 (JS.Num 0)).
Proof.
  destruct (threshold_zero_and_monotone Examples.oneRow.(data) 1 1 6 6 1 1 1000 500 640 640)
    as [Hrows [_ [_ Hmono]]].
  split.
  - apply Hrows; [lia|]. intros i Hi. replace i with 0 by lia. vm_compute. discriminate.
  - apply Hmono. vm_compute. discriminate.
Defined.

(** ** Class and score of a detection *)

(** C8: the flat fallback takes the class of a detection from the buffer
    and clamps the index into the class table from above only.  For the record
    [[10, 10, 4, 8, 3/4, -1]] both decoders report a detection of class -1 with
    no class name; for the record [[10, 10, 4, 8, 3/4, 3]] they report the class
    3 under the name of entry 0, the class table having no entry 3. *)
Theorem class_clamp_misses_negative_ids :
  ModelWorker.processYoloOutput Examples.negativeClassRecord 640 640 640 640 Examples.half
  = [Examples.negativeClassDetection]
  /\ ModelUtils.processYoloOutput Examples.negativeClassRecord 640 640 640 640 Examples.half
     = [Examples.negativeClassDetection]
  /\ class_id Examples.negativeClassDetection = JS.Num (-1)
  /\ class_name Examples.negativeClassDetection = None
  /\ ModelWorker.processYoloOutput Examples.oneRecord 640 640 640 640 Examples.half
     = [Examples.oneRecordDetection]
  /\ ModelUtils.processYoloOutput Examples.oneRecord 640 640 640 640 Examples.half
     = [Examples.oneRecordDetection]
  /\ class_id Examples.oneRecordDetection = JS.Num 3
  /\ class_name Examples.oneRecordDetection = classNames !! 0
  /\ JS.index classNames (class_id Examples.oneRecordDetection) = None.
Proof. repeat split; vm_compute; reflexivity. Qed.

(** ** The preprocessor *)

Section FillTensor.

Variable pixels : list byte.
Variables H W : nat.
Variable t0 : list JS.value.

Lemma pixelBody_filled y x t :
  y < H -> x < W ->
  Spec.filled pixels H W t0 t (y * W + x) ->
  Spec.filled pixels H W t0 (ImageProcessing.pixelBody pixels W H y x t) (y * W + S x).
Proof.
  intros Hy Hx [Hlen Hget].
  assert (Hp : y * W + x < H * W) by nia.
  unfold ImageProcessing.pixelBody; cbv zeta.
  replace (0 * H * W + y * W + x) with (0 * (H * W) + (y * W + x)) by lia.
  replace (1 * H * W + y * W + x) with (1 * (H * W) + (y * W + x)) by lia.
  replace (2 * H * W + y * W + x) with (2 * (H * W) + (y * W + x)) by lia.
  replace (3 * H * W) with (3 * (H * W)) in Hlen by lia.
  unfold Spec.filled. replace (3 * H * W) with (3 * (H * W)) by lia.
  remember (H * W) as HW eqn:HHW. remember (y * W + x) as p eqn:Hpdef.
  split.
  - rewrite !length_insert. lia.
  - intros ch q Hch Hq.
    rewrite !list_lookup_insert, !length_insert, (Hget ch q Hch Hq).
    replace (y * W + S x) with (S p) by lia.
    unfold Spec.pixelValue.
    destruct (Nat.ltb_spec q (S p)), (Nat.ltb_spec q p);
      repeat case_decide; try lia;
      destruct ch as [|[|[|ch]]]; try lia; try done;
      try (repeat f_equal; lia);
      exfalso; intuition lia.
Qed.

Lemma row_filled y n x t :
  y < H -> x + n <= W ->
  Spec.filled pixels H W t0 t (y * W + x) ->
  Spec.filled pixels H W t0
    (JS.for_loop n x (ImageProcessing.pixelBody pixels W H y) t) (y * W + x + n).
Proof.
  intros Hy. revert x t. induction n as [|n IH]; intros x t Hx Hfilled; simpl.
  - by rewrite Nat.add_0_r.
  - replace (y * W + x + S n) with (y * W + S x + n) by lia.
    apply IH; [lia|]. apply pixelBody_filled; [done|lia|done].
Qed.

Lemma rows_filled m y t :
  y + m <= H ->
  Spec.filled pixels H W t0 t (y * W) ->
  Spec.filled pixels H W t0
    (JS.for_loop m y
       (fun y tensor => JS.for_loop W 0 (ImageProcessing.pixelBody pixels W H y) tensor) t)
    ((y + m) * W).
Proof.
  revert y t. induction m as [|m IH]; intros y t Hy Hfilled; simpl.
  - by rewrite Nat.add_0_r.
  - replace ((y + S m) * W) with ((S y + m) * W) by lia.
    apply IH; [lia|].
    replace (S y * W) with (y * W + 0 + W) by lia.
    apply row_filled; [lia|lia|]. by rewrite Nat.add_0_r.
Qed.

End FillTensor.

Lemma fillTensor_filled pixels H W :
  Spec.filled pixels H W (replicate (3 * H * W) (JS.Num 0))
    (ImageProcessing.fillTensor pixels W H) (H * W).
Proof.
  unfold ImageProcessing.fillTensor; cbv zeta.
  apply (rows_filled pixels H W _ H 0); [lia|].
  split; [apply length_replicate|]. intros ch q _ _. reflexivity.
Qed.

Lemma sample_over_255 (sample : byte) :
  JS.div (JS.of_Z (Z.of_N (Byte.to_N sample))) (JS.Num 255)
  = JS.Num (Qred (inject_Z (Z.of_N (Byte.to_N sample)) / 255))
  /\ Spec.inUnitInterval (JS.div (JS.of_Z (Z.of_N (Byte.to_N sample))) (JS.Num 255)).
Proof.
  split; [reflexivity|]. cbn [JS.div JS.of_Z Qeq_bool]. simpl Spec.inUnitInterval.
  pose proof (Byte.to_N_bounded sample) as Hb.
  rewrite Qred_correct. unfold Qdiv, Qmult, Qinv, Qle; simpl. lia.
Qed.

Lemma pixelValue_sample pixels H W ch q :
  length pixels = 4 * W * H -> ch < 3 -> q < H * W ->
  exists sample : byte,
    pixels !! (q * 4 + ch) = Some sample
    /\ Spec.pixelValue pixels ch q
       = JS.div (JS.of_Z (Z.of_N (Byte.to_N sample))) (JS.Num 255).
Proof.
  intros Hlen Hch Hq.
  destruct (lookup_lt_is_Some_2 pixels (q * 4 + ch)) as [sample Hsample]; [nia|].
  exists sample. split; [done|].
  unfold Spec.pixelValue, ImageProcessing.sample. rewrite Hsample.
  by rewrite (proj1 (sample_over_255 sample)).
Qed.

(** C6: when the image loads and the canvas gives its 4 * W * H samples,
    [preprocessImage] resolves with a tensor of exactly 3 * H * W elements;
    the element at index ch * H * W + y * W + x is the sample of channel ch
    (0 red, 1 green, 2 blue; alpha, at offset 3, is never read) of pixel
    (x, y) divided by 255; every element lies in [0, 1]; and the result
    records the model size and the natural size of the image. *)
Theorem preprocess_tensor_layout load drawAndRead imageSrc W H img :
  0 < W -> 0 < H ->
  load imageSrc = Some img ->
  length (drawAndRead img W H) = 4 * W * H ->
  exists result,
    ImageProcessing.preprocessImage load true drawAndRead imageSrc W H = JS.Normal result
    /\ length result.(tensor) = 3 * H * W
    /\ (forall ch y x, ch < 3 -> y < H -> x < W ->
        exists sample : byte,
          drawAndRead img W H !! ((y * W + x) * 4 + ch) = Some sample
          /\ result.(tensor) !! (ch * H * W + y * W + x)
             = Some (JS.div (JS.of_Z (Z.of_N (Byte.to_N sample))) (JS.Num 255)))
    /\ (forall v, In v result.(tensor) -> Spec.inUnitInterval v)
    /\ result.(width) = W /\ result.(height) = H
    /\ result.(originalWidth) = img.(ImageProcessing.naturalWidth)
    /\ result.(originalHeight) = img.(ImageProcessing.naturalHeight).
Proof.
  intros _ _ Hload Hlen. unfold ImageProcessing.preprocessImage. rewrite Hload. cbn [negb].
  eexists. split; [reflexivity|]. cbn [tensor width height originalWidth originalHeight].
  destruct (fillTensor_filled (drawAndRead img W H) H W) as [Hsize Hget].
  split; [done|]. split; [|split; [|done]].
  - intros ch y x Hch Hy Hx.
    assert (Hq : y * W + x < H * W) by nia.
    destruct (pixelValue_sample _ H W ch (y * W + x) Hlen Hch Hq) as [sample [Hs Hv]].
    exists sample. split; [done|].
    replace (ch * H * W + y * W + x) with (ch * (H * W) + (y * W + x)) by lia.
    rewrite (Hget ch _ Hch Hq), <- Hv.
    by destruct (Nat.ltb_spec (y * W + x) (H * W)); [|lia].
  - intros v Hv. apply list_elem_of_In, list_elem_of_lookup_1 in Hv as [j Hj].
    pose proof (lookup_lt_Some _ _ _ Hj) as Hjlt. rewrite Hsize in Hjlt.
    assert (HHW : H * W <> 0) by lia.
    assert (Hch : j / (H * W) < 3) by (apply Nat.Div0.div_lt_upper_bound; lia).
    assert (Hq : j mod (H * W) < H * W) by (by apply Nat.mod_upper_bound).
    rewrite (Nat.div_mod_eq j (H * W)), (Nat.mul_comm (H * W)), (Hget _ _ Hch Hq) in Hj.
    destruct (Nat.ltb_spec (j mod (H * W)) (H * W)); [|lia].
    destruct (pixelValue_sample _ H W _ _ Hlen Hch Hq) as [sample [_ Hv]].
    rewrite Hv in Hj. injection Hj as <-. apply sample_over_255.
Qed.

Lemma preprocess_tensor_layout_witness :
  let load := fun _ : string => Some Examples.smallImage in
  let drawAndRead := fun (_ : ImageProcessing.Image) (_ _ : nat) => Examples.onePixel in
  exists result,
    ImageProcessing.preprocessImage load true drawAndRead "nest.jpg" 1 1 = JS.Normal result
    /\ length result.(tensor) = 3 * 1 * 1
    /\ (forall ch y x, ch < 3 -> y < 1 -> x < 1 ->
        exists sample : byte,
          Examples.onePixel !! ((y * 1 + x) * 4 + ch) = Some sample
          /\ result.(tensor) !! (ch * 1 * 1 + y * 1 + x)
             = Some (JS.div (JS.of_Z (Z.of_N (Byte.to_N sample))) (JS.Num 255)))
    /\ (forall v, In v result.(tensor) -> Spec.inUnitInterval v)
    /\ result.(width) = 1 /\ result.(height) = 1
    /\ result.(originalWidth) = 2
    /\ result.(originalHeight) = 1.
Proof.
  apply (preprocess_tensor_layout (fun _ => Some Examples.smallImage)
           (fun _ _ _ => Examples.onePixel) "nest.jpg" 1 1 Examples.smallImage).
  - lia.
  - lia.
  - reflexivity.
  - reflexivity.
Defined.

(** The tensor of the one-pixel canvas: red 255, green 128, blue 0. *)
Example one_pixel_tensor :
  ImageProcessing.fillTensor Examples.onePixel 1 1
  = [JS.Num 1; JS.Num (128 # 255); JS.Num 0].
Proof. vm_compute. reflexivity. Qed.

(** * More properties of the sources *)

(** ** The worker's session and replies *)

Lemma onmessage_cases create session event :
  let result := ModelWorker.onmessage create session event in
  (exists message, result = (session, ModelWorker.ERROR message))
  \/ (exists detections, result = (session, ModelWorker.INFERENCE_RESULT detections)
                         /\ is_Some session)
  \/ (exists created, result = (Some created, ModelWorker.MODEL_LOADED)
                      /\ event.(ModelWorker.type) = "LOAD_MODEL"%string).
Proof.
  unfold ModelWorker.onmessage, ModelWorker.handle.
  destruct (String.eqb_spec event.(ModelWorker.type) "LOAD_MODEL") as [Hload|_].
  - destruct (ModelWorker.modelUrl event) as [url|]; [|left; by eexists].
    destruct (String.eqb url ""); [left; by eexists|].
    destruct (create url) as [created|message]; cbn.
    + right. right. by exists created.
    + left. by eexists.
  - destruct (String.eqb _ "RUN_INFERENCE"); [|left; by eexists].
    destruct session as [live|]; [|left; by eexists].
    destruct (ModelWorker.imageData event) as [img|]; [|left; by eexists].
    destruct (ModelWorker.runInference live img _ _) as [detections|message]; cbn.
    + right. left. by exists detections.
    + left. by eexists.
Qed.

Lemma onmessage_keeps_live create session event :
  is_Some session -> is_Some (fst (ModelWorker.onmessage create session event)).
Proof.
  intros Hlive.
  destruct (onmessage_cases create session event)
    as [[m ->]|[[ds [-> _]]|[created [-> _]]]]; by cbn.
Qed.

(** X1: once the worker holds a session, no sequence of requests brings
    its session variable back to null: a failed reload, a failed inference or
    an unknown request all leave a session in place. *)
Theorem session_stays_live create session events :
  is_Some session -> is_Some (ModelWorker.sessionAfter create session events).
Proof.
  revert session. induction events as [|e events IH]; intros session Hlive; simpl; [done|].
  apply IH. by apply onmessage_keeps_live.
Qed.

Lemma session_stays_live_witness :
  is_Some (ModelWorker.sessionAfter Examples.noModel
             (Some (Examples.sessionGiving Examples.twoByTwo))
             [Examples.loadRequest "models/other.onnx"; Examples.runRequest;
              Examples.loadRequest ""]).
Proof.
  apply (session_stays_live Examples.noModel
           (Some (Examples.sessionGiving Examples.twoByTwo))).
  by eexists.
Defined.

(** X2: a request answered by an error or by detections leaves the session
    as it was (after a failed reload the previous model keeps serving); the
    session changes only with a MODEL_LOADED reply, which only a LOAD_MODEL
    request gets, and detections are only ever sent from a live session. *)
Theorem session_changes_only_on_load create session event :
  let session' := fst (ModelWorker.onmessage create session event) in
  let reply := snd (ModelWorker.onmessage create session event) in
  (reply <> ModelWorker.MODEL_LOADED -> session' = session)
  /\ (reply = ModelWorker.MODEL_LOADED ->
      is_Some session' /\ event.(ModelWorker.type) = "LOAD_MODEL"%string)
  /\ (forall detections, reply = ModelWorker.INFERENCE_RESULT detections ->
      is_Some session /\ event.(ModelWorker.type) <> "LOAD_MODEL"%string).
Proof.
  cbv zeta.
  destruct (onmessage_cases create session event)
    as [[m Hr]|[[ds [Hr Hlive]]|[created [Hr Htype]]]]; rewrite Hr; cbn.
  - repeat split; try done.
  - split; [done|]. split; [done|]. intros ds' _. split; [done|]. intros Hload.
    unfold ModelWorker.onmessage, ModelWorker.handle in Hr. rewrite Hload in Hr. cbn in Hr.
    destruct (ModelWorker.modelUrl event) as [url|]; [|done].
    destruct (String.eqb url ""); [done|]. by destruct (create url).
  - split; [done|]. split; [|done]. intros _. split; [by eexists|done].
Qed.

(** X3: a request whose confidence threshold is missing, 0 or NaN is
    answered exactly as a request for 0.25: the worker cannot be asked to
    decode at threshold 0. *)
Theorem falsy_threshold_is_a_quarter create session event confidence iou :
  JS.truthy (default JS.Undefined confidence) = false ->
  ModelWorker.onmessage create session (withThresholds event confidence iou)
  = ModelWorker.onmessage create session
      (withThresholds event (Some (JS.Num (1 # 4))) iou).
Proof.
  intros Hfalsy. unfold ModelWorker.onmessage, ModelWorker.handle, withThresholds; cbn.
  unfold JS.or_else at 1 3. rewrite Hfalsy. reflexivity.
Qed.

Lemma falsy_threshold_is_a_quarter_witness :
  ModelWorker.onmessage Examples.noModel (Some (Examples.sessionGiving Examples.oneRow))
    (withThresholds Examples.runRequest (Some (JS.Num 0)) None)
  = ModelWorker.onmessage Examples.noModel (Some (Examples.sessionGiving Examples.oneRow))
      (withThresholds Examples.runRequest (Some (JS.Num (1 # 4))) None).
Proof.
  apply (falsy_threshold_is_a_quarter Examples.noModel
           (Some (Examples.sessionGiving Examples.oneRow)) Examples.runRequest
           (Some (JS.Num 0)) None).
  reflexivity.
Defined.

(** X4: a RUN_INFERENCE request is answered with detections exactly when
    the session is live, the request carries image data whose tensor has
    3 * height * width values, the model run resolves, and its results hold
    the session's first output; the detections are then those decoded from
    that output with the image's original and model sizes and the defaulted
    confidence threshold.  Every other case is answered by an error. *)
Theorem detections_reply_conditions create session event detections :
  event.(ModelWorker.type) = "RUN_INFERENCE"%string ->
  snd (ModelWorker.onmessage create session event)
  = ModelWorker.INFERENCE_RESULT detections
  <-> exists live img results output,
        session = Some live
        /\ event.(ModelWorker.imageData) = Some img
        /\ length img.(tensor) = 3 * img.(height) * img.(width)
        /\ live.(ModelWorker.run)
             {[ ModelWorker.key (live.(ModelWorker.inputNames) !! 0) :=
                  {| data := img.(tensor); dims := [1; 3; img.(height); img.(width)] |} ]}
           = JS.Normal results
        /\ results !! ModelWorker.key (live.(ModelWorker.outputNames) !! 0) = Some output
        /\ detections
           = ModelWorker.processYoloOutput output
               img.(originalWidth) img.(originalHeight) img.(width) img.(height)
               (JS.or_else (default JS.Undefined event.(ModelWorker.confidenceThreshold))
                  (JS.Num (1 # 4))).
Proof.
  intros Htype. unfold ModelWorker.onmessage, ModelWorker.handle. rewrite Htype. cbn.
  destruct session as [live|]; cbn.
  2:{ split; [done|]. by intros [live [img [results [output [? _]]]]]. }
  destruct (ModelWorker.imageData event) as [img|] eqn:Himg; cbn.
  2:{ split; [done|]. by intros [live' [img [results [output [_ [? _]]]]]]. }
  unfold ModelWorker.runInference, ModelWorker.newTensor; cbv zeta.
  replace (foldr Nat.mul 1 [1; 3; height img; width img])
    with (3 * height img * width img) by (simpl; lia).
  destruct (Nat.eqb_spec (3 * height img * width img) (length (tensor img))) as [Hsize|Hsize].
  2:{ cbn. split; [done|].
      intros [live' [img' [results [output [_ [[= <-] [Hlen _]]]]]]]. by rewrite Hlen in Hsize. }
  unfold mbind, completion_bind, JS.bind.
  destruct (ModelWorker.run live _) as [results|message] eqn:Hrun.
  2:{ split; [done|].
      intros [live' [img' [results [output [[= <-] [[= <-] [_ [Hrun' _]]]]]]]]. congruence. }
  destruct (results !! _) as [output|] eqn:Hout.
  2:{ split; [done|].
      intros [live' [img' [results' [output [[= <-] [[= <-] [_ [Hrun' [Hout' _]]]]]]]]].
      rewrite Hrun in Hrun'. injection Hrun' as <-. congruence. }
  cbn. split.
  - intros [= <-]. exists live, img, results, output. repeat split; done.
  - intros [live' [img' [results' [output' [[= <-] [[= <-] [_ [Hrun' [Hout' ->]]]]]]]]].
    rewrite Hrun in Hrun'. injection Hrun' as <-. rewrite Hout in Hout'.
    by injection Hout' as <-.
Qed.

Lemma detections_reply_conditions_witness :
  snd (ModelWorker.onmessage Examples.noModel
         (Some (Examples.sessionGiving Examples.twoByTwo)) Examples.runRequest)
  = ModelWorker.INFERENCE_RESULT []
  <-> exists live img results output,
        Some (Examples.sessionGiving Examples.twoByTwo) = Some live
        /\ Examples.runRequest.(ModelWorker.imageData) = Some img
        /\ length img.(tensor) = 3 * img.(height) * img.(width)
        /\ live.(ModelWorker.run)
             {[ ModelWorker.key (live.(ModelWorker.inputNames) !! 0) :=
                  {| data := img.(tensor); dims := [1; 3; img.(height); img.(width)] |} ]}
           = JS.Normal results
        /\ results !! ModelWorker.key (live.(ModelWorker.outputNames) !! 0) = Some output
        /\ []
           = ModelWorker.processYoloOutput output
               img.(originalWidth) img.(originalHeight) img.(width) img.(height)
               (JS.or_else
                  (default JS.Undefined Examples.runRequest.(ModelWorker.confidenceThreshold))
                  (JS.Num (1 # 4))).
Proof.
  apply (detections_reply_conditions Examples.noModel
           (Some (Examples.sessionGiving Examples.twoByTwo)) Examples.runRequest []).
  reflexivity.
Defined.

(** ** The decoders, unit by unit *)

(** The counters of a stride loop with enough fuel: the multiples of the
    step, and one more when the bound is not a multiple. *)
Lemma stride_seq_multiples step m : forall fuel i t,
  t < step -> m + (if t =? 0 then 0 else 1) <= fuel ->
  JS.stride_seq fuel i (i + m * step + t) step
  = map (fun k => i + k * step) (seq 0 m) ++ (if t =? 0 then [] else [i + m * step]).
Proof.
  induction m as [|m IH]; intros fuel i t Ht Hfuel.
  - destruct (Nat.eqb_spec t 0) as [->|Hne].
    + destruct fuel as [|fuel]; [done|]. simpl.
      by destruct (Nat.ltb_spec i (i + 0 + 0)); [lia|].
    + destruct fuel as [|fuel]; [lia|]. simpl.
      destruct (Nat.ltb_spec i (i + 0 + t)); [|lia].
      f_equal; [lia|]. destruct fuel; [done|]. simpl.
      by destruct (Nat.ltb_spec (i + step) (i + 0 + t)); [lia|].
  - destruct fuel as [|fuel]; [lia|]. simpl.
    destruct (Nat.ltb_spec i (i + (step + m * step) + t)); [|lia].
    replace (i + (step + m * step) + t) with (i + step + m * step + t) by lia.
    rewrite (IH fuel (i + step) t Ht) by lia. f_equal; [lia|].
    rewrite <- seq_shift, map_map. f_equal; [|destruct (t =? 0); [done|f_equal; lia]].
    apply map_ext. intros k. lia.
Qed.

Lemma records_of_buffer (values : list JS.value) m t :
  length values = m * 6 + t -> t < 6 ->
  Spec.records values
  = map (fun k => Spec.Record6 (k * 6)) (seq 0 m)
    ++ (if t =? 0 then [] else [Spec.Record6 (m * 6)]).
Proof.
  intros Hlen Ht. unfold Spec.records. rewrite Hlen.
  assert (Hfuel : m + (if t =? 0 then 0 else 1) <= m * 6 + t)
    by (destruct (Nat.eqb_spec t 0); lia).
  pose proof (stride_seq_multiples 6 m (m * 6 + t) 0 t Ht Hfuel) as Hseq.
  cbn [Nat.add] in Hseq. rewrite Hseq, map_app, map_map. f_equal.
  by destruct (t =? 0).
Qed.

Lemma emitted_at_most_units data thr xs ys units :
  length (flat_map (Spec.emit data thr xs ys) units) <= length units.
Proof.
  induction units as [|u units IH]; simpl; [done|].
  rewrite length_app, emit_passes. destruct (Spec.passes data thr u); simpl; lia.
Qed.

(** What a unit contributes depends only on its slots 0 to 5 (and, for a
    record of the fallback, on the length of the buffer). *)
Lemma emit_same_slots data data' thr xs ys u :
  (forall k, k <= 5 -> JS.read data (Spec.slotIndex u k) = JS.read data' (Spec.slotIndex u k)) ->
  match u with
  | Spec.Record6 i => (i + 6 <=? length data) = (i + 6 <=? length data')
  | _ => True
  end ->
  Spec.emit data thr xs ys u = Spec.emit data' thr xs ys u.
Proof.
  intros Hslots Hlen. rewrite !emit_passes.
  assert (Hslot : forall k, k <= 5 -> Spec.slot data u k = Spec.slot data' u k)
    by (intros k Hk; by apply Hslots).
  assert (Hobj : Spec.objectness data u = Spec.objectness data' u) by (apply Hslot; lia).
  assert (Hbest : Spec.bestClassProbability data u = Spec.bestClassProbability data' u).
  { unfold Spec.bestClassProbability, Spec.classScores.
    cbn [classNames length seq map]. change (5 + 0) with 5. by rewrite (Hslot 5) by lia. }
  assert (Hscore : Spec.unitScore data u = Spec.unitScore data' u)
    by (destruct u; cbn [Spec.unitScore]; by rewrite ?Hobj, ?Hbest).
  assert (Hdet : Spec.detectionOf data xs ys u = Spec.detectionOf data' xs ys u).
  { unfold Spec.detectionOf, Spec.rawBox.
    rewrite Hscore, (Hslot 0), (Hslot 1), (Hslot 2), (Hslot 3) by lia.
    destruct u; cbn [Spec.unitClass Spec.unitName]; by rewrite ?(Hslot 5) by lia. }
  rewrite Hdet.
  by destruct u; cbn [Spec.passes]; rewrite ?Hobj, ?Hscore, ?Hlen.
Qed.

Lemma flat_map_emit_ext data data' thr xs ys units :
  (forall u, In u units ->
     Spec.emit data thr xs ys u = Spec.emit data' thr xs ys u) ->
  flat_map (Spec.emit data thr xs ys) units = flat_map (Spec.emit data' thr xs ys) units.
Proof.
  intros Hext. induction units as [|u units IH]; simpl; [done|].
  rewrite (Hext u) by (by left). f_equal. apply IH. intros u' Hu'. apply Hext. by right.
Qed.

Lemma read_app_inside (values extra : list JS.value) j :
  j < length values -> JS.read (values ++ extra) j = JS.read values j.
Proof. intros Hj. unfold JS.read. by rewrite lookup_app_l. Qed.

(** X5: the two decoders return the same list on every shape that both
    take by the same branch: rows [[_, N, K]] with K > 5, and the flat fallback
    for one dimension or two dimensions with a leading 1. *)
Theorem decoders_agree_on_shared_shapes output ow oh mw mh thr :
  sharedShape output.(dims) = true ->
  ModelUtils.processYoloOutput output ow oh mw mh thr
  = ModelWorker.processYoloOutput output ow oh mw mh thr.
Proof.
  intros Hshape. rewrite utils_decoder_units, worker_decoder_units. f_equal.
  destruct output as [values dimensions].
  unfold Spec.unitsUtils, Spec.unitsWorker, sharedShape in *. cbn [data dims] in *.
  destruct dimensions as [|d0 [|d1 [|d2 [|d3 rest]]]]; try done.
  - by rewrite Hshape.
  - by rewrite Hshape.
Qed.

Lemma decoders_agree_on_shared_shapes_witness :
  ModelUtils.processYoloOutput Examples.oneRow 1000 500 640 640 Examples.half
  = ModelWorker.processYoloOutput Examples.oneRow 1000 500 640 640 Examples.half.
Proof.
  apply (decoders_agree_on_shared_shapes Examples.oneRow 1000 500 640 640 Examples.half).
  reflexivity.
Defined.

Lemma partial_record_emits_nothing data thr xs ys i :
  length data < i + 6 -> Spec.emit data thr xs ys (Spec.Record6 i) = [].
Proof.
  intros Hlen. rewrite emit_passes. cbn [Spec.passes].
  by destruct (Nat.leb_spec (i + 6) (length data)); [lia|].
Qed.

(** X6: no branch reports more than one detection for a structural unit:
    at most N for N rows, H * W for a grid, B * N for the worker's batch
    branch, and one for every six values of the buffer in the flat fallback. *)
Theorem at_most_one_detection_per_unit values b N K C H W ow oh mw mh thr :
  (5 < K ->
   length (ModelUtils.processYoloOutput {| data := values; dims := [b; N; K] |}
             ow oh mw mh thr) <= N
   /\ length (ModelWorker.processYoloOutput {| data := values; dims := [b; N; K] |}
                ow oh mw mh thr) <= N)
  /\ length (ModelUtils.processYoloOutput {| data := values; dims := [b; C; H; W] |}
               ow oh mw mh thr) <= H * W
  /\ (K <= 5 ->
      length (ModelWorker.processYoloOutput {| data := values; dims := [b; N; K] |}
                ow oh mw mh thr) <= b * N)
  /\ length (ModelUtils.processYoloOutput {| data := values; dims := [N] |}
               ow oh mw mh thr) <= length values / 6
  /\ length (ModelWorker.processYoloOutput {| data := values; dims := [N] |}
               ow oh mw mh thr) <= length values / 6.
Proof.
  assert (Hflat : length (flat_map (Spec.emit values thr (scale ow mw) (scale oh mh))
                            (Spec.records values)) <= length values / 6).
  { assert (Ht : length values mod 6 < 6) by (apply Nat.mod_upper_bound; lia).
    rewrite (records_of_buffer values (length values / 6) (length values mod 6)); [|
      rewrite (Nat.div_mod_eq (length values) 6) at 1; lia | done].
    rewrite flat_map_app, length_app.
    assert (Hlast : flat_map (Spec.emit values thr (scale ow mw) (scale oh mh))
                      (if length values mod 6 =? 0 then []
                       else [Spec.Record6 (length values / 6 * 6)]) = []).
    { destruct (Nat.eqb_spec (length values mod 6) 0); [done|]. cbn [flat_map].
      rewrite partial_record_emits_nothing; [done|].
      pose proof (Nat.div_mod_eq (length values) 6). lia. }
    rewrite Hlast. cbn [length].
    etrans; [apply Nat.add_le_mono_r, emitted_at_most_units|].
    rewrite length_map, length_seq. lia. }
  split; [|split; [|split; [|split]]].
  - intros HK. rewrite utils_decoder_units, worker_decoder_units.
    unfold Spec.unitsUtils, Spec.unitsWorker; cbn [data dims].
    destruct (Nat.ltb_spec 5 K); [|lia].
    split; (etrans; [apply emitted_at_most_units|]); by rewrite length_map, length_seq.
  - rewrite utils_decoder_units. unfold Spec.unitsUtils; cbn [data dims].
    etrans; [apply emitted_at_most_units|].
    rewrite length_map. unfold Spec.gridCells.
    rewrite (flat_map_constant_length (c := W)), length_seq; [lia|].
    intros row _. by rewrite length_map, length_seq.
  - intros HK. rewrite worker_decoder_units. unfold Spec.unitsWorker; cbn [data dims].
    destruct (Nat.ltb_spec 5 K); [lia|].
    etrans; [apply emitted_at_most_units|].
    rewrite (flat_map_constant_length (c := N)), length_seq; [lia|].
    intros row _. by rewrite length_map, length_seq.
  - by rewrite utils_decoder_units.
  - by rewrite worker_decoder_units.
Qed.

(** X7: on a tensor of a known layout whose buffer has the size that the
    shape announces, decoding reads nothing outside the buffer: values appended
    to it change nothing.  This holds for rows [[_, N, K]] with K > 5 and N * K
    values, for a grid [[_, C, H, W]] with at least 6 channels and C * H * W
    values, and for the channel-major flat branch [[_, 84, N]], N <= 5, with
    84 * N values. *)
Theorem known_layouts_read_inside_buffer values extra b N K C H W ow oh mw mh thr :
  (5 < K -> N * K <= length values ->
   ModelUtils.processYoloOutput {| data := values ++ extra; dims := [b; N; K] |}
     ow oh mw mh thr
   = ModelUtils.processYoloOutput {| data := values; dims := [b; N; K] |} ow oh mw mh thr
   /\ ModelWorker.processYoloOutput {| data := values ++ extra; dims := [b; N; K] |}
        ow oh mw mh thr
      = ModelWorker.processYoloOutput {| data := values; dims := [b; N; K] |}
          ow oh mw mh thr)
  /\ (6 <= C -> C * H * W <= length values ->
      ModelUtils.processYoloOutput {| data := values ++ extra; dims := [b; C; H; W] |}
        ow oh mw mh thr
      = ModelUtils.processYoloOutput {| data := values; dims := [b; C; H; W] |}
          ow oh mw mh thr)
  /\ (N <= 5 -> 84 * N <= length values ->
      ModelUtils.processYoloOutput {| data := values ++ extra; dims := [b; 84; N] |}
        ow oh mw mh thr
      = ModelUtils.processYoloOutput {| data := values; dims := [b; 84; N] |}
          ow oh mw mh thr).
Proof.
  split; [|split].
  - intros HK Hlen. rewrite !utils_decoder_units, !worker_decoder_units.
    unfold Spec.unitsUtils, Spec.unitsWorker; cbn [data dims].
    destruct (Nat.ltb_spec 5 K); [|lia].
    split; apply flat_map_emit_ext; intros u [i [<- Hi]]%in_map_iff; apply in_seq in Hi;
      (apply emit_same_slots; [|done]); intros k Hk; apply read_app_inside;
      cbn [Spec.slotIndex]; nia.
  - intros HC Hlen. rewrite !utils_decoder_units.
    unfold Spec.unitsUtils; cbn [data dims].
    apply flat_map_emit_ext. intros u [[row col] [<- Hcell]]%in_map_iff.
    unfold Spec.gridCells in Hcell. apply in_flat_map in Hcell as [row' [Hrow Hcol]].
    apply in_map_iff in Hcol as [col' [[= <- <-] Hcol]].
    apply in_seq in Hrow, Hcol. cbn [fst snd].
    apply emit_same_slots; [|done]. intros k Hk. apply read_app_inside.
    cbn [Spec.slotIndex]. unfold Spec.gridIndex.
    assert (Hq : row' * W + col' < H * W) by nia.
    assert (Hk' : (k + 1) * (H * W) <= C * (H * W)) by (apply Nat.mul_le_mono_r; lia).
    lia.
  - intros HN Hlen. rewrite !utils_decoder_units.
    unfold Spec.unitsUtils; cbn [data dims].
    destruct (Nat.ltb_spec 5 N); [lia|]. cbn [Nat.eqb].
    apply flat_map_emit_ext. intros u [i [<- Hi]]%in_map_iff. apply in_seq in Hi.
    apply emit_same_slots; [|done]. intros k Hk. apply read_app_inside.
    cbn [Spec.slotIndex]. unfold Spec.flatIndex. nia.
Qed.

Lemma known_layouts_read_inside_buffer_witness :
  ModelUtils.processYoloOutput
    {| data := Examples.oneRow.(data) ++ [JS.Num 1; JS.NaN]; dims := [1; 1; 6] |}
    1000 500 640 640 Examples.half
  = ModelUtils.processYoloOutput {| data := Examples.oneRow.(data); dims := [1; 1; 6] |}
      1000 500 640 640 Examples.half.
Proof.
  destruct (known_layouts_read_inside_buffer Examples.oneRow.(data) [JS.Num 1; JS.NaN]
              1 1 6 6 1 1 1000 500 640 640 Examples.half) as [Hrows _].
  apply Hrows; [lia|]. vm_compute. lia.
Defined.

(** X8: the flat fallback skips a partial record at the end of the buffer:
    up to five values appended to a buffer of whole records change nothing, in
    either decoder. *)
Theorem fallback_skips_partial_record values tail m d d' ow oh mw mh thr :
  length values = m * 6 -> length tail < 6 ->
  ModelWorker.processYoloOutput {| data := values ++ tail; dims := [d] |} ow oh mw mh thr
  = ModelWorker.processYoloOutput {| data := values; dims := [d'] |} ow oh mw mh thr
  /\ ModelUtils.processYoloOutput {| data := values ++ tail; dims := [d] |} ow oh mw mh thr
     = ModelUtils.processYoloOutput {| data := values; dims := [d'] |} ow oh mw mh thr.
Proof.
  intros Hlen Htail.
  rewrite !utils_decoder_units, !worker_decoder_units.
  unfold Spec.unitsUtils, Spec.unitsWorker; cbn [data dims].
  assert (Hsame : flat_map (Spec.emit (values ++ tail) thr (scale ow mw) (scale oh mh))
                    (Spec.records (values ++ tail))
                  = flat_map (Spec.emit values thr (scale ow mw) (scale oh mh))
                      (Spec.records values)); [|by rewrite Hsame].
  rewrite (records_of_buffer (values ++ tail) m (length tail))
    by (rewrite ?length_app; lia).
  rewrite (records_of_buffer values m 0) by lia. cbn [Nat.eqb].
  rewrite app_nil_r, flat_map_app.
  assert (Hlast : flat_map (Spec.emit (values ++ tail) thr (scale ow mw) (scale oh mh))
                    (if length tail =? 0 then [] else [Spec.Record6 (m * 6)]) = []).
  { destruct (_ =? 0); [done|]. cbn [flat_map].
    rewrite partial_record_emits_nothing; [done|]. rewrite length_app. lia. }
  rewrite Hlast, app_nil_r. apply flat_map_emit_ext.
  intros u [k [<- Hk]]%in_map_iff. apply in_seq in Hk. apply emit_same_slots.
  - intros j Hj. apply read_app_inside. cbn [Spec.slotIndex]. lia.
  - rewrite length_app.
    destruct (Nat.leb_spec (k * 6 + 6) (length values + length tail)),
      (Nat.leb_spec (k * 6 + 6) (length values)); lia.
Qed.

Lemma fallback_skips_partial_record_witness :
  ModelWorker.processYoloOutput
    {| data := Examples.oneRecord.(data) ++ [JS.Num 1; JS.Num 1]; dims := [8] |}
    640 640 640 640 Examples.half
  = ModelWorker.processYoloOutput {| data := Examples.oneRecord.(data); dims := [6] |}
      640 640 640 640 Examples.half
  /\ ModelUtils.processYoloOutput
       {| data := Examples.oneRecord.(data) ++ [JS.Num 1; JS.Num 1]; dims := [8] |}
       640 640 640 640 Examples.half
     = ModelUtils.processYoloOutput {| data := Examples.oneRecord.(data); dims := [6] |}
         640 640 640 640 Examples.half.
Proof.
  apply (fallback_skips_partial_record Examples.oneRecord.(data) [JS.Num 1; JS.Num 1] 1).
  - reflexivity.
  - simpl. lia.
Defined.

(** ** Geometry and names of a detection *)





Lemma Qred_inject_Z z : Qred (inject_Z z) = inject_Z z.
Proof. apply Qcanon.Qred_identity. simpl. apply Z.gcd_1_r. Qed.

Lemma index_of_integer {A} (table : list A) z :
  JS.index table (JS.Num (inject_Z z))
  = if (0 <=? z)%Z then table !! Z.to_nat z else None.
Proof. unfold JS.index. rewrite Qred_inject_Z. reflexivity. Qed.

Lemma fallback_name_of_class (r : JS.value) :
  JS.index classNames (JS.min (JS.round r) (JS.Num 0))
  = if isClassIndex (JS.round r) then Some "birdnest"%string else None.
Proof.
  destruct r as [x| |]; cbn [JS.round JS.min isClassIndex]; try done.
  set (z := Qfloor (x + (1 # 2))).
  assert (Hle : forall a, Qle_bool (inject_Z a) 0 = (a <=? 0)%Z).
  { intros a. unfold Qle_bool. simpl. f_equal; lia. }
  assert (Hge : forall a, Qle_bool 0 (inject_Z a) = (0 <=? a)%Z).
  { intros a. unfold Qle_bool. simpl. f_equal; lia. }
  rewrite Hle, Hge.
  destruct (Z.leb_spec z 0) as [Hz|Hz].
  - rewrite index_of_integer. destruct (Z.leb_spec 0 z) as [Hz'|Hz']; [|done].
    by replace z with 0%Z by lia.
  - change (JS.Num 0) with (JS.Num (inject_Z 0)). rewrite index_of_integer.
    by destruct (Z.leb_spec 0 z); [|lia].
Qed.

(** X10: the only class name that a detection ever carries is "birdnest":
    in both decoders and in every branch, a detection is named "birdnest" when
    its class id is a number that is not negative, and has no name (undefined)
    otherwise, which only the flat fallback can produce. *)
Theorem detection_named_birdnest_or_nothing output ow oh mw mh thr d :
  In d (ModelUtils.processYoloOutput output ow oh mw mh thr)
  \/ In d (ModelWorker.processYoloOutput output ow oh mw mh thr) ->
  class_name d = if isClassIndex (class_id d) then Some "birdnest"%string else None.
Proof.
  intros Hd. apply emitted_from_unit in Hd. destruct Hd as [u [_ [_ ->]]].
  unfold Spec.detectionOf.
  destruct (Spec.rawBox (data output) u) as [[[cx cy] w] h]. cbn [class_name class_id].
  destruct u; cbn [Spec.unitName Spec.unitClass]; try done.
  apply fallback_name_of_class.
Qed.

Lemma detection_named_birdnest_or_nothing_witness :
  class_name Examples.negativeClassDetection
  = if isClassIndex (class_id Examples.negativeClassDetection)
    then Some "birdnest"%string else None.
Proof.
  apply (detection_named_birdnest_or_nothing Examples.negativeClassRecord
           640 640 640 640 Examples.half Examples.negativeClassDetection).
  right. vm_compute. left. reflexivity.
Defined.

(** ** The preprocessor and what it hands to the model *)

Lemma fillTensor_length pixels W H :
  length (ImageProcessing.fillTensor pixels W H) = 3 * H * W.
Proof. exact (proj1 (fillTensor_filled pixels H W)). Qed.

Lemma fillTensor_lookup pixels W H ch q :
  ch < 3 -> q < H * W ->
  ImageProcessing.fillTensor pixels W H !! (ch * (H * W) + q)
  = Some (Spec.pixelValue pixels ch q).
Proof.
  intros Hch Hq. rewrite (proj2 (fillTensor_filled pixels H W) ch q Hch Hq).
  by destruct (Nat.ltb_spec q (H * W)); [|lia].
Qed.

(** X11: the tensor does not depend on the alpha samples, nor on anything
    that the buffer holds past the 4 * W * H samples of the canvas: two
    buffers that agree on the red, green and blue samples of the W * H pixels
    give the same tensor. *)
Theorem tensor_ignores_alpha pixels pixels' W H :
  (forall i, i < 4 * W * H -> i mod 4 <> 3 -> pixels !! i = pixels' !! i) ->
  ImageProcessing.fillTensor pixels W H = ImageProcessing.fillTensor pixels' W H.
Proof.
  intros Hsame. apply list_eq. intros j.
  destruct (Nat.lt_ge_cases j (3 * H * W)) as [Hj|Hj].
  - assert (Hpos : 0 < H * W) by lia.
    replace j with (j / (H * W) * (H * W) + j mod (H * W))
      by (pose proof (Nat.div_mod_eq j (H * W)); lia).
    assert (Hch : j / (H * W) < 3) by (apply Nat.Div0.div_lt_upper_bound; lia).
    assert (Hq : j mod (H * W) < H * W) by (apply Nat.mod_upper_bound; lia).
    rewrite !fillTensor_lookup by done. f_equal.
    unfold Spec.pixelValue, ImageProcessing.sample.
    set (ch := j / (H * W)) in *. set (q := j mod (H * W)) in *.
    rewrite (Hsame (q * 4 + ch)); [done|nia|].
    rewrite Nat.add_comm, Nat.Div0.mod_add, Nat.mod_small; lia.
  - rewrite !lookup_ge_None_2; [done| |]; rewrite fillTensor_length; lia.
Qed.

Lemma tensor_ignores_alpha_witness :
  ImageProcessing.fillTensor Examples.onePixel 1 1
  = ImageProcessing.fillTensor (take 3 Examples.onePixel ++ [Byte.x00; Byte.x2a]) 1 1.
Proof.
  apply (tensor_ignores_alpha Examples.onePixel
           (take 3 Examples.onePixel ++ [Byte.x00; Byte.x2a]) 1 1).
  intros i Hi Hmod.
  destruct i as [|[|[|[|i]]]]; [reflexivity|reflexivity|reflexivity| |lia].
  exfalso. apply Hmod. reflexivity.
Defined.

(** X12: whatever the canvas gives back, an image that [preprocessImage]
    resolves with is accepted as the model input: the tensor constructor of
    [runInference] does not refuse it, the session is run on a tensor of shape
    [1, 3, H, W], and its first output is decoded with the natural size of the
    image as the original size. *)
Theorem preprocessed_image_reaches_model load hasContext drawAndRead imageSrc W H
    result session thr iou :
  ImageProcessing.preprocessImage load hasContext drawAndRead imageSrc W H
  = JS.Normal result ->
  exists img,
    load imageSrc = Some img
    /\ ModelWorker.runInference session result thr iou
       = match session.(ModelWorker.run)
                 {[ ModelWorker.key (session.(ModelWorker.inputNames) !! 0)
                    := {| data := ImageProcessing.fillTensor (drawAndRead img W H) W H;
                          dims := [1; 3; H; W] |} ]} with
         | JS.Throw message => JS.Throw message
         | JS.Normal results =>
             match results !! ModelWorker.key (session.(ModelWorker.outputNames) !! 0) with
             | None => JS.Throw "Model output is undefined"
             | Some output =>
                 JS.Normal (ModelWorker.processYoloOutput output
                              img.(ImageProcessing.naturalWidth)
                              img.(ImageProcessing.naturalHeight) W H thr)
             end
         end.
Proof.
  unfold ImageProcessing.preprocessImage.
  destruct (load imageSrc) as [img|]; [|done].
  destruct hasContext; [|done]. cbn [negb]. intros [= <-].
  exists img. split; [done|].
  unfold ModelWorker.runInference, ModelWorker.newTensor. cbn [tensor width height].
  rewrite fillTensor_length.
  replace (foldr Nat.mul 1 [1; 3; H; W] =? 3 * H * W) with true
    by (symmetry; apply Nat.eqb_eq; cbn [foldr]; lia).
  reflexivity.
Qed.

Lemma preprocessed_image_reaches_model_witness :
  let load := fun _ : string => Some Examples.smallImage in
  let drawAndRead := fun (_ : ImageProcessing.Image) (_ _ : nat) => Examples.onePixel in
  exists img,
    load "nest.jpg"%string = Some img
    /\ ModelWorker.runInference (Examples.sessionGiving Examples.oneRow)
         Examples.onePixelImage Examples.half (JS.Num (9 # 20))
       = match (Examples.sessionGiving Examples.oneRow).(ModelWorker.run)
                 {[ ModelWorker.key
                      ((Examples.sessionGiving Examples.oneRow).(ModelWorker.inputNames) !! 0)
                    := {| data := ImageProcessing.fillTensor (drawAndRead img 1 1) 1 1;
                          dims := [1; 3; 1; 1] |} ]} with
         | JS.Throw message => JS.Throw message
         | JS.Normal results =>
             match results !! ModelWorker.key
                     ((Examples.sessionGiving Examples.oneRow).(ModelWorker.outputNames) !! 0)
             with
             | None => JS.Throw "Model output is undefined"
             | Some output =>
                 JS.Normal (ModelWorker.processYoloOutput output
                              img.(ImageProcessing.naturalWidth)
                              img.(ImageProcessing.naturalHeight) 1 1 Examples.half)
             end
         end.
Proof.
  intros load drawAndRead.
  apply (preprocessed_image_reaches_model load true drawAndRead "nest.jpg" 1 1
           Examples.onePixelImage (Examples.sessionGiving Examples.oneRow)
           Examples.half (JS.Num (9 # 20))).
  reflexivity.
Defined.

(** ** The choice of a backend *)

(** X13: the best available backend is the first one supported among
    webgpu, webgl and wasm, in this order; in particular it is always a
    supported one. *)
Theorem best_backend_is_first_supported env :
  head (List.filter (OnnxSetup.isBackendSupported env)
          ["webgpu"%string; "webgl"%string; "wasm"%string])
  = Some (OnnxSetup.getBestAvailableBackend env)
  /\ OnnxSetup.isBackendSupported env (OnnxSetup.getBestAvailableBackend env) = true.
Proof.
  unfold OnnxSetup.getBestAvailableBackend. cbn [List.filter].
  change (OnnxSetup.isBackendSupported env "webgpu") with (OnnxSetup.webgpuUsable env).
  change (OnnxSetup.isBackendSupported env "webgl") with (OnnxSetup.webgl env).
  change (OnnxSetup.isBackendSupported env "wasm") with true.
  destruct (OnnxSetup.webgpuUsable env) eqn:Hgpu.
  { split; [done|]. unfold OnnxSetup.isBackendSupported. by cbn. }
  destruct (OnnxSetup.webgl env) eqn:Hgl; [|done].
  split; [done|]. unfold OnnxSetup.isBackendSupported. by cbn.
Qed.

(** X14: when [configureOnnxRuntime] returns, the providers of its
    configuration start with the best available backend and end with wasm,
    name only supported backends and name none twice, and the thread count of
    the configuration is the one given to the runtime. *)
Theorem configured_providers env configuration threads :
  OnnxSetup.configureOnnxRuntime env = JS.Normal (configuration, threads) ->
  head configuration.(OnnxSetup.executionProviders)
  = Some (OnnxSetup.getBestAvailableBackend env)
  /\ last configuration.(OnnxSetup.executionProviders) = Some "wasm"%string
  /\ Forall (fun backend => OnnxSetup.isBackendSupported env backend = true)
       configuration.(OnnxSetup.executionProviders)
  /\ NoDup configuration.(OnnxSetup.executionProviders)
  /\ configuration.(OnnxSetup.numThreads) = threads.
Proof.
  unfold OnnxSetup.configureOnnxRuntime, OnnxSetup.getBestAvailableBackend.
  destruct (OnnxSetup.navigator env) as [nav|] eqn:Hnav; [|done]. cbv zeta.
  intros [= <- <-]. cbn [OnnxSetup.executionProviders OnnxSetup.numThreads].
  destruct (OnnxSetup.webgpuUsable env) eqn:Hgpu;
    [|destruct (OnnxSetup.webgl env) eqn:Hgl].
  - split; [done|]. split; [done|]. split; [|split; [|done]].
    + repeat constructor. unfold OnnxSetup.isBackendSupported. by cbn.
    + apply NoDup_cons. split; [|apply NoDup_singleton].
      intros Hin. apply list_elem_of_singleton in Hin. discriminate.
  - split; [done|]. split; [done|]. split; [|split; [|done]].
    + repeat constructor. unfold OnnxSetup.isBackendSupported. by cbn.
    + apply NoDup_cons. split; [|apply NoDup_singleton].
      intros Hin. apply list_elem_of_singleton in Hin. discriminate.
  - split; [done|]. split; [done|]. split; [|split; [|done]].
    + by repeat constructor.
    + apply NoDup_singleton.
Qed.

Lemma configured_providers_witness :
  let env := {| OnnxSetup.navigator :=
                  Some {| OnnxSetup.hardwareConcurrency := JS.Num 8;
                          OnnxSetup.gpu := false |};
                OnnxSetup.webgpu := true; OnnxSetup.webgl := true |} in
  let configuration := {| OnnxSetup.executionProviders := ["webgl"%string; "wasm"%string];
                          OnnxSetup.graphOptimizationLevel := "all";
                          OnnxSetup.numThreads := JS.Num 4 |} in
  head configuration.(OnnxSetup.executionProviders)
  = Some (OnnxSetup.getBestAvailableBackend env)
  /\ last configuration.(OnnxSetup.executionProviders) = Some "wasm"%string
  /\ Forall (fun backend => OnnxSetup.isBackendSupported env backend = true)
       configuration.(OnnxSetup.executionProviders)
  /\ NoDup configuration.(OnnxSetup.executionProviders)
  /\ configuration.(OnnxSetup.numThreads) = JS.Num 4.
Proof.
  intros env configuration.
  apply (configured_providers env configuration (JS.Num 4)). reflexivity.
Defined.


(** ** What is drawn *)

Section DrawnCalls.

Variable numberToString : JS.value -> string.
Variable textWidth : string -> string -> JS.value.

Lemma drawn_boxes_and_labels detections : forall font calls,
  let drawn := snd (fold_left
                      (fun state detection =>
                         Drawing.drawOne numberToString textWidth detection state)
                      detections (font, calls)) in
  Drawing.rectangles drawn = Drawing.rectangles calls ++ map bbox detections
  /\ Drawing.texts drawn
     = Drawing.texts calls ++ map (Drawing.label numberToString) detections.
Proof.
  induction detections as [|d rest IH]; intros font calls; cbn [fold_left map].
  - by rewrite !app_nil_r.
  - unfold Drawing.drawOne at 2 4.
    destruct (bbox d) as [[[x y] w] h] eqn:Hbox.
    destruct (IH "16px Arial"%string
                (calls ++ [ Drawing.setLineWidth (JS.Num 3);
                            Drawing.setStrokeStyle "#00FF00"; Drawing.beginPath;
                            Drawing.rect x y w h; Drawing.stroke;
                            Drawing.setFillStyle "rgba(0, 255, 0, 0.7)";
                            Drawing.fillRect x (JS.sub y (JS.Num 25))
                              (JS.add (textWidth font (Drawing.label numberToString d))
                                 (JS.Num 10)) (JS.Num 25);
                            Drawing.setFillStyle "#000000"; Drawing.setFont "16px Arial";
                            Drawing.fillText (Drawing.label numberToString d)
                              (JS.add x (JS.Num 5)) (JS.sub y (JS.Num 8)) ]))
      as [Hrect Htext].
    cbv zeta in Hrect, Htext. rewrite Hrect, Htext.
    unfold Drawing.rectangles, Drawing.texts. rewrite !flat_map_app. cbn [flat_map app].
    by rewrite <- !app_assoc.
Qed.

End DrawnCalls.

Lemma drawn_for_shown numberToString textWidth width height font detections threshold :
  let shown := List.filter (fun d => JS.ge (score d) threshold) detections in
  let calls := Drawing.drawDetections numberToString textWidth true true
                 width height font detections threshold in
  Drawing.rectangles calls = map bbox shown
  /\ Drawing.texts calls = map (Drawing.label numberToString) shown.
Proof.
  cbv zeta. unfold Drawing.drawDetections. cbn [negb].
  destruct (drawn_boxes_and_labels numberToString textWidth
              (List.filter (fun d => JS.ge (score d) threshold) detections) font [])
    as [Hrect Htext].
  cbv zeta in Hrect, Htext. split.
  - change (Drawing.rectangles (?a :: ?b :: ?l)) with (Drawing.rectangles l).
    by rewrite Hrect.
  - change (Drawing.texts (?a :: ?b :: ?l)) with (Drawing.texts l).
    by rewrite Htext.
Qed.


Lemma decoded_scores_not_below output ow oh mw mh (t : Q) d :
  In d (ModelUtils.processYoloOutput output ow oh mw mh (JS.Num t))
  \/ In d (ModelWorker.processYoloOutput output ow oh mw mh (JS.Num t)) ->
  JS.lt (score d) (JS.Num t) = false.
Proof.
  intros Hd. apply emitted_from_unit in Hd. destruct Hd as [u [_ [Hpass ->]]].
  apply passes_not_below in Hpass. destruct Hpass as [_ Hscore].
  unfold Spec.detectionOf.
  by destruct (Spec.rawBox (data output) u) as [[[cx cy] w] h].
Qed.

(** X17: drawing what the worker decoded, at a threshold that is not above
    the one of the decoding, leaves out exactly the detections whose score is
    not a number: a score that is NaN passes the tests of the decoder, written
    with [<], and fails the test of the drawing, written with [>=]. *)
Theorem decoded_detections_drawn_unless_nan numberToString textWidth width height font
    output ow oh mw mh (decoding drawing : Q) :
  (drawing <= decoding)%Q ->
  let detections :=
    ModelWorker.processYoloOutput output ow oh mw mh (JS.Num decoding) in
  Drawing.rectangles
    (Drawing.drawDetections numberToString textWidth true true width height font
       detections (JS.Num drawing))
  = map bbox (List.filter (fun d => isNumber (score d)) detections).
Proof.
  intros Hle detections.
  destruct (drawn_for_shown numberToString textWidth width height font detections
              (JS.Num drawing)) as [Hrect _].
  cbv zeta in Hrect. rewrite Hrect.
  f_equal. apply filter_ext_in. intros d Hd.
  pose proof (decoded_scores_not_below output ow oh mw mh decoding d (or_intror Hd)) as Hlt.
  destruct (score d) as [s| |]; [|done|done].
  cbn [JS.ge isNumber]. apply Qle_bool_iff.
  apply lt_false_le in Hlt. by apply Qle_trans with decoding.
Qed.

Lemma decoded_detections_drawn_unless_nan_witness :
  let detections :=
    ModelWorker.processYoloOutput Examples.oneRow 1000 500 640 640 (JS.Num (1 # 2)) in
  Drawing.rectangles
    (Drawing.drawDetections (fun _ => "87"%string) (fun _ _ => JS.Num 96) true true
       (JS.Num 1000) (JS.Num 500) "10px sans-serif" detections (JS.Num (1 # 4)))
  = map bbox (List.filter (fun d => isNumber (score d)) detections).
Proof.
  apply (decoded_detections_drawn_unless_nan (fun _ => "87"%string) (fun _ _ => JS.Num 96)
           (JS.Num 1000) (JS.Num 500) "10px sans-serif" Examples.oneRow 1000 500 640 640
           (1 # 2) (1 # 4)).
  unfold Qle; simpl; lia.
Defined.

(** ** Scores of the unit interval *)

Lemma unit_interval_product (a b : Q) :
  (0 <= a <= 1)%Q -> (0 <= b <= 1)%Q -> (0 <= Qred (a * b) <= 1)%Q.
Proof. intros Ha Hb. rewrite Qred_correct. nra. Qed.

Lemma unitScore_in_unit_interval values u :
  Spec.inUnitInterval (Spec.objectness values u) ->
  (forall x, Spec.slot values u 5 = JS.Num x -> (x <= 1)%Q) ->
  Spec.inUnitInterval (Spec.unitScore values u).
Proof.
  intros Hobj Hclass.
  destruct (Spec.objectness values u) as [a| |] eqn:Ha; try done. simpl in Hobj.
  assert (Hscored : Spec.inUnitInterval
                      (JS.mul (JS.Num a) (Spec.bestClassProbability values u))).
  { destruct (bestClassProbability_cases values u) as [->|[x [Hx [Hpos ->]]]];
      cbn [JS.mul Spec.inUnitInterval]; apply unit_interval_product; try done;
      try (apply Hclass in Hx); lra. }
  destruct u; cbn [Spec.unitScore]; rewrite ?Ha; try done.
  cbn [JS.mul Spec.inUnitInterval]. apply unit_interval_product; [done|lra].
Qed.

(** X18: nothing clamps a score, but each decoder reports a score of the
    unit interval for every unit that passes the filters, whose objectness
    lies in [0, 1] and whose class score at slot 5, when the branch reads one
    and it is a number, is at most 1; the box values may be of any size. *)
Theorem scores_in_unit_interval output ow oh mw mh thr :
  let values := output.(data) in
  let bounded := fun (u : Spec.unit) (s : JS.value) =>
    Spec.inUnitInterval (Spec.objectness values u) ->
    match u with
    | Spec.Row _ _ | Spec.Cell _ _ _ _ =>
        forall x, Spec.slot values u 5 = JS.Num x -> (x <= 1)%Q
    | _ => True
    end ->
    Spec.inUnitInterval s in
  Forall2 bounded (List.filter (Spec.passes values thr) (Spec.unitsUtils output))
    (map score (ModelUtils.processYoloOutput output ow oh mw mh thr))
  /\ Forall2 bounded (List.filter (Spec.passes values thr) (Spec.unitsWorker output))
       (map score (ModelWorker.processYoloOutput output ow oh mw mh thr)).
Proof.
  cbv zeta. rewrite utils_decoder_units, worker_decoder_units, !emitted_units, !map_map.
  assert (Hall : forall units,
             Forall2
               (fun (u : Spec.unit) (s : JS.value) =>
                  Spec.inUnitInterval (Spec.objectness (data output) u) ->
                  match u with
                  | Spec.Row _ _ | Spec.Cell _ _ _ _ =>
                      forall x, Spec.slot (data output) u 5 = JS.Num x -> (x <= 1)%Q
                  | _ => True
                  end ->
                  Spec.inUnitInterval s)
               units
               (map (fun u => score (Spec.detectionOf (data output) (scale ow mw)
                                       (scale oh mh) u)) units)).
  { induction units as [|u units IH]; cbn [map]; constructor; [|exact IH].
    intros Hobj Hclass. unfold Spec.detectionOf.
    destruct (Spec.rawBox (data output) u) as [[[cx cy] w] h]. cbn [score].
    destruct u; cbn [Spec.unitScore]; try done.
    - by apply (unitScore_in_unit_interval (data output) (Spec.Row K i)).
    - by apply (unitScore_in_unit_interval (data output) (Spec.Cell H W row col)).
    - destruct (Spec.objectness (data output) (Spec.BatchRow N E b i)) as [a| |];
        try done.
      cbn [JS.mul Spec.inUnitInterval]. simpl in Hobj.
      apply unit_interval_product; [done|lra]. }
  split; apply Hall.
Qed.

Lemma scores_in_unit_interval_witness :
  Forall2
    (fun (u : Spec.unit) (s : JS.value) =>
       Spec.inUnitInterval (Spec.objectness Examples.scoredRow.(data) u) ->
       match u with
       | Spec.Row _ _ | Spec.Cell _ _ _ _ =>
           forall x, Spec.slot Examples.scoredRow.(data) u 5 = JS.Num x -> (x <= 1)%Q
       | _ => True
       end ->
       Spec.inUnitInterval s)
    [Spec.Row 6 0] [JS.Num (18 # 25)].
Proof.
  exact (proj2 (scores_in_unit_interval Examples.scoredRow 1000 500 640 640 Examples.half)).
Defined.

(** ** The first version of the decoder *)

Lemma of_nat_mul a b : JS.mul (JS.of_nat a) (JS.of_nat b) = JS.of_nat (a * b).
Proof.
  unfold JS.of_nat. cbn [JS.mul]. f_equal.
  rewrite Nat2Z.inj_mul. apply (Qred_inject_Z (Z.of_nat a * Z.of_nat b)).
Qed.

Lemma of_nat_add a b : JS.add (JS.of_nat a) (JS.of_nat b) = JS.of_nat (a + b).
Proof.
  unfold JS.of_nat. cbn [JS.add]. f_equal.
  rewrite Nat2Z.inj_add. rewrite <- (Qred_inject_Z (Z.of_nat a + Z.of_nat b)).
  apply Qred_complete. unfold Qeq, Qplus. simpl. lia.
Qed.

Lemma element_of_nat data n : Legacy.element data (JS.of_nat n) = JS.read data n.
Proof.
  unfold Legacy.element, JS.of_nat, JS.read. rewrite index_of_integer.
  destruct (Z.leb_spec 0 (Z.of_nat n)); [|lia]. by rewrite Nat2Z.id.
Qed.

Lemma legacy_body_rows data thr xs ys K i acc :
  Legacy.body data thr xs ys (JS.of_nat K) i acc = rowsBody data thr xs ys K i acc.
Proof.
  unfold Legacy.body, rowsBody; cbv zeta. rewrite of_nat_mul.
  change (JS.Num 1) with (JS.of_nat 1). change (JS.Num 2) with (JS.of_nat 2).
  change (JS.Num 3) with (JS.of_nat 3). change (JS.Num 4) with (JS.of_nat 4).
  change (JS.Num 5) with (JS.of_nat 5).
  rewrite !of_nat_add, !element_of_nat.
  destruct (JS.lt (JS.read data (i * K + 4)) thr); [done|].
  rewrite !bestClass_single. rewrite !of_nat_add, !element_of_nat.
  change (scaledBox ?a ?b ?c ?d xs ys) with (scaledBox a b c d xs ys).
  reflexivity.
Qed.

Lemma legacy_body_no_size data thr xs ys i acc :
  Legacy.body data thr xs ys JS.Undefined i acc = acc ++ [Legacy.phantom].
Proof. reflexivity. Qed.

Lemma for_loop_ext {S : Type} (f g : nat -> S -> S) :
  (forall i s, f i s = g i s) ->
  forall n i s, JS.for_loop n i f s = JS.for_loop n i g s.
Proof.
  intros Hfg n. induction n as [|n IH]; intros i s; cbn [JS.for_loop]; [done|].
  by rewrite Hfg, IH.
Qed.

Lemma flat_map_constant {A B : Type} (b : B) (l : list A) :
  flat_map (fun _ => [b]) l = replicate (length l) b.
Proof. induction l as [|a l IH]; cbn; [done|]. by rewrite IH. Qed.

(** X19: the decoders kept the first version of the decoder on the shape
    it was written for: on every shape [[_, N, K]] with K > 5 the first
    version, which reads [dimensions[1]] and [dimensions[2]] without looking
    at the number of dimensions, returns what the utility decoder and the
    worker return now. *)
Theorem decoders_keep_first_version values b N K ow oh mw mh thr :
  5 < K ->
  ModelUtils.processYoloOutput {| data := values; dims := [b; N; K] |} ow oh mw mh thr
  = Legacy.processYoloOutput {| data := values; dims := [b; N; K] |} ow oh mw mh thr
  /\ ModelWorker.processYoloOutput {| data := values; dims := [b; N; K] |} ow oh mw mh thr
     = Legacy.processYoloOutput {| data := values; dims := [b; N; K] |} ow oh mw mh thr.
Proof.
  intros HK. rewrite utils_dispatch_3, worker_dispatch_3.
  destruct (Nat.ltb_spec 5 K); [|lia].
  unfold Legacy.processYoloOutput, decodeRows. cbn [data dims]. cbv zeta.
  change ([b; N; K] !! 1) with (Some N).
  change (Legacy.dimension [b; N; K] 2) with (JS.of_nat K).
  split; apply for_loop_ext; intros i s; symmetry; apply legacy_body_rows.
Qed.

Lemma decoders_keep_first_version_witness :
  ModelUtils.processYoloOutput
    {| data := Examples.scoredRow.(data); dims := [1; 1; 6] |} 1000 500 640 640 Examples.half
  = Legacy.processYoloOutput
      {| data := Examples.scoredRow.(data); dims := [1; 1; 6] |} 1000 500 640 640 Examples.half
  /\ ModelWorker.processYoloOutput
       {| data := Examples.scoredRow.(data); dims := [1; 1; 6] |} 1000 500 640 640
       Examples.half
     = Legacy.processYoloOutput
         {| data := Examples.scoredRow.(data); dims := [1; 1; 6] |} 1000 500 640 640
         Examples.half.
Proof.
  apply (decoders_keep_first_version Examples.scoredRow.(data) 1 1 6 1000 500 640 640
           Examples.half).
  lia.
Defined.

(** X20: on an output of two dimensions [[a, n]] the first version finds no
    record size ([dimensions[2]] is undefined), reads nothing from the buffer,
    and still reports n detections, each with a box and a score that are NaN,
    the class 0 and the name "birdnest", whatever the buffer and the threshold
    are. *)
Theorem first_version_reports_phantoms values a n ow oh mw mh thr :
  Legacy.processYoloOutput {| data := values; dims := [a; n] |} ow oh mw mh thr
  = replicate n Legacy.phantom.
Proof.
  unfold Legacy.processYoloOutput. cbn [data dims]. cbv zeta.
  change ([a; n] !! 1) with (Some n).
  change (Legacy.dimension [a; n] 2) with JS.Undefined.
  rewrite (for_loop_flat_map _ (fun _ => [Legacy.phantom])).
  - cbn [app]. by rewrite flat_map_constant, length_seq.
  - intros i acc. apply legacy_body_no_size.
Qed.

(** ** The page and its worker *)

Section PageAndWorker.

Variable create : string -> JS.completion ModelWorker.InferenceSession.
Variable load : string -> option ImageProcessing.Image.
Variable hasContext : bool.
Variable drawAndRead : ImageProcessing.Image -> nat -> nat -> list byte.

Lemma page_move_keeps_phase (f : Detector.State -> Detector.State) sys :
  (forall st, Detector.workerReady (f st) = Detector.workerReady st
              /\ Detector.isModelLoaded (f st) = Detector.isModelLoaded st
              /\ Detector.isProcessing (f st) = Detector.isProcessing st) ->
  Detector.phase load drawAndRead sys ->
  Detector.phase load drawAndRead (Detector.withPage f sys).
Proof.
  intros Hf Hphase. destruct (Hf (Detector.page sys)) as [Hready [Hloaded Hprocessing]].
  destruct Hphase;
    [ eapply Detector.loading | eapply Detector.loaded | eapply Detector.refused
    | eapply Detector.failed | eapply Detector.idle | eapply Detector.preparing
    | eapply Detector.requested | eapply Detector.answered ];
    unfold Detector.waiting, Detector.announced in *; cbn;
    rewrite ?Hready, ?Hloaded, ?Hprocessing; eauto.
Qed.

Lemma detect_needs_idle sys :
  Detector.phase load drawAndRead sys ->
  negb (Detector.controlsShown (Detector.page sys))
  || Detector.detectDisabled (Detector.page sys) = false ->
  Detector.phase load drawAndRead
    {| Detector.page :=
         Detector.setError None (Detector.setIsProcessing true (Detector.page sys));
       Detector.session := Detector.session sys;
       Detector.toWorker := Detector.toWorker sys;
       Detector.toPage := Detector.toPage sys;
       Detector.preprocessing :=
         Detector.preprocessing sys
         ++ [(Detector.imageUrl (Detector.page sys),
              Detector.confidenceThreshold (Detector.page sys))] |}
  /\ Detector.handleDetect (Detector.page sys)
     = (Detector.setError None (Detector.setIsProcessing true (Detector.page sys)),
        [(Detector.imageUrl (Detector.page sys),
          Detector.confidenceThreshold (Detector.page sys))]).
Proof.
  intros Hphase Henabled.
  unfold Detector.controlsShown, Detector.detectDisabled in Henabled.
  destruct (String.eqb (Detector.imageUrl (Detector.page sys)) "") eqn:Hurl;
    [done|]. cbn [negb orb] in Henabled.
  destruct (Detector.isProcessing (Detector.page sys)) eqn:Hprocessing; [done|].
  cbn [orb] in Henabled. apply negb_false_iff in Henabled.
  unfold Detector.handleDetect. rewrite Hurl.
  destruct Hphase as [? ? ? ? [_ [Hl _]]|? ? ? ? [_ [Hl _]]|m ? ? ? ? [_ [Hl _]]
                     |? ? ? ? [_ [Hl _]]|Hw Hp Hq Hs [Hr Hl] _|c ? ? ? ? ? Hpr
                     |i t ? ? ? ? ? ? Hpr|r ? ? ? ? ? ? Hpr]; try congruence.
  rewrite Hr. cbn [negb orb]. split; [|done].
  eapply Detector.preparing; cbn; rewrite ?Hq; eauto. by split.
Qed.

Lemma preprocessed_is_prepared url image :
  ImageProcessing.preprocessImage load hasContext drawAndRead url 640 640 = JS.Normal image ->
  Detector.prepared load drawAndRead image.
Proof.
  unfold ImageProcessing.preprocessImage.
  destruct (load url) as [img|] eqn:Hload; [|done].
  destruct hasContext; [|done]. cbn [negb]. intros [= <-]. by exists url, img.
Qed.

Lemma next_keeps_phase sys move :
  Detector.phase load drawAndRead sys ->
  Detector.phase load drawAndRead (Detector.next create load hasContext drawAndRead sys move).
Proof.
  intros Hphase. pose proof Hphase as Hkeep.
  destruct move as [| | |result| | |value| |k| |]; cbn [Detector.next].
  - by apply page_move_keeps_phase.
  - by apply page_move_keeps_phase.
  - by apply page_move_keeps_phase.
  - apply page_move_keeps_phase; [|done]. intros st. by destruct result.
  - by apply page_move_keeps_phase.
  - destruct (Detector.controlsShown _); [|done]. by apply page_move_keeps_phase.
  - destruct (Detector.controlsShown _); [|done]. by apply page_move_keeps_phase.
  - destruct (negb _ || _) eqn:Hguard; [done|].
    destruct (detect_needs_idle sys Hphase Hguard) as [Hnext ->]. exact Hnext.
  - destruct Hphase as [? ? Hq ? ?|? ? Hq ? ?|m ? ? Hq ? ?|? ? Hq ? ?|? ? Hq ? ? ?
                       |call Hw Hp Hq Hs Ha Hpr|i t ? ? Hq ? ? ? ?|r ? ? Hq ? ? ? ?];
      rewrite Hq; try exact Hkeep.
    destruct k as [|k]; cbn [lookup list_lookup]; [|exact Hkeep].
    unfold Detector.afterPreprocess.
    destruct (ImageProcessing.preprocessImage _ _ _ _ _ _) as [image|message] eqn:Himage.
    + eapply Detector.requested; cbn; rewrite ?Hw, ?Hp; eauto.
      by eapply preprocessed_is_prepared.
    + eapply Detector.idle; cbn; rewrite ?Hw, ?Hp; eauto.
  - destruct Hphase as [Hw Hp Hq Hs Hflags|Hw ? ? ? ?|m Hw ? ? ? ?|Hw ? ? ? ?|Hw ? ? ? ? ?
                       |c Hw ? ? ? ? ?|image t Hw Hp Hq Himage Hs Ha Hpr|r Hw ? ? ? ? ? ?];
      rewrite Hw; try exact Hkeep.
    + rewrite Hs. unfold ModelWorker.onmessage, ModelWorker.handle. cbn.
      destruct (create Detector.MODEL_URL) as [created|message]; cbn.
      * eapply Detector.loaded; cbn; rewrite ?Hp; eauto.
      * eapply Detector.refused; cbn; rewrite ?Hp; eauto.
    + destruct (onmessage_cases create (Detector.session sys)
                  (Detector.runInferenceOn image t))
        as [[m Hm]|[[ds [Hds _]]|[created [_ Htype]]]];
        [cbv zeta in Hm; rewrite Hm|cbv zeta in Hds; rewrite Hds|discriminate Htype];
        eapply Detector.answered; cbn; rewrite ?Hp; eauto.
  - destruct Hphase as [? Hp ? ? ?|Hw Hp Hq Hs [Hr [Hl Hpr]]|m Hw Hp Hq Hs [Hr [Hl Hpr]]
                       |? Hp ? ? ?|? Hp ? ? ? ?|c ? Hp ? ? ? ?|i t ? Hp ? ? ? ? ?
                       |reply Hw Hp Hq Hreply Hs [Hr Hl] Hpr];
      rewrite Hp; try exact Hkeep.
    + eapply Detector.idle; cbn; eauto. by split.
    + eapply Detector.failed; cbn; eauto. by repeat split.
    + eapply Detector.idle; cbn; eauto; destruct reply; try done; by split.
Qed.

Lemma run_keeps_phase moves : forall sys,
  Detector.phase load drawAndRead sys ->
  Detector.phase load drawAndRead (Detector.run create load hasContext drawAndRead sys moves).
Proof.
  induction moves as [|move moves IH]; intros sys Hphase; [done|].
  apply IH. by apply next_keeps_phase.
Qed.

Lemma mounted_phase : Detector.phase load drawAndRead Detector.mounted.
Proof. by eapply Detector.loading. Qed.

End PageAndWorker.






(** X23: a click on the detect button that is rendered and enabled is never
    ignored: the page shows that it is processing, clears the error, and starts
    to preprocess the image it shows, with the threshold of the slider. *)
Theorem enabled_detect_click_starts create load hasContext drawAndRead moves :
  let sys := Detector.run create load hasContext drawAndRead Detector.mounted moves in
  let st := Detector.page sys in
  Detector.controlsShown st = true -> Detector.detectDisabled st = false ->
  let sys' := Detector.next create load hasContext drawAndRead sys Detector.DetectClick in
  Detector.isProcessing (Detector.page sys') = true
  /\ Detector.error (Detector.page sys') = None
  /\ Detector.preprocessing sys'
     = [(Detector.imageUrl st, Detector.confidenceThreshold st)]
  /\ Detector.toWorker sys' = [] /\ Detector.toPage sys' = [].
Proof.
  intros sys st Hshown Henabled sys'. subst st.
  pose proof (run_keeps_phase create load hasContext drawAndRead moves Detector.mounted
                (mounted_phase load drawAndRead)) as Hphase.
  fold sys in Hphase.
  assert (Hguard : negb (Detector.controlsShown (Detector.page sys))
                   || Detector.detectDisabled (Detector.page sys) = false)
    by (by rewrite Hshown, Henabled).
  destruct (detect_needs_idle load drawAndRead sys Hphase Hguard) as [_ Hdetect].
  subst sys'. cbn [Detector.next]. rewrite Hguard, Hdetect. cbn.
  unfold Detector.detectDisabled in Henabled.
  destruct Hphase as [? ? ? ? [_ [Hl _]]|? ? ? ? [_ [Hl _]]|m ? ? ? ? [_ [Hl _]]
                     |? ? ? ? [_ [Hl _]]|Hw Hp Hq Hs [Hr Hl] Hpr|c ? ? ? ? ? Hpr
                     |i t ? ? ? ? ? ? Hpr|r ? ? ? ? ? ? Hpr];
    try (rewrite Hl in Henabled; by rewrite !orb_true_r in Henabled);
    try (rewrite Hpr in Henabled; done).
  by rewrite Hw, Hp, Hq.
Qed.

Lemma enabled_detect_click_starts_witness :
  let create := fun _ : string => JS.Normal (Examples.sessionGiving Examples.oneRow) in
  let load := fun _ : string => Some Examples.smallImage in
  let drawAndRead := fun (_ : ImageProcessing.Image) (_ _ : nat) => Examples.onePixel in
  let sys := Detector.run create load true drawAndRead Detector.mounted
               [Detector.WorkerHandles; Detector.PageReceives; Detector.ExampleClick;
                Detector.ThresholdChange (JS.Num (1 # 2))] in
  let sys' := Detector.next create load true drawAndRead sys Detector.DetectClick in
  Detector.isProcessing (Detector.page sys') = true
  /\ Detector.error (Detector.page sys') = None
  /\ Detector.preprocessing sys' = [(Detector.DEMO_IMAGE_URL, JS.Num (1 # 2))]
  /\ Detector.toWorker sys' = [] /\ Detector.toPage sys' = [].
Proof.
  intros create load drawAndRead sys.
  apply (enabled_detect_click_starts create load true drawAndRead
           [Detector.WorkerHandles; Detector.PageReceives; Detector.ExampleClick;
            Detector.ThresholdChange (JS.Num (1 # 2))]); reflexivity.
Defined.
